(** * PinProfit research pipeline: scoring, ranking, fetching and trend signals

    A shallow embedding of [backend/services/scraper.py],
    [backend/services/trend_detector.py], the research run and the progress
    broadcast of [backend/routers/research.py], and the socket registration
    of [backend/main.py], with the properties the specification states about
    them and further properties read off the code.

    Python's [float] is IEEE binary64; it is modelled by Rocq's primitive
    [float], so that every arithmetic operation and comparison below is the
    one the interpreter performs.  Python's [int] is [Z], [str] is [string],
    a value that may be [None] (or a key that may be missing from a dict) is
    an [option]. *)

From Stdlib Require Import ZArith List String Ascii Bool Lia.
From Stdlib Require Import Permutation Sorted.
From Stdlib Require Import Floats.
Import ListNotations.

(** ** Python built-ins on floats *)

Module Py.

Open Scope float_scope.

(** [bool(x)] for a float: every value but the zeros is true (NaN too). *)
Definition truthy (x : float) : bool := negb (x =? 0).

(** [v or 0] where [v] is [None] or a float. *)
Definition or0 (v : option float) : float :=
  match v with
  | Some x => if truthy x then x else 0
  | None => 0
  end.

(** [min(a, b)]: the first argument unless the second is strictly smaller. *)
Definition min (a b : float) : float := if b <? a then b else a.

(** Integer nearest to [num / den], ties to even ([0 <= num], [0 < den]). *)
Definition round_half_even (num den : Z) : Z :=
  let q := (num / den)%Z in
  let r := (num mod den)%Z in
  match (2 * r ?= den)%Z with
  | Lt => q
  | Gt => (q + 1)%Z
  | Eq => if Z.even q then q else (q + 1)%Z
  end.

(** [round(x, ndigits)] for [ndigits >= 0]: the exact binary value of [x] is
    rounded, ties to even, to [ndigits] decimal places, and the decimal so
    obtained is converted back to the nearest float (CPython's
    [double_round]: correctly rounded [dtoa] followed by [strtod]).
    Zeros, infinities and NaN are returned unchanged. *)
Definition round (x : float) (ndigits : nat) : float :=
  match Prim2SF x with
  | S754_finite s m e =>
      let p10 := (10 ^ Z.of_nat ndigits)%Z in
      let t := match e with
               | Zneg k => round_half_even (Zpos m * p10) (2 ^ Zpos k)
               | _ => (Zpos m * 2 ^ e * p10)%Z
               end in
      match t with
      | Zpos tp =>
          SF2Prim (SFdiv prec emax (S754_finite s tp 0)
                                   (S754_finite false (Z.to_pos p10) 0))
      | _ => if s then neg_zero else zero
      end
  | _ => x
  end.

(** The float of a Python integer (exact below [2^53]). *)
Definition of_int (n : Z) : float := of_uint63 (Uint63.of_Z n).

End Py.

Open Scope float_scope.

(** ** Python built-ins on strings

    [str.lower] is modelled on ASCII letters (the marketplace identifiers and
    the keyword tables are ASCII); other characters are left as they are. *)

Module Str.

Definition lower_ascii (c : ascii) : ascii :=
  let n := nat_of_ascii c in
  if Nat.leb 65 n && Nat.leb n 90 then ascii_of_nat (n + 32) else c.

Fixpoint lower (s : string) : string :=
  match s with
  | EmptyString => EmptyString
  | String c s' => String (lower_ascii c) (lower s')
  end.

(** [sub in s]. *)
Fixpoint contains (sub s : string) : bool :=
  String.prefix sub s ||
  match s with
  | EmptyString => false
  | String _ s' => contains sub s'
  end.

(** [bool(s)]: a string is true unless it is empty. *)
Definition truthy (s : string) : bool :=
  match s with
  | EmptyString => false
  | _ => true
  end.

End Str.

(** Texts are UTF-8 byte strings.  On ASCII text the byte-wise operations of
    this file are the interpreter's operations on [str]: [Str.lower] is
    [str.lower], the character classes of the parsers are those of the
    regular expressions, and [String.length] is [len].  Beyond ASCII they
    are not (the interpreter also folds non-ASCII capitals, takes every
    Unicode decimal digit for a digit and every Unicode space for a space,
    and counts characters, not bytes); the properties that depend on them
    are stated for ASCII text. *)
Definition is_ascii (s : string) : bool :=
  forallb (fun c => Nat.ltb (nat_of_ascii c) 128) (list_ascii_of_string s).

(** [d.get(k)] on a dict with string keys, written as an association list. *)
Fixpoint dict_get {V : Type} (k : string) (d : list (string * V)) : option V :=
  match d with
  | [] => None
  | (k', v) :: d' => if String.eqb k k' then Some v else dict_get k d'
  end.

(** ** Data model

    A listing is the dict the adapters build and the scoring engine annotates.
    A field of type [option] is [None] when the key is missing or holds
    [None] (for [stock_status] and [badges], under which no adapter stores
    [None]: when the key is missing); [title], [platform] and [url] are set
    by every adapter. *)

Record badge_flags := {
  bestseller : bool;
  amazons_choice : bool;
  deal_of_day : bool
}.

Record product := {
  title : string;
  platform : string;
  url : string;
  price : option float;
  mrp : option float;
  discount_pct : option float;
  rating : option float;
  review_count : option Z;
  asin : option string;
  image_url : option string;
  stock_status : option string;
  badges : option badge_flags;
  commission_estimate : option float;
  _exclude : option string;
  score : option float;
  trend_bonus : option Z
}.

(** The item assignments of the scoring engine ([score] and [trend_bonus] are
    assigned together, at the end of the loop body). *)
Definition set_commission_estimate (p : product) (v : float) : product :=
  {| title := title p; platform := platform p; url := url p; price := price p;
     mrp := mrp p; discount_pct := discount_pct p; rating := rating p;
     review_count := review_count p; asin := asin p; image_url := image_url p;
     stock_status := stock_status p; badges := badges p;
     commission_estimate := Some v; _exclude := _exclude p; score := score p;
     trend_bonus := trend_bonus p |}.

Definition set_exclude (p : product) (reason : string) : product :=
  {| title := title p; platform := platform p; url := url p; price := price p;
     mrp := mrp p; discount_pct := discount_pct p; rating := rating p;
     review_count := review_count p; asin := asin p; image_url := image_url p;
     stock_status := stock_status p; badges := badges p;
     commission_estimate := commission_estimate p; _exclude := Some reason;
     score := score p; trend_bonus := trend_bonus p |}.

Definition set_score (p : product) (s : float) (tb : Z) : product :=
  {| title := title p; platform := platform p; url := url p; price := price p;
     mrp := mrp p; discount_pct := discount_pct p; rating := rating p;
     review_count := review_count p; asin := asin p; image_url := image_url p;
     stock_status := stock_status p; badges := badges p;
     commission_estimate := commission_estimate p; _exclude := _exclude p;
     score := Some s; trend_bonus := Some tb |}.

(** The trend context: the dicts returned by the three trend fetchers. *)
Record query_row := { query : string; value : Z }.

Record google_trends := {
  gt_niche : string;
  interest_pct : Z;
  rising_queries : list (string * list query_row);
  breakout_queries : option (list (string * list query_row));
  related_topics : option (list (string * list query_row));
  is_trending : bool;
  error : option string
}.

Record realtime_events := {
  ev_niche : string;
  trending_topics : list string;
  detected_events : list string;
  combined : list string
}.

Record pinterest_trends := {
  pt_niche : string;
  trending_keywords : list string;
  is_trending_on_pinterest : bool
}.

(** ** The scoring engine ([_score_products]) *)

Definition MAX_WORKERS : Z := 4.
Definition MIN_SCORE : float := 70.

Definition commission_map : list (string * float) :=
  [ ("amazon"%string,   12);
    ("myntra"%string,   15);
    ("meesho"%string,   18);
    ("flipkart"%string, 10);
    ("ajio"%string,     14);
    ("nykaa"%string,    12);
    ("firstcry"%string, 10) ].

Definition commission_pct_of (platform_l : string) : float :=
  match dict_get platform_l commission_map with
  | Some c => c
  | None => 10
  end.

(** The running state of one iteration of the loop: the local [score] and
    the dict [p] being annotated. *)
Definition scoring := (float * product)%type.

(** 1. Commission potential. *)
Definition commission_stage (st : scoring) : scoring :=
  let '(score, p) := st in
  let commission_pct := commission_pct_of (Str.lower (platform p)) in
  let price := Py.or0 (price p) in
  let est_commission := Py.round (price * commission_pct / 100) 2 in
  let p := set_commission_estimate p est_commission in
  (score + Py.min 25 (commission_pct * 1.5), p).

(** 2. Rating. *)
Definition rating_stage (st : scoring) : scoring :=
  let '(score, p) := st in
  let rating := Py.or0 (rating p) in
  if 5 <=? rating then (score + 20, p)
  else if 4.5 <=? rating then (score + 18, p)
  else if 4 <=? rating then (score + 14, p)
  else if 3.5 <=? rating then (score + 7, p)
  else if (rating <? 3.5) && (0 <? rating)
       then (score, set_exclude p "rating_too_low")
  else (score, p).

(** 3. Review count. *)
Definition review_stage (st : scoring) : scoring :=
  let '(score, p) := st in
  let reviews := match review_count p with Some n => n | None => 0%Z end in
  if (5000 <=? reviews)%Z then (score + 20, p)
  else if (2000 <=? reviews)%Z then (score + 17, p)
  else if (1000 <=? reviews)%Z then (score + 14, p)
  else if (500 <=? reviews)%Z then (score + 10, p)
  else if (100 <=? reviews)%Z then (score + 5, p)
  else if (0 <? reviews)%Z then (score, set_exclude p "too_few_reviews")
  else (score, p).

(** 4. Price appropriateness. *)
Definition price_stage (st : scoring) : scoring :=
  let '(score, p) := st in
  let price := Py.or0 (price p) in
  if Py.truthy price then
    if (200 <=? price) && (price <=? 5000) then (score + 20, p)
    else if (100 <=? price) && (price <=? 10000) then (score + 12, p)
    else (score + 4, p)
  else (score, p).

(** 5. Stock status. *)
Definition stock_stage (st : scoring) : scoring :=
  let '(score, p) := st in
  let stock := match stock_status p with
               | Some s => s
               | None => "In Stock"%string
               end in
  if String.eqb stock "In Stock" then (score + 15, p)
  else if String.eqb stock "Limited Stock" then (score + 8, p)
  else (score, set_exclude p "out_of_stock").

(** 6. Trend bonuses. *)
Definition trend_stage (is_google_trending : bool) (keywords : list string)
    (st : scoring) : scoring :=
  let '(score, p) := st in
  let score := if is_google_trending then score + 10 else score in
  let title_lower := Str.lower (title p) in
  let score := if existsb (fun kw => Str.contains kw title_lower) keywords
               then score + 8 else score in
  let score := match badges p with
               | Some b => if bestseller b then score + 5 else score
               | None => score
               end in
  let score := match badges p with
               | Some b => if amazons_choice b then score + 3 else score
               | None => score
               end in
  (score, p).

(** One iteration of the loop body. *)
Definition score_one (is_google_trending : bool) (keywords : list string)
    (p : product) : product :=
  let st := (0, p) in
  let st := commission_stage st in
  let st := rating_stage st in
  let st := review_stage st in
  let st := price_stage st in
  let st := stock_stage st in
  let '(score, p) := trend_stage is_google_trending keywords st in
  set_score p (Py.min (Py.round score 1) 100) 0.

(** The filter of the return statement. *)
Definition excluded (p : product) : bool :=
  match _exclude p with
  | Some reason => Str.truthy reason
  | None => false
  end.

Definition passes (p : product) : bool :=
  negb (excluded p) && (MIN_SCORE <=? Py.or0 (score p)).

(** [_score_products] annotates the dicts of [products] in place and returns
    a new list holding those that pass.  The result is the pair of the input
    list as the call leaves it and the returned list; the elements of the
    second are the very dicts of the first.  (Every adapter builds a fresh
    dict per item, so the positions of the list identify the dicts.) *)
Definition _score_products (products : list product) (niche : string)
    (trends_data : google_trends) (events_data : realtime_events)
    (pinterest_data : pinterest_trends) : list product * list product :=
  let keywords := map Str.lower (trending_keywords pinterest_data) in
  let is_google_trending := is_trending trends_data in
  let products := map (score_one is_google_trending keywords) products in
  (products, filter passes products).

(** ** The adapters' listings

    What each adapter stores for one search-result item, given the values it
    extracted from the markup. *)

(** [scrape_amazon], the dict appended for one item. *)
Definition amazon_listing (title_ url_ : string) (price_ mrp_ : option float)
    (rating_ : option float) (review_count_ : option Z) (asin_ : string)
    (image_ : option string) (badges_ : badge_flags) : product :=
  {| title := title_;
     platform := "amazon";
     url := url_;
     price := price_;
     mrp := mrp_;
     discount_pct :=
       match mrp_, price_ with
       | Some m, Some p =>
           if Py.truthy m && Py.truthy p && (p <? m)
           then Some (Py.round ((m - p) / m * 100) 1)
           else None
       | _, _ => None
       end;
     rating := rating_;
     review_count := review_count_;
     asin := Some asin_;
     image_url := image_;
     stock_status := Some "In Stock"%string;
     badges := Some badges_;
     commission_estimate := None; _exclude := None; score := None;
     trend_bonus := None |}.

(** [scrape_flipkart], the dict appended for one item. *)
Definition flipkart_listing (title_ full_url : string)
    (price_ mrp_ : option float) (rating_ : option float)
    (image_ : option string) : product :=
  {| title := title_;
     platform := "flipkart";
     url := full_url;
     price := price_;
     mrp := mrp_;
     discount_pct := None;
     rating := rating_;
     review_count := None;
     asin := None;
     image_url := image_;
     stock_status := Some "In Stock"%string;
     badges := None;
     commission_estimate := None; _exclude := None; score := None;
     trend_bonus := None |}.

(** [scrape_myntra], the dict appended for one item. *)
Definition myntra_listing (title_ full_url : string)
    (price_ mrp_ : option float) (image_ : option string) : product :=
  {| title := title_;
     platform := "myntra";
     url := full_url;
     price := price_;
     mrp := mrp_;
     discount_pct := None;
     rating := None;
     review_count := None;
     asin := None;
     image_url := image_;
     stock_status := Some "In Stock"%string;
     badges := None;
     commission_estimate := None; _exclude := None; score := None;
     trend_bonus := None |}.

(** [scrape_meesho], [scrape_ajio], [scrape_nykaa] and [scrape_firstcry]
    store the same six keys, with their own platform name. *)
Definition basic_listing (platform_ title_ full_url : string)
    (price_ : option float) (image_ : option string) : product :=
  {| title := title_;
     platform := platform_;
     url := full_url;
     price := price_;
     mrp := None;
     discount_pct := None;
     rating := None;
     review_count := None;
     asin := None;
     image_url := image_;
     stock_status := Some "In Stock"%string;
     badges := None;
     commission_estimate := None; _exclude := None; score := None;
     trend_bonus := None |}.

(** ** The platform selector ([_determine_platforms]) *)

Definition fashion_kw : list string :=
  ["clothing"; "dress"; "saree"; "fashion"; "wear"; "kurta";
   "shirt"; "jeans"; "lehenga"; "tops"; "outfit"; "apparel"]%string.
Definition beauty_kw : list string :=
  ["beauty"; "makeup"; "skincare"; "cosmetic"; "lipstick";
   "moisturizer"; "serum"; "sunscreen"; "hair care"; "perfume"]%string.
Definition baby_kw : list string :=
  ["baby"; "infant"; "toddler"; "kids"; "children"; "newborn"]%string.

(** [x in l] for a list of strings. *)
Definition str_in (x : string) (l : list string) : bool :=
  existsb (String.eqb x) l.

(** [list(dict.fromkeys(l))]: duplicates removed, first occurrences kept. *)
Fixpoint fromkeys (seen l : list string) : list string :=
  match l with
  | [] => []
  | x :: l' => if str_in x seen then fromkeys seen l'
               else x :: fromkeys (x :: seen) l'
  end.

Definition _determine_platforms (niche : string) : list string :=
  let niche_l := Str.lower niche in
  let platforms := ["amazon"; "flipkart"]%string in
  let platforms :=
    if existsb (fun kw => Str.contains kw niche_l) fashion_kw
    then platforms ++ ["myntra"; "meesho"; "ajio"]%string else platforms in
  let platforms :=
    if existsb (fun kw => Str.contains kw niche_l) beauty_kw
    then platforms ++ ["nykaa"; "myntra"; "meesho"]%string else platforms in
  let platforms :=
    if existsb (fun kw => Str.contains kw niche_l) baby_kw
    then platforms ++ ["firstcry"; "meesho"]%string else platforms in
  let platforms :=
    if negb (str_in "meesho" platforms)
    then platforms ++ ["meesho"%string] else platforms in
  fromkeys [] platforms.

(** ** Ranking: [list.sort(key=..., reverse=True)]

    Python's sort is stable, also with [reverse=True], and compares keys with
    [<] only.  It is written as the stable insertion sort in descending key
    order: an element is placed before the first element whose key is
    strictly smaller than its own. *)

Section SortDesc.

Variable A : Type.
Variable key : A -> float.

Fixpoint insert_desc (x : A) (l : list A) : list A :=
  match l with
  | [] => [x]
  | y :: l' => if key y <? key x then x :: y :: l'
               else y :: insert_desc x l'
  end.

Definition sort_desc (l : list A) : list A :=
  fold_left (fun acc x => insert_desc x acc) l [].

End SortDesc.

Arguments insert_desc {A} key x l.
Arguments sort_desc {A} key l.

(** ** The pipeline entry point ([scrape_all_platforms])

    The adapters do network I/O; what one adapter call produces is given by
    [run]: [Some products], or [None] when the call raises.  The order in
    which the futures complete is given by [completion], applied to the
    submitted platforms. *)

Definition scrapers : list string :=
  ["amazon"; "flipkart"; "myntra"; "meesho"; "ajio"; "nykaa"; "firstcry"]%string.

Definition score_key (p : product) : float :=
  match score p with
  | Some s => s
  | None => 0
  end.

(** The executor block: the results of the adapter calls that return are
    concatenated in the order of completion; a call that raises is logged and
    contributes nothing. *)
Definition gather_products
    (run : string -> string -> option (list product))
    (completion : list string -> list string) (niche : string)
    : list product :=
  let relevant_platforms := _determine_platforms niche in
  let futures := filter (fun p => str_in p scrapers) relevant_platforms in
  fold_left
    (fun all_products platform_ =>
       match run platform_ niche with
       | Some products => all_products ++ products
       | None => all_products
       end)
    (completion futures) [].

(** "Filter by min score", then "Sort by score". *)
Definition rank_products (scored : list product) : list product :=
  let filtered :=
    filter (fun p => MIN_SCORE <=? Py.or0 (score p)) scored in
  sort_desc score_key filtered.

Definition scrape_all_platforms
    (run : string -> string -> option (list product))
    (completion : list string -> list string)
    (niche : string) (trends_data : google_trends)
    (events_data : realtime_events) (pinterest_data : pinterest_trends)
    : list product :=
  let all_products := gather_products run completion niche in
  let scored :=
    snd (_score_products all_products niche trends_data events_data
                         pinterest_data) in
  rank_products scored.

(** ** Exceptions

    A Python call either returns a value or raises.  Only subclasses of
    [Exception] are modelled (the ones [except Exception] catches); interrupts
    of the process are outside the model. *)

Inductive exn :=
  | IndexError
  | ValueError (msg : string)
  | OverflowError (msg : string)
  | RequestException (msg : string)
  | LibraryError (msg : string).

Inductive result (A : Type) :=
  | Ok (a : A)
  | Raise (e : exn).

Arguments Ok {A} a.
Arguments Raise {A} e.

(** [str(e)]. *)
Definition exn_str (e : exn) : string :=
  match e with
  | IndexError => "list index out of range"
  | ValueError m | OverflowError m | RequestException m | LibraryError m => m
  end.

(** Computations over a state [S] that may raise: the state is what the code
    mutates (and what is left behind when an exception unwinds). *)

Module Eff.

Definition M (S A : Type) : Type := S -> result A * S.

Definition ret {S A} (a : A) : M S A := fun s => (Ok a, s).

Definition bind {S A B} (c : M S A) (k : A -> M S B) : M S B :=
  fun s => match c s with
           | (Ok a, s') => k a s'
           | (Raise e, s') => (Raise e, s')
           end.

Definition raise {S A} (e : exn) : M S A := fun s => (Raise e, s).

(** A call of an external function, whose outcome is given. *)
Definition call {S A} (r : result A) : M S A := fun s => (r, s).

Definition get {S} : M S S := fun s => (Ok s, s).

Definition modify {S} (f : S -> S) : M S unit := fun s => (Ok tt, f s).

(** [try: c except Exception as e: h e]. *)
Definition try_except {S A} (c : M S A) (h : exn -> M S A) : M S A :=
  fun s => match c s with
           | (Ok a, s') => (Ok a, s')
           | (Raise e, s') => h e s'
           end.

End Eff.

Notation "x <- c ;; k" := (Eff.bind c (fun x => k))
  (at level 61, c at next level, right associativity).
Notation "c ;;; k" := (Eff.bind c (fun _ => k))
  (at level 61, right associativity).

(** ** The rate-limited fetcher ([_safe_get])

    The state threaded through a fetch: what the network will answer to the
    successive calls of [requests.get], how many calls were made, and the
    effects performed so far (most recent first). *)

Inductive http_outcome :=
  | Response (status_code : Z) (content : string)
  | NetworkError (msg : string).

Inductive event :=
  | Slept (extra : Z)        (* time.sleep(random.uniform(3, 6) + extra) *)
  | Cooldown                 (* time.sleep(60) *)
  | Requested (u : string)   (* requests.get(u, headers=_get_headers(), timeout=30) *)
  | Warned.                  (* logger.warning(...) *)

Record world := {
  server : nat -> http_outcome;
  calls : nat;
  trace : list event
}.

Inductive BeautifulSoup := Soup (content : string).

Definition emit (ev : event) : Eff.M world unit :=
  Eff.modify (fun w => {| server := server w; calls := calls w;
                          trace := ev :: trace w |}).

(** [requests.get(url, ...)]: the next answer of the network. *)
Definition requests_get (u : string) : Eff.M world (Z * string) :=
  fun w =>
    let w' := {| server := server w; calls := S (calls w);
                 trace := Requested u :: trace w |} in
    match server w (calls w) with
    | Response st body => (Ok (st, body), w')
    | NetworkError m => (Raise (RequestException m), w')
    end.

(** [l[i]]. *)
Definition index {S} (l : list Z) (i : nat) : Eff.M S Z :=
  match nth_error l i with
  | Some x => Eff.ret x
  | None => Eff.raise IndexError
  end.

Definition delays : list Z := [0; 5; 15]%Z.

(** The body of the [try] of one attempt: [Some soup] when the function
    returns from inside the loop, [None] when the loop goes on. *)
Definition attempt_body (u : string) (attempt : nat)
    : Eff.M world (option BeautifulSoup) :=
  extra <- index delays attempt ;;
  emit (Slept extra) ;;;
  r <- requests_get u ;;
  let '(status_code, content) := r in
  if (status_code =? 200)%Z then Eff.ret (Some (Soup content))
  else if (status_code =? 403)%Z || (status_code =? 429)%Z then
    emit Warned ;;; emit Cooldown ;;; Eff.ret None
  else
    emit Warned ;;; Eff.ret None.

(** [for attempt in attempts: try: ... except Exception: logger.warning(...)],
    followed by [return None]. *)
Fixpoint safe_get_loop (u : string) (attempts : list nat)
    : Eff.M world (option BeautifulSoup) :=
  match attempts with
  | [] => Eff.ret None
  | attempt :: rest =>
      r <- Eff.try_except (attempt_body u attempt)
             (fun _ => emit Warned ;;; Eff.ret None) ;;
      match r with
      | Some soup => Eff.ret (Some soup)
      | None => safe_get_loop u rest
      end
  end.

(** [_safe_get(url, retries)]; every caller leaves [retries] at its default,
    3. *)
Definition _safe_get (u : string) (retries : nat)
    : Eff.M world (option BeautifulSoup) :=
  safe_get_loop u (seq 0 retries).

(** A network that answers with the outcomes of [l], in order, and refuses
    the connection afterwards. *)
Definition server_of (l : list http_outcome) (n : nat) : http_outcome :=
  nth n l (NetworkError "connection refused").

Definition fresh_world (l : list http_outcome) : world :=
  {| server := server_of l; calls := 0; trace := [] |}.

(** ** The trend fetchers ([trend_detector.py]) *)

(** [int(x)] for a float. *)
Definition py_int (x : float) : result Z :=
  match Prim2SF x with
  | S754_nan => Raise (ValueError "cannot convert float NaN to integer")
  | S754_infinity _ =>
      Raise (OverflowError "cannot convert float infinity to integer")
  | S754_zero _ => Ok 0%Z
  | S754_finite s m e =>
      let a := match e with
               | Zneg k => (Zpos m / 2 ^ Zpos k)%Z
               | _ => (Zpos m * 2 ^ e)%Z
               end in
      Ok (if s then (- a)%Z else a)
  end.

(** [d[k] = v]. *)
Fixpoint dict_set {V : Type} (k : string) (v : V) (d : list (string * V))
    : list (string * V) :=
  match d with
  | [] => [(k, v)]
  | (k', v') :: d' => if String.eqb k k' then (k, v) :: d'
                      else (k', v') :: dict_set k v d'
  end.

(** [s.replace(" ", "+")]. *)
Fixpoint plus_for_spaces (s : string) : string :=
  match s with
  | EmptyString => EmptyString
  | String c s' =>
      String (if Ascii.eqb c " " then "+"%char else c) (plus_for_spaces s')
  end.

(** What the trends library answers.  A data frame is given by what the code
    reads of it: [interest_over_time] by the mean of the niche's column
    ([None] when the frame is empty or has no such column), a frame of rising
    queries by its rows ([None] when there is no frame). *)
Record pytrends := {
  TrendReq : result unit;
  build_payload : result unit;
  interest_over_time : result (option float);
  related_queries : result (list (string * option (list query_row)));
  related_topics_ : result (list (string * option (list query_row)));
  trending_searches : result (option (list string))
}.

(** What the web answers: the texts of the [h3, .BNeawe] elements of a search
    page, the texts of the first 100 [h2], [h3], [span] and [a] elements of
    the trends page, and the current month as [strftime("%B %Y")] prints
    it. *)
Record web := {
  google_search : string -> result (list string);
  pinterest_page : result (list string);
  month_year : string
}.

(** The dicts that the [try] blocks of [analyze_google_trends] fill in. *)
Record trend_locals := {
  l_rising : list (string * list query_row);
  l_breakout : list (string * list query_row);
  l_topics : list (string * list query_row)
}.

Definition rows_present (rows : option (list query_row))
    : option (list query_row) :=
  match rows with
  | Some (r :: rs) => Some (r :: rs)
  | _ => None
  end.

(** The first inner [try] block, for [kw_list = [niche]]. *)
Definition fill_rising (src : pytrends) (niche : string)
    : Eff.M trend_locals unit :=
  related <- Eff.call (related_queries src) ;;
  match dict_get niche related with
  | Some frames =>
      match rows_present frames with
      | Some rows =>
          let top_rising := firstn 10 rows in
          Eff.modify (fun l =>
            {| l_rising := dict_set niche top_rising (l_rising l);
               l_breakout :=
                 dict_set niche
                   (filter (fun q => (5000 <=? value q)%Z) top_rising)
                   (l_breakout l);
               l_topics := l_topics l |})
      | None => Eff.ret tt
      end
  | None => Eff.ret tt
  end.

(** The second inner [try] block. *)
Definition fill_topics (src : pytrends) (niche : string)
    : Eff.M trend_locals unit :=
  topics <- Eff.call (related_topics_ src) ;;
  match dict_get niche topics with
  | Some frames =>
      match rows_present frames with
      | Some rows =>
          Eff.modify (fun l =>
            {| l_rising := l_rising l; l_breakout := l_breakout l;
               l_topics := dict_set niche (firstn 5 rows) (l_topics l) |})
      | None => Eff.ret tt
      end
  | None => Eff.ret tt
  end.

(** The body of the outer [try]. *)
Definition google_trends_body (src : pytrends) (niche : string)
    : Eff.M trend_locals google_trends :=
  Eff.call (TrendReq src) ;;;
  Eff.call (build_payload src) ;;;
  frame <- Eff.call (interest_over_time src) ;;
  Eff.try_except (fill_rising src niche) (fun _ => Eff.ret tt) ;;;
  Eff.try_except (fill_topics src niche) (fun _ => Eff.ret tt) ;;;
  pct <- match frame with
         | Some mean => Eff.call (py_int mean)
         | None => Eff.ret 0%Z
         end ;;
  l <- Eff.get ;;
  Eff.ret {| gt_niche := niche;
             interest_pct := pct;
             rising_queries := l_rising l;
             breakout_queries := Some (l_breakout l);
             related_topics := Some (l_topics l);
             is_trending := (40 <? pct)%Z;
             error := None |}.

(** The dict returned by the handler of the outer [try]. *)
Definition neutral_trends (niche : string) (e : exn) : google_trends :=
  {| gt_niche := niche;
     interest_pct := 0;
     rising_queries := [];
     breakout_queries := None;
     related_topics := None;
     is_trending := false;
     error := Some (exn_str e) |}.

Definition analyze_google_trends (src : pytrends) (niche : string)
    : result google_trends :=
  fst (Eff.try_except (google_trends_body src niche)
         (fun e => Eff.ret (neutral_trends niche e))
         {| l_rising := []; l_breakout := []; l_topics := [] |}).

(** [list(set(l))]: the elements of [l] without repetition, in the order in
    which the interpreter iterates over the set, which is some rearrangement
    of them. *)
Record iteration_order := {
  iterate : list string -> list string;
  iterate_perm : forall l, Permutation (iterate l) l
}.

Definition list_of_set (o : iteration_order) (l : list string) : list string :=
  iterate o (nodup string_dec l).

Section SetOrder.

Variable o : iteration_order.

(** Source A of [detect_realtime_events]: the loop over the three queries,
    extending the list [events]. *)
Definition search_url (q : string) : string :=
  ("https://www.google.com/search?q=" ++ plus_for_spaces q ++ "&num=5")%string.

Fixpoint search_loop (net : web) (queries : list string)
    : Eff.M (list string) unit :=
  match queries with
  | [] => Eff.ret tt
  | q :: rest =>
      texts <- Eff.call (google_search net (search_url q)) ;;
      Eff.modify (fun events => events ++ firstn 5 texts) ;;;
      search_loop net rest
  end.

Definition event_queries (net : web) (niche : string) : list string :=
  [ "trending in India today";
    "upcoming festivals India " ++ month_year net;
    niche ++ " trending India" ]%string.

(** Source B: the trending searches of the trends library. *)
Definition trending_loop (src : pytrends) : Eff.M (list string) unit :=
  Eff.call (TrendReq src) ;;;
  trending <- Eff.call (trending_searches src) ;;
  match trending with
  | Some (t :: ts) => Eff.modify (fun _ => firstn 20 (t :: ts))
  | _ => Eff.ret tt
  end.

Definition detect_realtime_events (net : web) (src : pytrends)
    (niche : string) : result realtime_events :=
  let '(_, events) :=
    Eff.try_except (search_loop net (event_queries net niche))
      (fun _ => Eff.ret tt) [] in
  let '(_, topics) :=
    Eff.try_except (trending_loop src) (fun _ => Eff.ret tt) [] in
  let all_items := list_of_set o (events ++ topics) in
  Ok {| ev_niche := niche;
        trending_topics := firstn 15 topics;
        detected_events := firstn 10 events;
        combined := firstn 20 all_items |}.

(** The [try] block of [scrape_pinterest_trends], on the list
    [trending_keywords]. *)
Definition pinterest_body (net : web) (niche : string)
    : Eff.M (list string) unit :=
  items <- Eff.call (pinterest_page net) ;;
  Eff.modify (fun kws =>
    kws ++ filter (fun text =>
             Str.contains (Str.lower niche) (Str.lower text)
             || Nat.ltb (String.length text) 50) items) ;;;
  Eff.modify (fun kws => firstn 20 (list_of_set o kws)).

Definition scrape_pinterest_trends (net : web) (niche : string)
    : result pinterest_trends :=
  let '(_, kws) :=
    Eff.try_except (pinterest_body net niche) (fun _ => Eff.ret tt) [] in
  Ok {| pt_niche := niche;
        trending_keywords := kws;
        is_trending_on_pinterest := Nat.ltb 0 (List.length kws) |}.

End SetOrder.

(** ** Persistence: step 8 of [run_full_research]

    A row has the columns that are filled from the listing, the niche and
    the session; the columns [additional_images], [description],
    [feature_bullets] and [gemini_sell_reason] are read from keys no adapter
    sets and hold the same default in every row. *)

Record product_row := {
  r_title : string;
  r_platform : string;
  original_url : string;
  r_price : option float;
  r_mrp : option float;
  r_discount_pct : option float;
  r_rating : option float;
  r_review_count : option Z;
  r_asin : option string;
  r_image_url : option string;
  r_niche : string;
  r_score : option float;
  r_trend_bonus : option Z;
  r_commission_estimate : option float;
  affiliate_type : string;
  r_stock_status : option string;
  r_badges : option badge_flags;
  research_session_id : Z
}.

(** [affiliate_manager.determine_affiliate_type]. *)
Definition determine_affiliate_type (platform_ : string) : string :=
  if str_in (Str.lower platform_) ["amazon"%string]
  then "amazon_associates" else "cuelinks".

Definition product_row_of (session_id : Z) (niche : string) (p : product)
    : product_row :=
  {| r_title := title p;
     r_platform := platform p;
     original_url := url p;
     r_price := price p;
     r_mrp := mrp p;
     r_discount_pct := discount_pct p;
     r_rating := rating p;
     r_review_count := review_count p;
     r_asin := asin p;
     r_image_url := image_url p;
     r_niche := niche;
     r_score := score p;
     r_trend_bonus := trend_bonus p;
     r_commission_estimate := commission_estimate p;
     affiliate_type := determine_affiliate_type (platform p);
     r_stock_status := stock_status p;
     r_badges := badges p;
     research_session_id := session_id |}.

(** The [products] table, and whether the database accepts the n-th insert
    made on it. *)
Record database := {
  products_table : list product_row;
  accepts : nat -> result unit
}.

(** [sb.table("products").insert(row).execute()]. *)
Definition insert_product (row : product_row) : Eff.M database unit :=
  fun db =>
    match accepts db (List.length (products_table db)) with
    | Ok _ => (Ok tt, {| products_table := products_table db ++ [row];
                         accepts := accepts db |})
    | Raise e => (Raise e, db)
    end.

(** [for p in raw_products: insert ...; saved += 1], returning [saved]. *)
Fixpoint save_products (session_id : Z) (niche : string)
    (raw_products : list product) (saved : Z) : Eff.M database Z :=
  match raw_products with
  | [] => Eff.ret saved
  | p :: rest =>
      insert_product (product_row_of session_id niche p) ;;;
      save_products session_id niche rest (saved + 1)%Z
  end.

(** ** The numeric parsers ([_parse_price], [_parse_rating], [_parse_reviews])

    Texts are byte strings; the classes [\d] and [\s] of the regular
    expressions are modelled on ASCII. *)

Definition is_digit (c : ascii) : bool :=
  let n := nat_of_ascii c in Nat.leb 48 n && Nat.leb n 57.

Definition is_dot (c : ascii) : bool := Ascii.eqb c ".".

(** [\s]: tab, newline, vertical tab, form feed, carriage return, the four
    separators 28-31 and the space. *)
Definition is_space (c : ascii) : bool :=
  let n := nat_of_ascii c in
  (Nat.leb 9 n && Nat.leb n 13) || (Nat.leb 28 n && Nat.leb n 32).

Definition digit_value (c : ascii) : Z := Z.of_nat (nat_of_ascii c - 48).

(** The characters of [s] that satisfy [f]. *)
Fixpoint str_filter (f : ascii -> bool) (s : string) : string :=
  match s with
  | EmptyString => EmptyString
  | String c s' => if f c then String c (str_filter f s') else str_filter f s'
  end.

Fixpoint str_count (f : ascii -> bool) (s : string) : nat :=
  match s with
  | EmptyString => 0
  | String c s' => (if f c then 1 else 0) + str_count f s'
  end.

(** The longest prefix of [s] made of characters that satisfy [f], and what
    follows it. *)
Fixpoint take_while (f : ascii -> bool) (s : string) : string :=
  match s with
  | EmptyString => EmptyString
  | String c s' => if f c then String c (take_while f s') else EmptyString
  end.

Fixpoint drop_while (f : ascii -> bool) (s : string) : string :=
  match s with
  | EmptyString => EmptyString
  | String c s' => if f c then drop_while f s' else s
  end.

(** [s.split(c)[0]] and [s.split(c)[-1]] for a one-character separator. *)
Definition before_first (c : ascii) (s : string) : string :=
  take_while (fun x => negb (Ascii.eqb x c)) s.

Fixpoint after_last (c : ascii) (s : string) : string :=
  match s with
  | EmptyString => EmptyString
  | String x s' =>
      if existsb (Ascii.eqb c) (list_ascii_of_string s') then after_last c s'
      else if Ascii.eqb x c then s'
      else s
  end.

(** [int(s)] for a string of digits, continuing from [acc]. *)
Fixpoint int_of_digits (acc : Z) (s : string) : Z :=
  match s with
  | EmptyString => acc
  | String c s' => int_of_digits (10 * acc + digit_value c) s'
  end.

(** The float nearest to [n / 10^k] (ties to even), as [strtod] finds it. *)
Definition decimal_to_float (n : Z) (k : nat) : float :=
  match n with
  | Zpos p =>
      SF2Prim (SFdiv prec emax (S754_finite false p 0)
                 (S754_finite false (Z.to_pos (10 ^ Z.of_nat k)) 0))
  | _ => 0
  end.

(** [float(s)] for a string [s] of digits and dots: it is a number when it
    has a digit and at most one dot, and a [ValueError] otherwise. *)
Definition float_of_digits_and_dots (s : string) : result float :=
  if Nat.ltb 0 (str_count is_digit s) && Nat.leb (str_count is_dot s) 1 then
    let whole := take_while is_digit s in
    let fraction := str_filter is_digit (drop_while is_digit s) in
    Ok (decimal_to_float (int_of_digits 0 (whole ++ fraction)%string)
          (String.length fraction))
  else Raise (ValueError "could not convert string to float").

Definition _parse_price (text : string) : option float :=
  if Str.truthy text then
    let cleaned := str_filter (fun c => is_digit c || is_dot c) text in
    if Str.truthy cleaned then
      match float_of_digits_and_dots cleaned with
      | Ok x => Some x
      | Raise _ => None
      end
    else None
  else None.

(** The first match in [s] of the rating pattern: a run of digits, then
    optionally a dot, then the digits that follow it. *)
Definition number_at (s : string) : string :=
  let whole := take_while is_digit s in
  match drop_while is_digit s with
  | String "."%char rest => (whole ++ "." ++ take_while is_digit rest)%string
  | _ => whole
  end.

Fixpoint search_number (s : string) : option string :=
  match s with
  | EmptyString => None
  | String c s' => if is_digit c then Some (number_at s) else search_number s'
  end.

Definition _parse_rating (text : string) : option float :=
  if Str.truthy text then
    match search_number text with
    | Some m =>
        match float_of_digits_and_dots m with
        | Ok x => Some x
        | Raise _ => None
        end
    | None => None
    end
  else None.

(** The first run of digits in [s]. *)
Definition search_digits (s : string) : option string :=
  match drop_while (fun c => negb (is_digit c)) s with
  | EmptyString => None
  | rest => Some (take_while is_digit rest)
  end.

(** [int(s)] for a string of digits.  The interpreter refuses a numeral of
    more than [sys.get_int_max_str_digits()] digits (4300 unless configured
    otherwise, and never less than 640); [max_str_digits] is that limit,
    [None] for an interpreter without one. *)
Definition int_of_numeral (max_str_digits : option nat) (s : string)
    : result Z :=
  match max_str_digits with
  | Some limit =>
      if Nat.ltb limit (String.length s)
      then Raise (ValueError "Exceeds the limit for integer string conversion")
      else Ok (int_of_digits 0 s)
  | None => Ok (int_of_digits 0 s)
  end.

Definition _parse_reviews (max_str_digits : option nat) (text : string)
    : result (option Z) :=
  if Str.truthy text then
    let segment := before_first ")" (after_last "(" text) in
    let cleaned :=
      str_filter (fun c => negb (Ascii.eqb c "," || is_space c)) segment in
    match search_digits cleaned with
    | Some m =>
        match int_of_numeral max_str_digits m with
        | Ok n => Ok (Some n)
        | Raise e => Raise e
        end
    | None => Ok None
    end
  else Ok None.

(** ** The platform adapters ([scrape_amazon] ... [scrape_firstcry])

    A result page is read through CSS selectors.  The HTML parser is outside
    the model: a card of a page is given by what the adapter reads of it
    (for an element, [None] when [select_one] finds none; an element is true
    whatever it contains), and the cards a selector finds in a document are
    given in document order. *)

(** [s.replace(" ", by_)]. *)
Fixpoint replace_spaces (by_ s : string) : string :=
  match s with
  | EmptyString => EmptyString
  | String c s' =>
      if Ascii.eqb c " " then (by_ ++ replace_spaces by_ s')%string
      else String c (replace_spaces by_ s')
  end.

(** [el.get_text() if el else ""], for an element given by its text. *)
Definition text_or_empty (el : option string) : string :=
  match el with
  | Some text => text
  | None => ""
  end.

(** [image_el.get("src") if image_el else None], for an image given by its
    [src] attribute. *)
Definition src_of (image_el : option (option string)) : option string :=
  match image_el with
  | Some src => src
  | None => None
  end.

(** [link_el.get("href") if link_el else ""], for a link given by its [href]
    attribute: the value is [None] for a link without one. *)
Definition href_of (link_el : option (option string)) : option string :=
  match link_el with
  | Some href => href
  | None => Some ""%string
  end.

(** What the [try] block of one card comes to: a listing is appended, the
    card is passed over by [continue], or an exception is caught and logged
    at debug level. *)
Inductive card_outcome :=
  | Listed (p : product)
  | Skipped
  | Failed.

(** [for item in items: try: ... except Exception as e: logger.debug(...)],
    appending to [products]. *)
Fixpoint card_loop {card : Type} (body : card -> card_outcome)
    (items : list card) (products : list product) : list product :=
  match items with
  | [] => products
  | item :: rest =>
      card_loop body rest
        match body item with
        | Listed p => products ++ [p]
        | Skipped | Failed => products
        end
  end.

(** One search result of Amazon. *)
Record amazon_card := {
  a_title_el : option string;   (* "h2 a span", by its stripped text *)
  a_link_el : option string;    (* "h2 a", by link_el.get("href", "") *)
  a_price_el : option string;   (* ".a-price-whole", by its text *)
  a_mrp_el : option string;     (* ".a-text-price span", by its text *)
  a_rating_el : option string;  (* ".a-icon-alt", by its text *)
  a_review_el : option string;  (* ".a-size-small .a-link-normal span" *)
  a_image_el : option (option string);  (* ".s-image", by its src *)
  data_asin : string;           (* item.get("data-asin", "") *)
  a_badge_el : bool;            (* bool(item.select_one(".a-badge-text")) *)
  a_text : string               (* item.get_text() *)
}.

Definition amazon_body (max_str_digits : option nat) (item : amazon_card)
    : card_outcome :=
  match a_title_el item, a_link_el item with
  | Some title_, Some href =>
      let url_ := ("https://www.amazon.in" ++ before_first "?" href)%string in
      let price_ := _parse_price (text_or_empty (a_price_el item)) in
      let mrp_ := _parse_price (text_or_empty (a_mrp_el item)) in
      let badges_ :=
        {| bestseller := a_badge_el item;
           amazons_choice := Str.contains "Amazon's Choice" (a_text item);
           deal_of_day := Str.contains "Deal of the Day" (a_text item) |} in
      let rating_ := _parse_rating (text_or_empty (a_rating_el item)) in
      match _parse_reviews max_str_digits
              (text_or_empty (a_review_el item)) with
      | Ok review_count_ =>
          Listed (amazon_listing title_ url_ price_ mrp_ rating_
                    review_count_ (data_asin item) (src_of (a_image_el item))
                    badges_)
      | Raise _ => Failed
      end
  | _, _ => Skipped
  end.

(** One product card of Flipkart. *)
Record flipkart_card := {
  f_title_el : option (option string * string);
                                (* its title attribute and stripped text *)
  f_link_el : option (option string);   (* by its href *)
  f_price_el : option string;
  f_mrp_el : option string;
  f_rating_el : option string;
  f_image_el : option (option string)
}.

Definition flipkart_body (item : flipkart_card) : card_outcome :=
  match f_title_el item with
  | None => Skipped
  | Some (attribute, text) =>
      let title_ :=
        match attribute with
        | Some t => if Str.truthy t then t else text
        | None => text
        end in
      match href_of (f_link_el item) with
      | None => Failed          (* None has no startswith *)
      | Some href =>
          let full_url :=
            if String.prefix "/" href
            then ("https://www.flipkart.com" ++ href)%string else href in
          Listed (flipkart_listing title_ full_url
                    (_parse_price (text_or_empty (f_price_el item)))
                    (_parse_price (text_or_empty (f_mrp_el item)))
                    (_parse_rating (text_or_empty (f_rating_el item)))
                    (src_of (f_image_el item)))
      end
  end.

(** One product card of Myntra. *)
Record myntra_card := {
  m_title_el : option string;   (* ".product-brand, .product-product" *)
  m_brand : option string;      (* ".product-brand", by its stripped text *)
  m_name : option string;       (* ".product-product" *)
  m_price_el : option string;
  m_mrp_el : option string;
  m_image_el : option (option string * option string);
                                (* by its srcset and its src *)
  m_link_el : option (option string)
}.

Definition myntra_body (item : myntra_card) : card_outcome :=
  match m_title_el item with
  | None => Skipped
  | Some text =>
      let title_ :=
        match m_brand item, m_name item with
        | Some brand, Some name_ => (brand ++ " " ++ name_)%string
        | _, _ => text
        end in
      match href_of (m_link_el item) with
      | None => Failed
      | Some href =>
          let full_url :=
            if negb (String.prefix "http" href)
            then ("https://www.myntra.com/" ++ href)%string else href in
          Listed (myntra_listing title_ full_url
                    (_parse_price (text_or_empty (m_price_el item)))
                    (_parse_price (text_or_empty (m_mrp_el item)))
                    match m_image_el item with
                    | Some (Some srcset, _) => Some srcset
                    | Some (None, Some src) => Some src
                    | Some (None, None) => Some ""%string
                    | None => None
                    end)
      end
  end.

(** One product card of Meesho, Ajio, Nykaa or FirstCry. *)
Record basic_card := {
  b_title_el : option string;
  b_price_el : option string;
  b_image_el : option (option string);
  b_link_el : option (option string)
}.

Definition basic_body (platform_ : string) (full_url_of : string -> string)
    (item : basic_card) : card_outcome :=
  match b_title_el item with
  | None => Skipped
  | Some title_ =>
      match href_of (b_link_el item) with
      | None => Failed
      | Some href =>
          Listed (basic_listing platform_ title_ (full_url_of href)
                    (_parse_price (text_or_empty (b_price_el item)))
                    (src_of (b_image_el item)))
      end
  end.

(** The HTML parser: the cards that the selectors of an adapter find in a
    document.  Flipkart's are asked for by selector, those of Meesho, Ajio,
    Nykaa and FirstCry by platform. *)
Record html_parser := {
  amazon_cards : BeautifulSoup -> list amazon_card;
  flipkart_cards : string -> BeautifulSoup -> list flipkart_card;
  myntra_cards : BeautifulSoup -> list myntra_card;
  basic_cards : string -> BeautifulSoup -> list basic_card
}.

(** [for url in urls: soup = _safe_get(url); if not soup: continue; ...]. *)
Fixpoint amazon_pages (html : html_parser) (max_str_digits : option nat)
    (urls : list string) (products : list product)
    : Eff.M world (list product) :=
  match urls with
  | [] => Eff.ret products
  | u :: rest =>
      soup <- _safe_get u 3 ;;
      match soup with
      | None => amazon_pages html max_str_digits rest products
      | Some soup =>
          amazon_pages html max_str_digits rest
            (card_loop (amazon_body max_str_digits)
               (firstn 15 (amazon_cards html soup)) products)
      end
  end.

Definition scrape_amazon (html : html_parser) (max_str_digits : option nat)
    (niche : string) : Eff.M world (list product) :=
  let encoded := plus_for_spaces niche in
  let urls :=
    [("https://www.amazon.in/s?k=" ++ encoded ++ "&sort=review-rank")%string;
     ("https://www.amazon.in/s?k=" ++ encoded ++ "&sort=popularity-rank")%string]
  in
  amazon_pages html max_str_digits urls [].

(** [for selector in selectors: items = soup.select(selector); if items:
    break], starting from [items]. *)
Fixpoint first_selection {card : Type} (select : string -> list card)
    (selectors : list string) (items : list card) : list card :=
  match selectors with
  | [] => items
  | selector :: rest =>
      match select selector with
      | [] => first_selection select rest []
      | items => items
      end
  end.

(** The adapters that read one page: [soup = _safe_get(url); if not soup:
    return []], then the loop over the first 15 cards. *)
Definition one_page {card : Type} (u : string)
    (items_of : BeautifulSoup -> list card) (body : card -> card_outcome)
    : Eff.M world (list product) :=
  soup <- _safe_get u 3 ;;
  match soup with
  | None => Eff.ret []
  | Some soup => Eff.ret (card_loop body (firstn 15 (items_of soup)) [])
  end.

Definition scrape_flipkart (html : html_parser) (niche : string)
    : Eff.M world (list product) :=
  let encoded := replace_spaces "%20" niche in
  one_page
    ("https://www.flipkart.com/search?q=" ++ encoded ++ "&sort=popularity")
    (fun soup =>
       first_selection (fun selector => flipkart_cards html selector soup)
         ["div[data-id]"; "._1AtVbE"; "._13oc-S"]%string [])
    flipkart_body.

Definition scrape_myntra (html : html_parser) (niche : string)
    : Eff.M world (list product) :=
  let encoded := Str.lower (replace_spaces "-" niche) in
  one_page ("https://www.myntra.com/" ++ encoded) (myntra_cards html)
    myntra_body.

Definition scrape_meesho (html : html_parser) (niche : string)
    : Eff.M world (list product) :=
  let encoded := replace_spaces "%20" niche in
  one_page ("https://www.meesho.com/search?q=" ++ encoded)
    (basic_cards html "meesho")
    (basic_body "meesho"
       (fun href => if String.prefix "/" href
                    then ("https://www.meesho.com" ++ href)%string else href)).

Definition scrape_ajio (html : html_parser) (niche : string)
    : Eff.M world (list product) :=
  let encoded := plus_for_spaces niche in
  one_page ("https://www.ajio.com/search/?text=" ++ encoded)
    (basic_cards html "ajio")
    (basic_body "ajio"
       (fun href => if String.prefix "/" href
                    then ("https://www.ajio.com" ++ href)%string else href)).

Definition scrape_nykaa (html : html_parser) (niche : string)
    : Eff.M world (list product) :=
  let encoded := replace_spaces "%20" niche in
  one_page
    ("https://www.nykaa.com/search/result/?q=" ++ encoded ++ "&sort=popularity")
    (basic_cards html "nykaa")
    (basic_body "nykaa"
       (fun href => if String.prefix "/" href
                    then ("https://www.nykaa.com" ++ href)%string else href)).

Definition scrape_firstcry (html : html_parser) (niche : string)
    : Eff.M world (list product) :=
  let encoded := plus_for_spaces niche in
  one_page
    ("https://www.firstcry.com/search?q=" ++ encoded ++ "&sort=popularity")
    (basic_cards html "firstcry")
    (basic_body "firstcry"
       (fun href => if String.prefix "http" href then href
                    else ("https://www.firstcry.com" ++ href)%string)).

(** The [scrapers] dictionary of [scrape_all_platforms]. *)
Definition scraper_of (html : html_parser) (max_str_digits : option nat)
    (platform_ : string) : option (string -> Eff.M world (list product)) :=
  dict_get platform_
    [("amazon", scrape_amazon html max_str_digits);
     ("flipkart", scrape_flipkart html);
     ("myntra", scrape_myntra html);
     ("meesho", scrape_meesho html);
     ("ajio", scrape_ajio html);
     ("nykaa", scrape_nykaa html);
     ("firstcry", scrape_firstcry html)]%string.

(** The adapter calls of one run: each runs in a thread of its own, against
    the answers [network] holds for its platform; [future.result()] gives
    the products, or raises what the call raised. *)
Definition run_scrapers (html : html_parser) (max_str_digits : option nat)
    (network : string -> world) (platform_ niche : string)
    : option (list product) :=
  match scraper_of html max_str_digits platform_ with
  | Some scraper =>
      match fst (scraper niche (network platform_)) with
      | Ok products => Some products
      | Raise _ => None
      end
  | None => None
  end.

(** ** Progress over WebSockets ([research.broadcast_progress],
    [main.research_websocket])

    The coroutines are first taken one at a time, as they run when no other
    coroutine is scheduled at their [await]s; what the others can do there
    is added further down ([broadcast_progress_among]).  The dict
    [research_ws_connections] is given as the list it
    holds for each session, the empty list for a session without a key: no
    code deletes a key, a missing key and an empty list are sent the same
    nothing, and the only subscript, in the disconnect handler, follows the
    registration that created the key. *)

Definition socket := nat.

(** The dict that is serialised and sent. *)
Record payload := {
  step : option string;
  progress : Z;
  status : option string;
  products_found : option Z;
  error_text : option string
}.

Record hub := {
  research_ws_connections : Z -> list socket;
  is_open : socket -> bool;               (* whether send_text succeeds *)
  sent : list (socket * payload)          (* what was sent, oldest first *)
}.

Definition set_connections (session_id : Z) (connections : list socket)
    (h : hub) : hub :=
  {| research_ws_connections :=
       fun k => if Z.eqb k session_id then connections
                else research_ws_connections h k;
     is_open := is_open h;
     sent := sent h |}.

(** [l.remove(x)]: the first occurrence goes, and a list without [x]
    raises. *)
Fixpoint list_remove (x : socket) (l : list socket) : result (list socket) :=
  match l with
  | [] => Raise (ValueError "list.remove(x): x not in list")
  | y :: l' =>
      if Nat.eqb x y then Ok l'
      else match list_remove x l' with
           | Ok r => Ok (y :: r)
           | Raise e => Raise e
           end
  end.

(** [for ws in connections: try: await ws.send_text(...) except Exception:
    dead.append(ws)], returning [dead]. *)
Fixpoint send_loop (message : payload) (connections dead : list socket)
    : Eff.M hub (list socket) :=
  match connections with
  | [] => Eff.ret dead
  | ws :: rest =>
      h <- Eff.get ;;
      if is_open h ws then
        Eff.modify (fun h =>
          {| research_ws_connections := research_ws_connections h;
             is_open := is_open h;
             sent := sent h ++ [(ws, message)] |}) ;;;
        send_loop message rest dead
      else send_loop message rest (dead ++ [ws])
  end.

(** [for ws in dead: connections.remove(ws)], on the list of the session. *)
Fixpoint remove_loop (session_id : Z) (dead : list socket)
    : Eff.M hub unit :=
  match dead with
  | [] => Eff.ret tt
  | ws :: rest =>
      h <- Eff.get ;;
      connections <-
        Eff.call (list_remove ws (research_ws_connections h session_id)) ;;
      Eff.modify (set_connections session_id connections) ;;;
      remove_loop session_id rest
  end.

Definition broadcast_progress (session_id : Z) (message : payload)
    : Eff.M hub unit :=
  h <- Eff.get ;;
  let connections := research_ws_connections h session_id in
  dead <- send_loop message connections [] ;;
  remove_loop session_id dead.

(** [research_websocket], up to its receive loop: the socket is registered
    for the session. *)
Definition websocket_registered (session_id : Z) (ws : socket)
    : Eff.M hub unit :=
  Eff.modify (fun h =>
    set_connections session_id (research_ws_connections h session_id ++ [ws])
      h).

(** [research_websocket], the handler of [WebSocketDisconnect]. *)
Definition websocket_disconnected (session_id : Z) (ws : socket)
    : Eff.M hub unit :=
  h <- Eff.get ;;
  connections <-
    Eff.call (list_remove ws (research_ws_connections h session_id)) ;;
  Eff.modify (set_connections session_id connections).

(** ** The research run ([research.run_full_research])

    What the run leaves in the store: the [products] table, the row of each
    session (its status, count and error text), and the two logs. *)

Record session_row := {
  s_status : string;
  s_products_found : option Z;
  s_error_log : option string
}.

Record backend := {
  connections : hub;
  store : database;
  research_sessions : Z -> option session_row;
  evolution_log : list (string * Z);              (* niche, count *)
  evolution_performance_log : list (string * Z)   (* niche, products_found *)
}.

(** What the services outside the process answer during one run: the client
    factory, the serialisation of the trends data (whose values come from
    the trends library), and the four writes besides the product rows. *)
Record services := {
  get_supabase : result unit;
  dumps_trends_data : result unit;
  update_completed : result unit;
  insert_evolution_log : result unit;
  insert_performance_log : result unit;
  update_failed : result unit
}.

(** What the fetchers and adapters of one run read. *)
Record sources := {
  set_order : iteration_order;
  trends_library : pytrends;
  events_library : pytrends;
  the_web : web;
  html : html_parser;
  max_str_digits : option nat;
  network : string -> world;
  completion : list string -> list string
}.

Definition on_hub {A : Type} (c : Eff.M hub A) : Eff.M backend A :=
  fun b =>
    let '(r, h) := c (connections b) in
    (r, {| connections := h; store := store b;
           research_sessions := research_sessions b;
           evolution_log := evolution_log b;
           evolution_performance_log := evolution_performance_log b |}).

Definition on_store {A : Type} (c : Eff.M database A) : Eff.M backend A :=
  fun b =>
    let '(r, d) := c (store b) in
    (r, {| connections := connections b; store := d;
           research_sessions := research_sessions b;
           evolution_log := evolution_log b;
           evolution_performance_log := evolution_performance_log b |}).

(** [sb.table("research_sessions").update(...).eq("id", session_id)
    .execute()], whose outcome is [answer]: the rows with that id change. *)
Definition update_session (answer : result unit) (session_id : Z)
    (change : session_row -> session_row) : Eff.M backend unit :=
  Eff.call answer ;;;
  Eff.modify (fun b =>
    {| connections := connections b; store := store b;
       research_sessions :=
         fun k => if Z.eqb k session_id
                  then option_map change (research_sessions b k)
                  else research_sessions b k;
       evolution_log := evolution_log b;
       evolution_performance_log := evolution_performance_log b |}).

(** The inner [update] of [run_full_research]. *)
Definition update (session_id : Z) (step_ : string) (pct : Z)
    (status_ : option string) (found : option Z) : Eff.M backend unit :=
  on_hub (broadcast_progress session_id
            {| step := Some step_; progress := pct; status := status_;
               products_found := found; error_text := None |}).

(** [evolution_engine.log_research_complete]. *)
Definition log_research_complete (svc : services) (niche : string)
    (found : Z) : Eff.M backend unit :=
  Eff.try_except
    (Eff.call (get_supabase svc) ;;;
     Eff.call (insert_performance_log svc) ;;;
     Eff.modify (fun b =>
       {| connections := connections b; store := store b;
          research_sessions := research_sessions b;
          evolution_log := evolution_log b;
          evolution_performance_log :=
            evolution_performance_log b ++ [(niche, found)] |}))
    (fun _ => Eff.ret tt).

(** The body of the [try]. *)
Definition research_steps (src : sources) (svc : services) (session_id : Z)
    (niche : string) : Eff.M backend unit :=
  update session_id "Analyzing Google Trends for your niche..." 5 None None ;;;
  trends_data <-
    Eff.call (analyze_google_trends (trends_library src) niche) ;;
  update session_id "Detecting real-time events and trends in India..." 15
    None None ;;;
  events_data <-
    Eff.call (detect_realtime_events (set_order src) (the_web src)
                (events_library src) niche) ;;
  update session_id "Scraping Pinterest trends for your niche..." 25
    None None ;;;
  pinterest_data <-
    Eff.call (scrape_pinterest_trends (set_order src) (the_web src) niche) ;;
  update session_id
    "Finding products across Amazon, Flipkart, Myntra, Meesho..." 35
    None None ;;;
  let raw_products :=
    scrape_all_platforms
      (run_scrapers (html src) (max_str_digits src) (network src))
      (completion src) niche trends_data events_data pinterest_data in
  update session_id "Running competitor analysis on Pinterest..." 60
    None None ;;;
  update session_id "Scoring and ranking products..." 75 None None ;;;
  update session_id "Checking for duplicate products..." 85 None None ;;;
  update session_id "Saving results to database..." 92 None None ;;;
  saved <- on_store (save_products session_id niche raw_products 0) ;;
  Eff.call (dumps_trends_data svc) ;;;
  update_session (update_completed svc) session_id
    (fun row => {| s_status := "completed"; s_products_found := Some saved;
                   s_error_log := s_error_log row |}) ;;;
  Eff.call (insert_evolution_log svc) ;;;
  Eff.modify (fun b =>
    {| connections := connections b; store := store b;
       research_sessions := research_sessions b;
       evolution_log := evolution_log b ++ [(niche, saved)];
       evolution_performance_log := evolution_performance_log b |}) ;;;
  update session_id "Research complete!" 100 (Some "completed"%string)
    (Some saved) ;;;
  log_research_complete svc niche saved.

(** The handler of the [try]. *)
Definition research_failed (svc : services) (session_id : Z) (e : exn)
    : Eff.M backend unit :=
  Eff.try_except
    (update_session (update_failed svc) session_id
       (fun row => {| s_status := "failed";
                      s_products_found := s_products_found row;
                      s_error_log := Some (exn_str e) |}))
    (fun _ => Eff.ret tt) ;;;
  on_hub (broadcast_progress session_id
            {| step := None; progress := 0; status := Some "failed"%string;
               products_found := None;
               error_text := Some "Research failed. Please try again."%string |}).

Definition run_full_research (src : sources) (svc : services)
    (session_id : Z) (niche : string) : Eff.M backend unit :=
  Eff.call (get_supabase svc) ;;;
  Eff.try_except (research_steps src svc session_id niche)
    (research_failed svc session_id).

(** ** The coroutines among the others

    [broadcast_progress] and [run_full_research] above are the coroutines
    when nothing else runs at their [await]s.  At an [await] the event loop
    may run other coroutines: the registration and the disconnect handler of
    [research_websocket] change the session table, and a client that goes
    away closes its socket.  A schedule lists what the others do at the
    successive suspensions of the coroutine; once it is used up, they do
    nothing more. *)

Inductive interference :=
  | Registered (session_id : Z) (ws : socket)     (* main.py, lines 81 to 84 *)
  | Disconnected (session_id : Z) (ws : socket)   (* main.py, line 89 *)
  | Closed (ws : socket).                 (* sending to it fails from now on *)

(** A disconnect handler whose [remove] raises ends there and changes
    nothing. *)
Definition occurs (h : hub) (ev : interference) : hub :=
  match ev with
  | Registered session_id ws => snd (websocket_registered session_id ws h)
  | Disconnected session_id ws => snd (websocket_disconnected session_id ws h)
  | Closed ws =>
      {| research_ws_connections := research_ws_connections h;
         is_open := fun x => negb (Nat.eqb x ws) && is_open h x;
         sent := sent h |}
  end.

Record scene := {
  backstage : backend;
  pending : list (list interference)
}.

(** A step of the coroutine that has no [await]. *)
Definition quietly {A : Type} (c : Eff.M backend A) : Eff.M scene A :=
  fun sc =>
    let '(r, b) := c (backstage sc) in
    (r, {| backstage := b; pending := pending sc |}).

(** An [await] at which the coroutine is suspended: the others take their
    next turn. *)
Definition suspended : Eff.M scene unit :=
  Eff.modify (fun sc =>
    match pending sc with
    | [] => sc
    | turn :: rest =>
        {| backstage :=
             {| connections :=
                  fold_left occurs turn (connections (backstage sc));
                store := store (backstage sc);
                research_sessions := research_sessions (backstage sc);
                evolution_log := evolution_log (backstage sc);
                evolution_performance_log :=
                  evolution_performance_log (backstage sc) |};
           pending := rest |}
    end).

(** The list of the session, as the iterator of the loop finds it. *)
Definition session_list (session_id : Z) (sc : scene) : list socket :=
  research_ws_connections (connections (backstage sc)) session_id.

(** [for ws in connections: try: await ws.send_text(...) except Exception:
    dead.append(ws)] when the list can change under the loop: the iterator
    holds a position [i] in the list and stops when the list has no element
    at that position.  [suspensions] is the length of the schedule; when it
    is used up the rest of the list is sent to as by [send_loop]. *)
Fixpoint send_loop_among (session_id : Z) (message : payload)
    (suspensions i : nat) (dead : list socket) : Eff.M scene (list socket) :=
  match suspensions with
  | 0 =>
      sc <- Eff.get ;;
      quietly (on_hub (send_loop message
                         (skipn i (session_list session_id sc)) dead))
  | S n =>
      sc <- Eff.get ;;
      match nth_error (session_list session_id sc) i with
      | None => Eff.ret dead
      | Some ws =>
          suspended ;;;
          sc' <- Eff.get ;;
          if is_open (connections (backstage sc')) ws then
            quietly (on_hub (Eff.modify (fun h =>
              {| research_ws_connections := research_ws_connections h;
                 is_open := is_open h;
                 sent := sent h ++ [(ws, message)] |}))) ;;;
            send_loop_among session_id message n (S i) dead
          else send_loop_among session_id message n (S i) (dead ++ [ws])
      end
  end.

(** [broadcast_progress] among the others; the removal loop has no
    [await]. *)
Definition broadcast_progress_among (session_id : Z) (message : payload)
    : Eff.M scene unit :=
  sc <- Eff.get ;;
  dead <- send_loop_among session_id message (List.length (pending sc)) 0 [] ;;
  quietly (on_hub (remove_loop session_id dead)).

Definition update_among (session_id : Z) (step_ : string) (pct : Z)
    (status_ : option string) (found : option Z) : Eff.M scene unit :=
  broadcast_progress_among session_id
    {| step := Some step_; progress := pct; status := status_;
       products_found := found; error_text := None |}.

(** [run_full_research] among the others: besides the broadcasts, it is
    suspended at each [await asyncio.to_thread(...)]. *)
Definition research_steps_among (src : sources) (svc : services)
    (session_id : Z) (niche : string) : Eff.M scene unit :=
  update_among session_id "Analyzing Google Trends for your niche..." 5
    None None ;;;
  suspended ;;;
  trends_data <-
    Eff.call (analyze_google_trends (trends_library src) niche) ;;
  update_among session_id
    "Detecting real-time events and trends in India..." 15 None None ;;;
  suspended ;;;
  events_data <-
    Eff.call (detect_realtime_events (set_order src) (the_web src)
                (events_library src) niche) ;;
  update_among session_id "Scraping Pinterest trends for your niche..." 25
    None None ;;;
  suspended ;;;
  pinterest_data <-
    Eff.call (scrape_pinterest_trends (set_order src) (the_web src) niche) ;;
  update_among session_id
    "Finding products across Amazon, Flipkart, Myntra, Meesho..." 35
    None None ;;;
  suspended ;;;
  let raw_products :=
    scrape_all_platforms
      (run_scrapers (html src) (max_str_digits src) (network src))
      (completion src) niche trends_data events_data pinterest_data in
  update_among session_id "Running competitor analysis on Pinterest..." 60
    None None ;;;
  update_among session_id "Scoring and ranking products..." 75 None None ;;;
  update_among session_id "Checking for duplicate products..." 85
    None None ;;;
  update_among session_id "Saving results to database..." 92 None None ;;;
  saved <- quietly (on_store (save_products session_id niche raw_products 0)) ;;
  Eff.call (dumps_trends_data svc) ;;;
  quietly (update_session (update_completed svc) session_id
    (fun row => {| s_status := "completed"; s_products_found := Some saved;
                   s_error_log := s_error_log row |})) ;;;
  Eff.call (insert_evolution_log svc) ;;;
  quietly (Eff.modify (fun b =>
    {| connections := connections b; store := store b;
       research_sessions := research_sessions b;
       evolution_log := evolution_log b ++ [(niche, saved)];
       evolution_performance_log := evolution_performance_log b |})) ;;;
  update_among session_id "Research complete!" 100 (Some "completed"%string)
    (Some saved) ;;;
  quietly (log_research_complete svc niche saved).

Definition research_failed_among (svc : services) (session_id : Z) (e : exn)
    : Eff.M scene unit :=
  quietly (Eff.try_except
    (update_session (update_failed svc) session_id
       (fun row => {| s_status := "failed";
                      s_products_found := s_products_found row;
                      s_error_log := Some (exn_str e) |}))
    (fun _ => Eff.ret tt)) ;;;
  broadcast_progress_among session_id
    {| step := None; progress := 0; status := Some "failed"%string;
       products_found := None;
       error_text := Some "Research failed. Please try again."%string |}.

Definition run_full_research_among (src : sources) (svc : services)
    (session_id : Z) (niche : string) : Eff.M scene unit :=
  Eff.call (get_supabase svc) ;;;
  Eff.try_except (research_steps_among src svc session_id niche)
    (research_failed_among svc session_id).

(** ** The definitions at work *)

Example round_ties_to_even :
  Py.round 2.5 0 = 2 /\ Py.round 1.5 0 = 2 /\ Py.round 0.25 1 = 1 / 5 /\
  Py.round 22.5 1 = 22.5 /\ Py.round 119.875 2 = 11988 / 100.
Proof. vm_compute. repeat split; reflexivity. Qed.

Example platforms_for_baby_clothing :
  _determine_platforms "Baby Clothing"
  = ["amazon"; "flipkart"; "myntra"; "meesho"; "ajio"; "firstcry"]%string.
Proof. reflexivity. Qed.

Example platforms_for_yoga_mats :
  _determine_platforms "yoga mats" = ["amazon"; "flipkart"; "meesho"]%string.
Proof. reflexivity. Qed.

Example score_of_a_bestseller :
  let p := amazon_listing "Yoga Mat" "https://www.amazon.in/Yoga-Mat/dp/B0MAT"
             (Some 999) (Some 1999) (Some 4.5) (Some 6000%Z) "B0MAT" None
             {| bestseller := true; amazons_choice := false;
                deal_of_day := false |} in
  discount_pct p = Some 50 /\
  score (score_one false [] p) = Some 96 /\
  commission_estimate (score_one false [] p) = Some (11988 / 100) /\
  score (score_one true ["yoga"%string] p) = Some 100.
Proof. vm_compute. repeat split; reflexivity. Qed.

Example fetch_after_two_throttles :
  let '(r, w) :=
    _safe_get "https://www.amazon.in/s?k=yoga+mats" 3
      (fresh_world [Response 429 ""; Response 429 ""; Response 200 "<html>"]) in
  r = Ok (Some (Soup "<html>")) /\ calls w = 3%nat /\
  trace w = [Requested "https://www.amazon.in/s?k=yoga+mats"; Slept 15;
             Cooldown; Warned;
             Requested "https://www.amazon.in/s?k=yoga+mats"; Slept 5;
             Cooldown; Warned;
             Requested "https://www.amazon.in/s?k=yoga+mats"; Slept 0].
Proof. cbn. repeat split; reflexivity. Qed.

(** A number: any float but NaN. *)
Definition is_number (x : float) : Prop := (x <=? x) = true.

(** * Properties *)

(** ** The order of floats

    The comparisons of primitive floats are specified by [SFcompare] on their
    decoded form; what the ranking needs of them is derived here once. *)

Section FloatOrder.

Ltac sf_cases :=
  repeat match goal with
  | s : bool |- _ => destruct s
  | H : context [Z.compare ?a ?b] |- _ => destruct (Z.compare_spec a b)
  | H : context [Pos.compare_cont Eq ?a ?b] |- _ =>
      change (Pos.compare_cont Eq a b) with (Pos.compare a b) in *;
      destruct (Pos.compare_spec a b)
  | |- context [Z.compare ?a ?b] => destruct (Z.compare_spec a b)
  | |- context [Pos.compare_cont Eq ?a ?b] =>
      change (Pos.compare_cont Eq a b) with (Pos.compare a b) in *;
      destruct (Pos.compare_spec a b)
  end;
  cbn in *; try congruence; try lia.

Lemma SFleb_trans (a b c : spec_float) :
  SFleb a b = true -> SFleb b c = true -> SFleb a c = true.
Proof.
  unfold SFleb, SFcompare.
  destruct a as [sa|sa| |sa ma ea], b as [sb|sb| |sb mb eb],
           c as [sc|sc| |sc mc ec]; intros H1 H2; sf_cases.
Qed.

Lemma SFltb_negb_leb (a b : spec_float) :
  SFleb a a = true -> SFleb b b = true -> SFltb a b = negb (SFleb b a).
Proof.
  unfold SFleb, SFltb, SFcompare.
  destruct a as [sa|sa| |sa ma ea], b as [sb|sb| |sb mb eb];
    intros H1 H2; sf_cases.
Qed.

Lemma SFleb_number_l (a b : spec_float) : SFleb a b = true -> SFleb a a = true.
Proof.
  unfold SFleb, SFcompare.
  destruct a as [sa|sa| |sa ma ea], b as [sb|sb| |sb mb eb]; intros H1; sf_cases.
Qed.

Lemma SFleb_number_r (a b : spec_float) : SFleb a b = true -> SFleb b b = true.
Proof.
  unfold SFleb, SFcompare.
  destruct a as [sa|sa| |sa ma ea], b as [sb|sb| |sb mb eb]; intros H1; sf_cases.
Qed.

Lemma SFeqb_leb (a b : spec_float) :
  SFeqb a b = true -> SFleb a b = true /\ SFleb b a = true.
Proof.
  unfold SFleb, SFeqb, SFcompare.
  destruct a as [sa|sa| |sa ma ea], b as [sb|sb| |sb mb eb]; intros H1;
    split; sf_cases.
Qed.

Lemma SFltb_neq (a b : spec_float) : SFltb a b = true -> SFeqb b a = false.
Proof.
  unfold SFltb, SFeqb, SFcompare.
  destruct a as [sa|sa| |sa ma ea], b as [sb|sb| |sb mb eb]; intros H1;
    sf_cases.
Qed.

Lemma leb_trans (x y z : float) :
  (x <=? y) = true -> (y <=? z) = true -> (x <=? z) = true.
Proof. rewrite !leb_spec. apply SFleb_trans. Qed.

Lemma ltb_negb_leb (x y : float) :
  is_number x -> is_number y -> (x <? y) = negb (y <=? x).
Proof. unfold is_number. rewrite ltb_spec, !leb_spec. apply SFltb_negb_leb. Qed.

Lemma leb_is_number_l (x y : float) : (x <=? y) = true -> is_number x.
Proof. unfold is_number. rewrite !leb_spec. apply SFleb_number_l. Qed.

Lemma leb_is_number_r (x y : float) : (x <=? y) = true -> is_number y.
Proof. unfold is_number. rewrite !leb_spec. apply SFleb_number_r. Qed.

Lemma leb_total (x y : float) :
  is_number x -> is_number y -> (x <=? y) = true \/ (y <=? x) = true.
Proof.
  intros Hx Hy. destruct (y <=? x) eqn:E; [now right|left].
  pose proof (ltb_negb_leb x y Hx Hy) as H. rewrite E in H. cbn in H.
  revert H. rewrite ltb_spec, leb_spec. unfold SFltb, SFleb.
  destruct (SFcompare _ _) as [[]|]; congruence.
Qed.

Lemma ltb_leb (x y : float) : (x <? y) = true -> (x <=? y) = true.
Proof.
  rewrite ltb_spec, leb_spec. unfold SFltb, SFleb.
  destruct (SFcompare _ _) as [[]|]; congruence.
Qed.

Lemma ltb_irrefl_leb (x y : float) : (x <? y) = true -> (y <=? x) = false.
Proof.
  intros H. pose proof (ltb_leb _ _ H) as L.
  rewrite (ltb_negb_leb _ _ (leb_is_number_l _ _ L) (leb_is_number_r _ _ L)) in H.
  now destruct (y <=? x).
Qed.

Lemma eqb_leb (x y : float) :
  (x =? y) = true -> (x <=? y) = true /\ (y <=? x) = true.
Proof. rewrite eqb_spec, !leb_spec. apply SFeqb_leb. Qed.

Lemma ltb_neq (x y : float) : (x <? y) = true -> (y =? x) = false.
Proof. rewrite ltb_spec, eqb_spec. apply SFltb_neq. Qed.

End FloatOrder.

(** ** Scores are exact

    Every quantity the engine adds is a multiple of one half, so the running
    score is always the float of some [h / 2] with [h] a small integer, and no
    addition rounds.  The facts about these finitely many floats are checked
    by evaluation. *)

Definition half (h : Z) : float := Py.of_int h / 2.

Definition zrange (n : nat) : list Z := map Z.of_nat (seq 0 n).

Lemma in_zrange (h : Z) (n : nat) :
  (0 <= h < Z.of_nat n)%Z -> In h (zrange n).
Proof.
  intros H. unfold zrange. apply in_map_iff. exists (Z.to_nat h).
  split; [lia|]. apply in_seq. lia.
Qed.

(** A property of floats decided by [test] holds of [half h] for every [h]
    below [n] as soon as it evaluates to [true] on each of them. *)
Lemma forall_half (test : Z -> bool) (n : nat) :
  forallb test (zrange n) = true ->
  forall h, (0 <= h < Z.of_nat n)%Z -> test h = true.
Proof.
  intros T h H. rewrite forallb_forall in T. apply T, in_zrange, H.
Qed.

Lemma half_add (h c : Z) :
  (0 <= h <= 260)%Z -> (0 <= c <= 60)%Z -> half h + half c = half (h + c).
Proof.
  intros Hh Hc.
  assert (T : forallb (fun h => forallb (fun c =>
                PrimFloat.Leibniz.eqb (half h + half c) (half (h + c)))
                (zrange 61)) (zrange 261) = true)
    by (vm_compute; reflexivity).
  pose proof (forall_half _ _ T h ltac:(cbn; lia)) as T'. cbn beta in T'.
  pose proof (forall_half _ _ T' c ltac:(cbn; lia)) as T''. cbn beta in T''.
  now apply FloatAxioms.Leibniz.eqb_spec in T''.
Qed.

Lemma final_half (h : Z) :
  (0 <= h <= 260)%Z ->
  Py.min (Py.round (half h) 1) 100 = half (Z.min h 200).
Proof.
  intros Hh.
  assert (T : forallb (fun h =>
                PrimFloat.Leibniz.eqb (Py.min (Py.round (half h) 1) 100)
                                      (half (Z.min h 200)))
                (zrange 261) = true)
    by (vm_compute; reflexivity).
  pose proof (forall_half _ _ T h ltac:(cbn; lia)) as T'. cbn beta in T'.
  now apply FloatAxioms.Leibniz.eqb_spec in T'.
Qed.

(** What holds of a final score [half h], [0 <= h <= 200]. *)
Lemma half_facts (h : Z) :
  (0 <= h <= 200)%Z ->
  (0 <=? half h) = true /\ (half h <=? 100) = true /\
  Py.round (half h) 1 = half h /\ half h = Py.of_int (5 * h) / 10 /\
  (MIN_SCORE <=? Py.or0 (Some (half h))) = (140 <=? h)%Z.
Proof.
  intros Hh.
  assert (T : forallb (fun h =>
                (0 <=? half h) && (half h <=? 100)
                && PrimFloat.Leibniz.eqb (Py.round (half h) 1) (half h)
                && PrimFloat.Leibniz.eqb (half h) (Py.of_int (5 * h) / 10)
                && Bool.eqb (MIN_SCORE <=? Py.or0 (Some (half h)))
                            (140 <=? h)%Z)
                (zrange 201) = true)
    by (vm_compute; reflexivity).
  pose proof (forall_half _ _ T h ltac:(cbn; lia)) as T'. cbn beta in T'.
  rewrite !andb_true_iff in T'. destruct T' as [[[[A B] C] D] E].
  apply FloatAxioms.Leibniz.eqb_spec in C, D. apply Bool.eqb_prop in E.
  auto.
Qed.

(** [exact hi s]: the score [s] is [h / 2] for some [0 <= h <= hi]. *)
Definition exact (hi : Z) (s : float) : Prop :=
  exists h, (0 <= h <= hi)%Z /\ s = half h.

Lemma exact_add (hi c : Z) (s lit : float) :
  exact hi s -> (hi <= 260)%Z -> (0 <= c <= 60)%Z -> lit = half c ->
  exact (hi + c) (s + lit).
Proof.
  intros (h & Hh & ->) Hhi Hc ->. exists (h + c)%Z. split; [lia|].
  apply half_add; lia.
Qed.

Lemma exact_weaken (hi hi' : Z) (s : float) :
  exact hi s -> (hi <= hi')%Z -> exact hi' s.
Proof. intros (h & Hh & ->) L. exists h. split; [lia|reflexivity]. Qed.

Lemma commission_pct_cases (s : string) :
  In (commission_pct_of s) [12; 15; 18; 10; 14].
Proof.
  unfold commission_pct_of, commission_map, dict_get.
  repeat match goal with
         | |- context [String.eqb ?a ?b] => destruct (String.eqb a b)
         end; cbn; tauto.
Qed.

Lemma commission_stage_exact (p : product) :
  exact 50 (fst (commission_stage (0, p))).
Proof.
  unfold commission_stage. cbn [fst].
  pose proof (commission_pct_cases (Str.lower (platform p))) as H.
  cbn in H.
  destruct H as [H|[H|[H|[H|[H|[]]]]]]; rewrite <- H.
  - exists 36%Z. split; [lia|reflexivity].
  - exists 45%Z. split; [lia|reflexivity].
  - exists 50%Z. split; [lia|reflexivity].
  - exists 30%Z. split; [lia|reflexivity].
  - exists 42%Z. split; [lia|reflexivity].
Qed.

Lemma rating_stage_exact (hi : Z) (st : scoring) :
  exact hi (fst st) -> (hi <= 200)%Z ->
  exact (hi + 40) (fst (rating_stage st)).
Proof.
  destruct st as [s p]. cbn [fst]. intros E L. unfold rating_stage.
  repeat match goal with
         | |- context [if ?c then _ else _] => destruct c
         end; cbn [fst].
  - apply (exact_add hi 40); auto; lia.
  - apply exact_weaken with (hi + 36)%Z; [apply exact_add; auto; lia|lia].
  - apply exact_weaken with (hi + 28)%Z; [apply exact_add; auto; lia|lia].
  - apply exact_weaken with (hi + 14)%Z; [apply exact_add; auto; lia|lia].
  - apply exact_weaken with hi; [auto|lia].
  - apply exact_weaken with hi; [auto|lia].
Qed.

Lemma review_stage_exact (hi : Z) (st : scoring) :
  exact hi (fst st) -> (hi <= 200)%Z ->
  exact (hi + 40) (fst (review_stage st)).
Proof.
  destruct st as [s p]. cbn [fst]. intros E L. unfold review_stage.
  repeat match goal with
         | |- context [if ?c then _ else _] => destruct c
         end; cbn [fst].
  - apply (exact_add hi 40); auto; lia.
  - apply exact_weaken with (hi + 34)%Z; [apply exact_add; auto; lia|lia].
  - apply exact_weaken with (hi + 28)%Z; [apply exact_add; auto; lia|lia].
  - apply exact_weaken with (hi + 20)%Z; [apply exact_add; auto; lia|lia].
  - apply exact_weaken with (hi + 10)%Z; [apply exact_add; auto; lia|lia].
  - apply exact_weaken with hi; [auto|lia].
  - apply exact_weaken with hi; [auto|lia].
Qed.

Lemma price_stage_exact (hi : Z) (st : scoring) :
  exact hi (fst st) -> (hi <= 200)%Z ->
  exact (hi + 40) (fst (price_stage st)).
Proof.
  destruct st as [s p]. cbn [fst]. intros E L. unfold price_stage.
  repeat match goal with
         | |- context [if ?c then _ else _] => destruct c
         end; cbn [fst].
  - apply (exact_add hi 40); auto; lia.
  - apply exact_weaken with (hi + 24)%Z; [apply exact_add; auto; lia|lia].
  - apply exact_weaken with (hi + 8)%Z; [apply exact_add; auto; lia|lia].
  - apply exact_weaken with hi; [auto|lia].
Qed.

Lemma stock_stage_exact (hi : Z) (st : scoring) :
  exact hi (fst st) -> (hi <= 200)%Z ->
  exact (hi + 30) (fst (stock_stage st)).
Proof.
  destruct st as [s p]. cbn [fst]. intros E L. unfold stock_stage.
  repeat match goal with
         | |- context [if ?c then _ else _] => destruct c
         end; cbn [fst].
  - apply (exact_add hi 30); auto; lia.
  - apply exact_weaken with (hi + 16)%Z; [apply exact_add; auto; lia|lia].
  - apply exact_weaken with hi; [auto|lia].
Qed.

(** The points the trend stage awards to a listing. *)
Definition trend_points (is_google_trending : bool) (keywords : list string)
    (p : product) : Z :=
  ((if is_google_trending then 10 else 0)
   + (if existsb (fun kw => Str.contains kw (Str.lower (title p))) keywords
      then 8 else 0)
   + (match badges p with
      | Some b => if bestseller b then 5 else 0
      | None => 0
      end)
   + (match badges p with
      | Some b => if amazons_choice b then 3 else 0
      | None => 0
      end))%Z.

Lemma trend_points_range (g : bool) (kws : list string) (p : product) :
  (0 <= trend_points g kws p <= 26)%Z.
Proof.
  unfold trend_points.
  destruct g, (existsb _ kws), (badges p) as [[[] [] ?]|]; cbn; lia.
Qed.

Lemma trend_stage_half (g : bool) (kws : list string) (h : Z) (p : product) :
  (0 <= h <= 200)%Z ->
  trend_stage g kws (half h, p) = (half (h + 2 * trend_points g kws p), p).
Proof.
  intros Hh. unfold trend_stage, trend_points.
  destruct g, (existsb _ kws), (badges p) as [[[] [] ?]|]; cbn [bestseller amazons_choice];
    repeat match goal with
    | |- context [half ?a + 10] =>
        change 10 with (half 20); rewrite (half_add a 20) by lia
    | |- context [half ?a + 8] =>
        change 8 with (half 16); rewrite (half_add a 16) by lia
    | |- context [half ?a + 5] =>
        change 5 with (half 10); rewrite (half_add a 10) by lia
    | |- context [half ?a + 3] =>
        change 3 with (half 6); rewrite (half_add a 6) by lia
    end; do 2 f_equal; lia.
Qed.

Lemma trend_stage_exact (g : bool) (kws : list string) (hi : Z) (st : scoring) :
  exact hi (fst st) -> (hi <= 200)%Z ->
  exact (hi + 52) (fst (trend_stage g kws st)).
Proof.
  destruct st as [s p]. cbn [fst]. intros (h & Hh & ->) L.
  rewrite trend_stage_half by lia. cbn [fst].
  pose proof (trend_points_range g kws p).
  eexists. split; [|reflexivity]. lia.
Qed.

(** The score of a listing once the loop body has run. *)
Lemma score_of_score_one (g : bool) (kws : list string) (p : product) :
  score (score_one g kws p)
  = Some (Py.min (Py.round (fst (trend_stage g kws (stock_stage (price_stage
            (review_stage (rating_stage (commission_stage (0, p)))))))) 1) 100).
Proof.
  unfold score_one.
  destruct (trend_stage g kws _) as [s q]. reflexivity.
Qed.

Lemma score_one_exact (g : bool) (kws : list string) (p : product) :
  exists h, (0 <= h <= 200)%Z /\ score (score_one g kws p) = Some (half h).
Proof.
  rewrite score_of_score_one.
  pose proof (commission_stage_exact p) as E.
  apply rating_stage_exact in E; [|lia].
  apply review_stage_exact in E; [|lia].
  apply price_stage_exact in E; [|lia].
  apply stock_stage_exact in E; [|lia].
  apply (trend_stage_exact g kws) in E; [|lia].
  destruct E as (h & Hh & ->).
  exists (Z.min h 200). split; [lia|]. now rewrite final_half by lia.
Qed.

(** What the specification asks of a score. *)
Definition score_ok (p : product) : Prop :=
  exists s, score p = Some s /\
    (0 <=? s) = true /\ (s <=? 100) = true /\ Py.round s 1 = s /\
    exists n, (0 <= n <= 1000)%Z /\ s = Py.of_int n / 10.

Lemma score_one_ok (g : bool) (kws : list string) (p : product) :
  score_ok (score_one g kws p).
Proof.
  destruct (score_one_exact g kws p) as (h & Hh & E).
  destruct (half_facts h Hh) as (A & B & C & D & _).
  exists (half h). repeat split; auto.
  exists (5 * h)%Z. split; [lia|exact D].
Qed.

(** C3. For every listing the scoring engine processes, whatever the niche
    and the trend context, the score it is given is a float between 0 and 100
    (so never negative) that has one decimal place: it is left unchanged by
    [round(., 1)] and is the float of [n / 10] for an integer [n].  This
    holds of every dict of the input list after the call, and of every dict
    of the returned list. *)
Theorem C3_score_between_0_and_100 :
  forall (products : list product) (niche : string) (t : google_trends)
         (e : realtime_events) (pt : pinterest_trends),
    Forall score_ok (fst (_score_products products niche t e pt)) /\
    Forall score_ok (snd (_score_products products niche t e pt)).
Proof.
  intros products niche t e pt. unfold _score_products. cbn [fst snd].
  assert (F : Forall score_ok
                (map (score_one (is_trending t)
                        (map Str.lower (trending_keywords pt))) products)).
  { apply Forall_forall. intros q Hq. apply in_map_iff in Hq.
    destruct Hq as (p & <- & _). apply score_one_ok. }
  split; [exact F|].
  apply Forall_forall. intros q Hq. apply filter_In in Hq.
  rewrite Forall_forall in F. apply F, Hq.
Qed.

(** ** What the loop body writes

    The engine reads twelve keys of a listing and writes four.  [agree p q]:
    the two dicts hold the same values under the keys that are only read. *)

Definition agree (p q : product) : Prop :=
  title p = title q /\ platform p = platform q /\ url p = url q /\
  price p = price q /\ mrp p = mrp q /\ discount_pct p = discount_pct q /\
  rating p = rating q /\ review_count p = review_count q /\
  asin p = asin q /\ image_url p = image_url q /\
  stock_status p = stock_status q /\ badges p = badges q.

Lemma agree_refl (p : product) : agree p p.
Proof. unfold agree. tauto. Qed.

Lemma agree_trans (p q r : product) : agree p q -> agree q r -> agree p r.
Proof. unfold agree. intuition congruence. Qed.

Lemma product_ext (p q : product) :
  agree p q -> commission_estimate p = commission_estimate q ->
  _exclude p = _exclude q -> score p = score q ->
  trend_bonus p = trend_bonus q -> p = q.
Proof.
  destruct p, q. unfold agree. cbn.
  intros (? & ? & ? & ? & ? & ? & ? & ? & ? & ? & ? & ?) ? ? ? ?.
  subst. reflexivity.
Qed.

(** The conditions under which a stage sets [_exclude]. *)
Definition rating_too_low (p : product) : bool :=
  let r := Py.or0 (rating p) in
  negb (5 <=? r) && negb (4.5 <=? r) && negb (4 <=? r) && negb (3.5 <=? r)
  && ((r <? 3.5) && (0 <? r)).

Definition too_few_reviews (p : product) : bool :=
  let n := match review_count p with Some n => n | None => 0%Z end in
  (negb (5000 <=? n) && negb (2000 <=? n) && negb (1000 <=? n)
   && negb (500 <=? n) && negb (100 <=? n) && (0 <? n))%Z.

Definition out_of_stock (p : product) : bool :=
  let stock := match stock_status p with
               | Some s => s
               | None => "In Stock"%string
               end in
  negb (String.eqb stock "In Stock") && negb (String.eqb stock "Limited Stock").

Definition mark (fires : product -> bool) (reason : string) (p : product)
    : product :=
  if fires p then set_exclude p reason else p.

Definition est_commission (p : product) : float :=
  Py.round (Py.or0 (price p) * commission_pct_of (Str.lower (platform p)) / 100) 2.

Ltac split_ifs :=
  repeat match goal with
         | |- context [if ?c then _ else _] => destruct c
         end.

Lemma commission_stage_snd (st : scoring) :
  snd (commission_stage st)
  = set_commission_estimate (snd st) (est_commission (snd st)).
Proof. destruct st as [s p]. reflexivity. Qed.

Lemma rating_stage_snd (st : scoring) :
  snd (rating_stage st) = mark rating_too_low "rating_too_low" (snd st).
Proof.
  destruct st as [s p]. unfold rating_stage, mark, rating_too_low. cbn [snd].
  destruct (5 <=? _), (4.5 <=? _), (4 <=? _), (3.5 <=? _), (_ <? 3.5), (0 <? _);
    reflexivity.
Qed.

Lemma review_stage_snd (st : scoring) :
  snd (review_stage st) = mark too_few_reviews "too_few_reviews" (snd st).
Proof.
  destruct st as [s p]. unfold review_stage, mark, too_few_reviews. cbn [snd].
  destruct (5000 <=? _)%Z, (2000 <=? _)%Z, (1000 <=? _)%Z, (500 <=? _)%Z,
           (100 <=? _)%Z, (0 <? _)%Z; reflexivity.
Qed.

Lemma price_stage_snd (st : scoring) : snd (price_stage st) = snd st.
Proof.
  destruct st as [s p]. unfold price_stage. split_ifs; reflexivity.
Qed.

Lemma stock_stage_snd (st : scoring) :
  snd (stock_stage st) = mark out_of_stock "out_of_stock" (snd st).
Proof.
  destruct st as [s p]. unfold stock_stage, mark, out_of_stock. cbn [snd].
  destruct (String.eqb _ "In Stock"), (String.eqb _ "Limited Stock");
    reflexivity.
Qed.

Lemma trend_stage_snd (g : bool) (kws : list string) (st : scoring) :
  snd (trend_stage g kws st) = snd st.
Proof. destruct st as [s p]. reflexivity. Qed.

(** The score before rounding and capping. *)
Definition raw_score (g : bool) (kws : list string) (p : product) : float :=
  fst (trend_stage g kws (stock_stage (price_stage (review_stage
         (rating_stage (commission_stage (0, p))))))).

(** The loop body, as the assignments it makes. *)
Lemma score_one_eq (g : bool) (kws : list string) (p : product) :
  score_one g kws p
  = set_score
      (mark out_of_stock "out_of_stock"
         (mark too_few_reviews "too_few_reviews"
            (mark rating_too_low "rating_too_low"
               (set_commission_estimate p (est_commission p)))))
      (Py.min (Py.round (raw_score g kws p) 1) 100) 0.
Proof.
  unfold score_one, raw_score.
  rewrite (surjective_pairing (trend_stage g kws _)).
  rewrite trend_stage_snd, stock_stage_snd, price_stage_snd, review_stage_snd,
    rating_stage_snd, commission_stage_snd.
  reflexivity.
Qed.

Lemma agree_score_one (g : bool) (kws : list string) (p : product) :
  agree (score_one g kws p) p.
Proof.
  rewrite score_one_eq. unfold mark, agree.
  destruct (out_of_stock _), (too_few_reviews _), (rating_too_low _); cbn;
    tauto.
Qed.

(** The reason left in [_exclude]: the last rule that fires wins, and a
    listing no rule fires on keeps what it had. *)
Lemma exclude_of_score_one (g : bool) (kws : list string) (p : product) :
  _exclude (score_one g kws p)
  = if out_of_stock p then Some "out_of_stock"%string
    else if too_few_reviews p then Some "too_few_reviews"%string
    else if rating_too_low p then Some "rating_too_low"%string
    else _exclude p.
Proof.
  rewrite score_one_eq. unfold mark.
  change (rating_too_low (set_commission_estimate p (est_commission p)))
    with (rating_too_low p).
  destruct (rating_too_low p) eqn:R;
    [ change (too_few_reviews (set_exclude _ _)) with (too_few_reviews p)
    | change (too_few_reviews (set_commission_estimate _ _))
        with (too_few_reviews p) ];
    destruct (too_few_reviews p) eqn:T;
    match goal with
    | |- context [out_of_stock ?q] =>
        change (out_of_stock q) with (out_of_stock p)
    end;
    destruct (out_of_stock p); reflexivity.
Qed.

Lemma commission_of_score_one (g : bool) (kws : list string) (p : product) :
  commission_estimate (score_one g kws p) = Some (est_commission p).
Proof.
  rewrite score_one_eq. unfold mark.
  destruct (out_of_stock _), (too_few_reviews _), (rating_too_low _);
    reflexivity.
Qed.

Lemma trend_bonus_of_score_one (g : bool) (kws : list string) (p : product) :
  trend_bonus (score_one g kws p) = Some 0%Z.
Proof. rewrite score_one_eq. reflexivity. Qed.

Lemma score_of_score_one_raw (g : bool) (kws : list string) (p : product) :
  score (score_one g kws p)
  = Some (Py.min (Py.round (raw_score g kws p) 1) 100).
Proof. rewrite score_one_eq. reflexivity. Qed.

(** The stages read only the keys [agree] speaks of. *)
Definition sim (st st' : scoring) : Prop :=
  fst st = fst st' /\ agree (snd st) (snd st').

Lemma agree_set_exclude (p q : product) (r : string) :
  agree p q -> agree (set_exclude p r) (set_exclude q r).
Proof. unfold agree. cbn. tauto. Qed.

Ltac sim_stage :=
  intros [s p] [s' q] [E A]; cbn [fst snd] in E, A; subst s';
  pose proof A as (? & ? & ? & ? & ? & ? & ? & ? & ? & ? & ? & ?).

Lemma commission_stage_sim (st st' : scoring) :
  sim st st' -> sim (commission_stage st) (commission_stage st').
Proof.
  revert st st'. sim_stage. unfold commission_stage, sim. cbn [fst snd].
  split; [congruence|]. unfold agree in *. cbn. tauto.
Qed.

Lemma rating_stage_sim (st st' : scoring) :
  sim st st' -> sim (rating_stage st) (rating_stage st').
Proof.
  revert st st'. sim_stage. unfold rating_stage, sim.
  replace (rating q) with (rating p) by assumption.
  split_ifs; cbn [fst snd]; auto using agree_set_exclude.
Qed.

Lemma review_stage_sim (st st' : scoring) :
  sim st st' -> sim (review_stage st) (review_stage st').
Proof.
  revert st st'. sim_stage. unfold review_stage, sim.
  replace (review_count q) with (review_count p) by assumption.
  split_ifs; cbn [fst snd]; auto using agree_set_exclude.
Qed.

Lemma price_stage_sim (st st' : scoring) :
  sim st st' -> sim (price_stage st) (price_stage st').
Proof.
  revert st st'. sim_stage. unfold price_stage, sim.
  replace (price q) with (price p) by assumption.
  split_ifs; cbn [fst snd]; auto.
Qed.

Lemma stock_stage_sim (st st' : scoring) :
  sim st st' -> sim (stock_stage st) (stock_stage st').
Proof.
  revert st st'. sim_stage. unfold stock_stage, sim.
  replace (stock_status q) with (stock_status p) by assumption.
  split_ifs; cbn [fst snd]; auto using agree_set_exclude.
Qed.

Lemma trend_stage_sim (g : bool) (kws : list string) (st st' : scoring) :
  sim st st' -> sim (trend_stage g kws st) (trend_stage g kws st').
Proof.
  revert st st'. sim_stage. unfold trend_stage, sim.
  replace (title q) with (title p) by assumption.
  replace (badges q) with (badges p) by assumption.
  cbn [fst snd]. auto.
Qed.

Lemma raw_score_agree (g : bool) (kws : list string) (p q : product) :
  agree p q -> raw_score g kws p = raw_score g kws q.
Proof.
  intros A. unfold raw_score.
  apply trend_stage_sim, stock_stage_sim, price_stage_sim, review_stage_sim,
    rating_stage_sim, commission_stage_sim.
  split; [reflexivity|exact A].
Qed.

Lemma est_commission_agree (p q : product) :
  agree p q -> est_commission p = est_commission q.
Proof.
  intros (_ & P & _ & R & _). unfold est_commission. now rewrite P, R.
Qed.

Lemma fires_agree (p q : product) :
  agree p q ->
  rating_too_low p = rating_too_low q /\
  too_few_reviews p = too_few_reviews q /\
  out_of_stock p = out_of_stock q.
Proof.
  intros (_ & _ & _ & _ & _ & _ & R & C & _ & _ & S & _).
  unfold rating_too_low, too_few_reviews, out_of_stock.
  now rewrite R, C, S.
Qed.

(** Scoring a listing that was already scored changes nothing. *)
Lemma score_one_idempotent (g : bool) (kws : list string) (p : product) :
  score_one g kws (score_one g kws p) = score_one g kws p.
Proof.
  pose proof (agree_score_one g kws p) as A.
  apply product_ext.
  - eapply agree_trans; [apply agree_score_one|apply agree_refl].
  - rewrite !commission_of_score_one. f_equal. now apply est_commission_agree.
  - rewrite (exclude_of_score_one g kws (score_one g kws p)).
    destruct (fires_agree _ _ A) as (-> & -> & ->).
    rewrite exclude_of_score_one.
    destruct (out_of_stock p), (too_few_reviews p), (rating_too_low p);
      reflexivity.
  - rewrite !score_of_score_one_raw. do 3 f_equal. now apply raw_score_agree.
  - now rewrite !trend_bonus_of_score_one.
Qed.

(** C9. Running the scoring engine a second time on the same inputs gives
    the output of the first run: the same listings with the same scores in
    the same order.  The second run finds the dicts as the first run
    annotated them, and leaves them, and the list it returns, as they were;
    scoring the returned list once more returns it unchanged.  (The engine is
    a function of its arguments: it draws no random number and keeps no
    state between calls.) *)
Theorem C9_scoring_is_idempotent :
  forall (products : list product) (niche : string) (t : google_trends)
         (e : realtime_events) (pt : pinterest_trends),
    let first := _score_products products niche t e pt in
    _score_products (fst first) niche t e pt = first /\
    _score_products (snd first) niche t e pt = (snd first, snd first).
Proof.
  intros products niche t e pt. cbn zeta. unfold _score_products. cbn [fst snd].
  set (f := score_one (is_trending t) (map Str.lower (trending_keywords pt))).
  assert (I : forall l, map f (map f l) = map f l).
  { intros l. rewrite map_map. apply map_ext. intros p. apply score_one_idempotent. }
  assert (J : forall l, map f (filter passes (map f l)) = filter passes (map f l)).
  { intros l. induction l as [|p l IH]; [reflexivity|]. cbn [map filter].
    destruct (passes (f p)); cbn [map]; rewrite IH; [|reflexivity].
    unfold f at 1. now rewrite score_one_idempotent. }
  split.
  - now rewrite I.
  - rewrite J. f_equal. induction (map f products) as [|q l IH]; [reflexivity|].
    cbn [filter]. destruct (passes q) eqn:P; [|exact IH].
    cbn [filter]. rewrite P. now f_equal.
Qed.

(** ** The stable descending sort *)

Section SortDescFacts.

Variable A : Type.
Variable key : A -> float.

(** Descending order of the keys. *)
Definition desc (a b : A) : Prop := (key b <=? key a) = true.

Lemma insert_desc_perm (x : A) (l : list A) :
  Permutation (insert_desc key x l) (x :: l).
Proof.
  induction l as [|y l IH]; cbn; [reflexivity|].
  destruct (key y <? key x); [reflexivity|].
  rewrite IH. apply perm_swap.
Qed.

Lemma fold_insert_perm (l acc : list A) :
  Permutation (fold_left (fun acc x => insert_desc key x acc) l acc) (acc ++ l).
Proof.
  revert acc. induction l as [|x l IH]; intros acc; cbn.
  - now rewrite app_nil_r.
  - rewrite IH, insert_desc_perm. apply Permutation_middle.
Qed.

Lemma sort_desc_perm (l : list A) : Permutation (sort_desc key l) l.
Proof. unfold sort_desc. apply (fold_insert_perm l []). Qed.

Lemma insert_desc_Forall (P : A -> Prop) (x : A) (l : list A) :
  P x -> Forall P l -> Forall P (insert_desc key x l).
Proof.
  intros Px Pl.
  apply (Permutation_Forall (Permutation_sym (insert_desc_perm x l))).
  now constructor.
Qed.

Lemma filter_none (f : A -> bool) (l : list A) :
  (forall z, In z l -> f z = false) -> filter f l = [].
Proof.
  induction l as [|y l IH]; intros H; [reflexivity|]. cbn.
  rewrite (H y (or_introl eq_refl)). apply IH. intros z Hz. apply H. now right.
Qed.

Lemma insert_desc_sorted (x : A) (l : list A) :
  is_number (key x) -> Forall (fun a => is_number (key a)) l ->
  StronglySorted desc l -> StronglySorted desc (insert_desc key x l).
Proof.
  intros Nx Nl S. induction S as [|y l S IH F]; cbn.
  - constructor; constructor.
  - inversion Nl as [|? ? Ny Nl']; subst.
    destruct (key y <? key x) eqn:E.
    + constructor; [constructor; assumption|].
      constructor; [unfold desc; now apply ltb_leb|].
      rewrite Forall_forall in *. intros z Hz. unfold desc.
      apply leb_trans with (key y); [apply F, Hz|now apply ltb_leb].
    + constructor; [now apply IH|].
      apply insert_desc_Forall; [|assumption].
      unfold desc. rewrite ltb_negb_leb in E by assumption.
      now destruct (key x <=? key y).
Qed.

Lemma fold_insert_sorted (l acc : list A) :
  Forall (fun a => is_number (key a)) l ->
  Forall (fun a => is_number (key a)) acc ->
  StronglySorted desc acc ->
  StronglySorted desc (fold_left (fun acc x => insert_desc key x acc) l acc).
Proof.
  revert acc. induction l as [|x l IH]; intros acc Nl Na S; cbn; [exact S|].
  inversion Nl; subst. apply IH; [assumption| |now apply insert_desc_sorted].
  now apply insert_desc_Forall.
Qed.

Lemma sort_desc_sorted (l : list A) :
  Forall (fun a => is_number (key a)) l -> StronglySorted desc (sort_desc key l).
Proof.
  intros N. apply fold_insert_sorted; [exact N|constructor|constructor].
Qed.

(** Stability: among the elements whose key equals [k], the order of the
    input is kept. *)
Definition with_key (k : float) (l : list A) : list A :=
  filter (fun a => key a =? k) l.

Lemma insert_desc_stable (k : float) (x : A) (l : list A) :
  StronglySorted desc l ->
  with_key k (insert_desc key x l) = with_key k l ++ with_key k [x].
Proof.
  intros S. induction S as [|y l S IH F]; [reflexivity|].
  cbn [insert_desc]. destruct (key y <? key x) eqn:E.
  - (* x goes first: nothing from y on has the key of x *)
    destruct (key x =? k) eqn:X.
    + assert (N : with_key k (y :: l) = []).
      { unfold with_key. apply filter_none. intros z Hz.
        destruct (key z =? k) eqn:Z; [exfalso|reflexivity].
        apply eqb_leb in X, Z. destruct X as [X1 X2], Z as [Z1 Z2].
        assert (L : (key z <=? key y) = true).
        { destruct Hz as [<-|Hz];
            [apply (leb_is_number_l _ _ Z1)|].
          rewrite Forall_forall in F. apply F, Hz. }
        pose proof (ltb_irrefl_leb _ _ E) as C.
        rewrite (leb_trans _ _ _ X1 (leb_trans _ _ _ Z2 L)) in C.
        discriminate. }
      rewrite N. unfold with_key in *. cbn [filter app]. rewrite X.
      cbn [filter] in N. now rewrite N.
    + unfold with_key. cbn [filter]. rewrite X. now rewrite app_nil_r.
  - unfold with_key in *. cbn [filter]. destruct (key y =? k).
    + cbn [app]. f_equal. exact IH.
    + exact IH.
Qed.

Lemma fold_insert_stable (k : float) (l acc : list A) :
  Forall (fun a => is_number (key a)) l ->
  Forall (fun a => is_number (key a)) acc ->
  StronglySorted desc acc ->
  with_key k (fold_left (fun acc x => insert_desc key x acc) l acc)
  = with_key k acc ++ with_key k l.
Proof.
  revert acc. induction l as [|x l IH]; intros acc Nl Na S; cbn [fold_left].
  - unfold with_key. cbn. now rewrite app_nil_r.
  - inversion Nl; subst. rewrite IH; [| assumption | | now apply insert_desc_sorted].
    + rewrite insert_desc_stable by assumption. rewrite <- app_assoc. f_equal.
      unfold with_key. cbn [filter]. now destruct (key x =? k).
    + now apply insert_desc_Forall.
Qed.

Lemma sort_desc_stable (k : float) (l : list A) :
  Forall (fun a => is_number (key a)) l ->
  with_key k (sort_desc key l) = with_key k l.
Proof.
  intros N. unfold sort_desc.
  rewrite fold_insert_stable; [reflexivity|exact N|constructor|constructor].
Qed.

End SortDescFacts.

Arguments desc {A} key a b.
Arguments with_key {A} key k l.

(** ** The returned list and its ranking *)

Lemma score_key_of_score_one (g : bool) (kws : list string) (p : product) :
  exists h, (0 <= h <= 200)%Z /\ score (score_one g kws p) = Some (half h)
            /\ score_key (score_one g kws p) = half h.
Proof.
  destruct (score_one_exact g kws p) as (h & Hh & E).
  exists h. unfold score_key. rewrite E. auto.
Qed.

Lemma scored_is_number (g : bool) (kws : list string) (p : product) :
  is_number (score_key (score_one g kws p)).
Proof.
  destruct (score_key_of_score_one g kws p) as (h & Hh & _ & ->).
  destruct (half_facts h Hh) as (A & _). exact (leb_is_number_r _ _ A).
Qed.

(** On a scored listing the test [(p.get("score") or 0) >= MIN_SCORE] is the
    comparison of its score with 70. *)
Lemma min_score_test (g : bool) (kws : list string) (p : product) :
  (MIN_SCORE <=? Py.or0 (score (score_one g kws p)))
  = (70 <=? score_key (score_one g kws p)).
Proof.
  destruct (score_key_of_score_one g kws p) as (h & Hh & -> & ->).
  assert (T : forallb (fun h =>
                Bool.eqb (MIN_SCORE <=? Py.or0 (Some (half h)))
                         (70 <=? half h)) (zrange 201) = true)
    by (vm_compute; reflexivity).
  pose proof (forall_half _ _ T h ltac:(cbn; lia)) as T'. cbn beta in T'.
  now apply Bool.eqb_prop in T'.
Qed.

Lemma returned_in (products : list product) (niche : string)
    (t : google_trends) (e : realtime_events) (pt : pinterest_trends)
    (q : product) :
  In q (snd (_score_products products niche t e pt)) ->
  exists p, In p products /\
    q = score_one (is_trending t) (map Str.lower (trending_keywords pt)) p /\
    excluded q = false /\ (70 <=? score_key q) = true.
Proof.
  unfold _score_products. cbn [snd]. intros H.
  apply filter_In in H. destruct H as [H P].
  apply in_map_iff in H. destruct H as (p & <- & Hp).
  exists p. split; [exact Hp|]. split; [reflexivity|].
  unfold passes in P. apply andb_true_iff in P. destruct P as [P1 P2].
  rewrite min_score_test in P2. split; [now apply negb_true_iff|exact P2].
Qed.

Lemma rank_keeps_all (products : list product) (niche : string)
    (t : google_trends) (e : realtime_events) (pt : pinterest_trends) :
  let returned := snd (_score_products products niche t e pt) in
  filter (fun p => MIN_SCORE <=? Py.or0 (score p)) returned = returned.
Proof.
  cbn zeta. apply forallb_filter_id. apply forallb_forall. intros q Hq.
  apply returned_in in Hq. destruct Hq as (p & _ & -> & _ & H).
  now rewrite min_score_test.
Qed.

Lemma returned_numbers (products : list product) (niche : string)
    (t : google_trends) (e : realtime_events) (pt : pinterest_trends) :
  Forall (fun q => is_number (score_key q))
    (snd (_score_products products niche t e pt)).
Proof.
  apply Forall_forall. intros q Hq. apply returned_in in Hq.
  destruct Hq as (p & _ & -> & _). apply scored_is_number.
Qed.

Lemma filter_map_swap {A B : Type} (f : B -> bool) (g : A -> B)
    (l : list A) :
  filter f (map g l) = map g (filter (fun x => f (g x)) l).
Proof.
  induction l as [|x l IH]; [reflexivity|]. cbn [map filter].
  destruct (f (g x)); cbn [map]; now rewrite IH.
Qed.

(** C2. Every listing of the input is scored, and the list the scoring stage
    returns holds exactly the listings of the input that, once scored, carry
    no exclusion reason and a score of at least 70, in the order of the
    input: a listing of the input that passes both tests once scored is
    returned, and nothing else is.  The final list of the pipeline is that
    list ranked: it has the same elements, is sorted by score in descending
    order, and listings with equal scores stay in the order they had in the
    input (the sort is stable). *)
Theorem C2_returned_list_is_filtered_and_ranked :
  forall (products : list product) (niche : string) (t : google_trends)
         (e : realtime_events) (pt : pinterest_trends),
    let scored :=
      score_one (is_trending t) (map Str.lower (trending_keywords pt)) in
    let annotated := fst (_score_products products niche t e pt) in
    let returned := snd (_score_products products niche t e pt) in
    annotated = map scored products /\
    returned
    = map scored
        (filter (fun p => negb (excluded (scored p))
                          && (70 <=? score_key (scored p))) products) /\
    (forall p, In p products ->
       excluded (scored p) = false -> (70 <=? score_key (scored p)) = true ->
       In (scored p) returned /\ In (scored p) (rank_products returned)) /\
    (forall q, In q returned ->
       exists p, In p products /\ q = scored p) /\
    returned
    = filter (fun q => negb (excluded q) && (70 <=? score_key q)) annotated /\
    (forall q, In q returned <->
       In q annotated /\ excluded q = false /\
       exists s, score q = Some s /\ (70 <=? s) = true) /\
    Permutation (rank_products returned) returned /\
    StronglySorted (desc score_key) (rank_products returned) /\
    (forall k, with_key score_key k (rank_products returned)
               = with_key score_key k returned) /\
    (forall run completion,
       scrape_all_platforms run completion niche t e pt
       = rank_products
           (snd (_score_products (gather_products run completion niche)
                                 niche t e pt))).
Proof.
  intros products niche t e pt scored annotated returned.
  assert (A : annotated = map scored products) by reflexivity.
  assert (R : returned
    = filter (fun q => negb (excluded q) && (70 <=? score_key q)) annotated).
  { unfold returned, annotated, _score_products. cbn [fst snd].
    apply filter_ext_in. intros q Hq. apply in_map_iff in Hq.
    destruct Hq as (p & <- & _). unfold passes. now rewrite min_score_test. }
  assert (K : rank_products returned = sort_desc score_key returned).
  { unfold rank_products. unfold returned. now rewrite rank_keeps_all. }
  assert (M : returned
    = map scored
        (filter (fun p => negb (excluded (scored p))
                          && (70 <=? score_key (scored p))) products))
    by (rewrite R, A; apply filter_map_swap).
  split; [exact A|]. split; [exact M|]. split; [|split].
  { intros p Hp X S.
    assert (I : In (scored p) returned).
    { rewrite M. apply in_map. apply filter_In. split; [exact Hp|].
      now rewrite X, S. }
    split; [exact I|]. rewrite K.
    apply (Permutation_in _ (Permutation_sym (sort_desc_perm _ score_key _))).
    exact I. }
  { intros q Hq. rewrite M in Hq. apply in_map_iff in Hq.
    destruct Hq as (p & <- & Hp). apply filter_In in Hp.
    exists p. split; [apply Hp|reflexivity]. }
  split; [exact R|]. split; [|split; [|split; [|split]]].
  - intros q. rewrite R at 1. rewrite filter_In, andb_true_iff, negb_true_iff.
    split.
    + intros (Hq & X & S). split; [exact Hq|]. split; [exact X|].
      unfold annotated, _score_products in Hq. cbn [fst] in Hq.
      apply in_map_iff in Hq. destruct Hq as (p & <- & _).
      destruct (score_key_of_score_one (is_trending t)
                  (map Str.lower (trending_keywords pt)) p)
        as (h & _ & E & E').
      exists (half h). split; [exact E|]. now rewrite <- E'.
    + intros (Hq & X & s & E & S). split; [exact Hq|]. split; [exact X|].
      unfold score_key. now rewrite E.
  - rewrite K. apply sort_desc_perm.
  - rewrite K. apply sort_desc_sorted. apply returned_numbers.
  - intros k. rewrite K. apply sort_desc_stable. apply returned_numbers.
  - reflexivity.
Qed.

(** ** The rating rule *)

Lemma low_rating_tests (r : float) :
  (0 <? r) = true -> (r <? 3.5) = true ->
  Py.or0 (Some r) = r /\ (5 <=? r) = false /\ (4.5 <=? r) = false /\
  (4 <=? r) = false /\ (3.5 <=? r) = false.
Proof.
  intros P L.
  pose proof (ltb_irrefl_leb _ _ L) as N.
  assert (B : forall c, (3.5 <=? c) = true -> (c <=? r) = false).
  { intros c Hc. destruct (c <=? r) eqn:E; [|reflexivity].
    now rewrite (leb_trans _ _ _ Hc E) in N. }
  split; [|auto].
  unfold Py.or0, Py.truthy. now rewrite (ltb_neq _ _ P).
Qed.

Lemma rating_too_low_fires (p : product) (r : float) :
  rating p = Some r -> (0 <? r) = true -> (r <? 3.5) = true ->
  rating_too_low p = true.
Proof.
  intros E P L. unfold rating_too_low. rewrite E.
  destruct (low_rating_tests r P L) as (-> & -> & -> & -> & ->).
  now rewrite P, L.
Qed.

Lemma excluded_of_low_rating (g : bool) (kws : list string) (p : product) :
  rating_too_low p = true -> excluded (score_one g kws p) = true.
Proof.
  intros R. unfold excluded. rewrite exclude_of_score_one, R.
  destruct (out_of_stock p), (too_few_reviews p); reflexivity.
Qed.

Lemma rank_in (scored : list product) (q : product) :
  In q (rank_products scored) -> In q scored.
Proof.
  unfold rank_products. intros H.
  apply (Permutation_in _ (sort_desc_perm _ score_key _)) in H.
  now apply filter_In in H.
Qed.

(** C4. A listing whose rating is present and strictly between 0 and 3.5 is
    marked by the rating rule with the reason [rating_too_low], for no
    points; whatever its other fields, it is excluded once scored and is
    neither in the list the engine returns nor in the final list of the
    pipeline.  A listing without a rating gets no rating points and is left
    unmarked by the rating rule. *)
Theorem C4_rating_below_3_5_is_excluded :
  forall (p : product),
    (forall (r : float),
       rating p = Some r -> (0 <? r) = true -> (r <? 3.5) = true ->
       (forall s, rating_stage (s, p)
                  = (s, set_exclude p "rating_too_low")) /\
       (forall g kws, excluded (score_one g kws p) = true) /\
       (forall products niche t e pt,
          ~ In (score_one (is_trending t)
                  (map Str.lower (trending_keywords pt)) p)
               (snd (_score_products products niche t e pt))) /\
       (forall run completion niche t e pt,
          ~ In (score_one (is_trending t)
                  (map Str.lower (trending_keywords pt)) p)
               (scrape_all_platforms run completion niche t e pt))) /\
    (rating p = None -> forall s, rating_stage (s, p) = (s, p)).
Proof.
  intros p. split.
  - intros r E P L.
    pose proof (rating_too_low_fires p r E P L) as F.
    assert (X : forall products niche t e pt,
              ~ In (score_one (is_trending t)
                      (map Str.lower (trending_keywords pt)) p)
                   (snd (_score_products products niche t e pt))).
    { intros products niche t e pt H. apply returned_in in H.
      destruct H as (_ & _ & _ & H & _).
      now rewrite excluded_of_low_rating in H. }
    split; [|split; [|split]].
    + intros s. unfold rating_stage. rewrite E.
      destruct (low_rating_tests r P L) as (-> & -> & -> & -> & ->).
      now rewrite P, L.
    + intros g kws. now apply excluded_of_low_rating.
    + exact X.
    + intros run completion niche t e pt H. unfold scrape_all_platforms in H.
      apply rank_in in H. exact (X _ _ _ _ _ H).
  - intros E s. unfold rating_stage. rewrite E. reflexivity.
Qed.

(** The reason left on a low-rated listing is [rating_too_low] unless a later
    rule fires too and overwrites it. *)
Lemma low_rating_final_reason (g : bool) (kws : list string) (p : product) :
  rating_too_low p = true ->
  _exclude (score_one g kws p)
  = if out_of_stock p then Some "out_of_stock"%string
    else if too_few_reviews p then Some "too_few_reviews"%string
    else Some "rating_too_low"%string.
Proof. intros R. now rewrite exclude_of_score_one, R. Qed.

(** ** Sample data *)

Definition cold_trends : google_trends :=
  {| gt_niche := "yoga mats"; interest_pct := 12; rising_queries := [];
     breakout_queries := Some []; related_topics := Some [];
     is_trending := false; error := None |}.

Definition hot_trends : google_trends :=
  {| gt_niche := "yoga mats"; interest_pct := 55; rising_queries := [];
     breakout_queries := Some []; related_topics := Some [];
     is_trending := true; error := None |}.

Definition no_events : realtime_events :=
  {| ev_niche := "yoga mats"; trending_topics := []; detected_events := [];
     combined := [] |}.

Definition no_pins : pinterest_trends :=
  {| pt_niche := "yoga mats"; trending_keywords := [];
     is_trending_on_pinterest := false |}.

Definition yoga_pins : pinterest_trends :=
  {| pt_niche := "yoga mats"; trending_keywords := ["Yoga"%string];
     is_trending_on_pinterest := true |}.

Definition no_badges : badge_flags :=
  {| bestseller := false; amazons_choice := false; deal_of_day := false |}.

Definition both_badges : badge_flags :=
  {| bestseller := true; amazons_choice := true; deal_of_day := false |}.

(** The same Amazon product as the two result pages of the adapter list it
    (sorted by review rank and by popularity). *)
Definition mat_by_reviews : product :=
  amazon_listing "Yoga Mat 6mm" "https://www.amazon.in/Yoga-Mat-6mm/dp/B0YOGA"
    (Some 999) (Some 1999) (Some 4.5) (Some 6000%Z) "B0YOGA" None no_badges.

Definition mat_by_popularity : product :=
  amazon_listing "Yoga Mat 6mm" "https://www.amazon.in/Yoga-Mat-6mm/dp/B0YOGA"
    (Some 999) (Some 1999) (Some 4) (Some 1500%Z) "B0YOGA" None no_badges.

Definition low_rated_mat : product :=
  amazon_listing "Thin Yoga Mat" "https://www.amazon.in/Thin-Mat/dp/B0THIN"
    (Some 999) None (Some 3) (Some 6000%Z) "B0THIN" None no_badges.

Definition unrated_mat : product :=
  basic_listing "meesho" "Yoga Mat" "https://www.meesho.com/yoga-mat/p/1"
    (Some 499) None.

Definition badged_mat : product :=
  amazon_listing "Premium Yoga Mat" "https://www.amazon.in/Premium/dp/B0PREM"
    None None None None "B0PREM" None both_badges.

Definition plain_mat : product :=
  amazon_listing "Premium Yoga Mat" "https://www.amazon.in/Premium/dp/B0PREM"
    None None None None "B0PREM" None no_badges.

Definition amazon_only (l : list product) (platform_ niche : string)
    : option (list product) :=
  if String.eqb platform_ "amazon" then Some l else Some [].

Definition in_order (l : list string) : list string := l.

Lemma C4_rating_below_3_5_is_excluded_witness :
  rating_stage (18, low_rated_mat)
  = (18, set_exclude low_rated_mat "rating_too_low") /\
  excluded (score_one false [] low_rated_mat) = true /\
  ~ In (score_one false [] low_rated_mat)
       (scrape_all_platforms (amazon_only [low_rated_mat]) in_order
          "yoga mats" cold_trends no_events no_pins) /\
  rating_stage (25, unrated_mat) = (25, unrated_mat).
Proof.
  split; [|split; [|split]].
  - exact (proj1 (proj1 (C4_rating_below_3_5_is_excluded low_rated_mat)
                    3 eq_refl eq_refl eq_refl) 18).
  - exact (proj1 (proj2 (proj1 (C4_rating_below_3_5_is_excluded low_rated_mat)
                    3 eq_refl eq_refl eq_refl)) false []).
  - exact (proj2 (proj2 (proj2 (proj1
             (C4_rating_below_3_5_is_excluded low_rated_mat)
             3 eq_refl eq_refl eq_refl)))
             (amazon_only [low_rated_mat]) in_order "yoga mats"%string
             cold_trends no_events no_pins).
  - exact (proj2 (C4_rating_below_3_5_is_excluded unrated_mat) eq_refl 25).
Defined.

(** C1. The pipeline does not deduplicate: its final list is always a
    rearrangement of the whole list the scoring engine returns.  When the
    Amazon adapter returns the same product twice (same platform, same URL)
    with different ratings and review counts, both listings are in the final
    list, with scores 91 and 81: the lower-scoring duplicate is not
    dropped. *)
Theorem C1_duplicates_survive :
  (forall run completion niche t e pt,
     Permutation
       (scrape_all_platforms run completion niche t e pt)
       (snd (_score_products (gather_products run completion niche)
                             niche t e pt))) /\
  scrape_all_platforms (amazon_only [mat_by_reviews; mat_by_popularity])
    in_order "yoga mats" cold_trends no_events no_pins
  = [score_one false [] mat_by_reviews; score_one false [] mat_by_popularity]
  /\ platform mat_by_reviews = platform mat_by_popularity
  /\ url mat_by_reviews = url mat_by_popularity
  /\ score (score_one false [] mat_by_reviews) = Some 91
  /\ score (score_one false [] mat_by_popularity) = Some 81.
Proof.
  split.
  - intros run completion niche t e pt.
    unfold scrape_all_platforms, rank_products.
    rewrite rank_keeps_all. apply sort_desc_perm.
  - vm_compute. repeat split; reflexivity.
Qed.

(** The trend stage awards exactly 10, 8, 5 and 3 points for its four
    conditions, whatever the running score (an exact [h / 2]). *)
Lemma trend_stage_awards (g : bool) (kws : list string) (h : Z) (p : product) :
  (0 <= h <= 200)%Z ->
  fst (trend_stage g kws (half h, p))
  = half (h + 2 * ((if g then 10 else 0)
                   + (if existsb (fun kw =>
                            Str.contains kw (Str.lower (title p))) kws
                      then 8 else 0)
                   + (match badges p with
                      | Some b => if bestseller b then 5 else 0
                      | None => 0
                      end)
                   + (match badges p with
                      | Some b => if amazons_choice b then 3 else 0
                      | None => 0
                      end))).
Proof. intros H. now rewrite trend_stage_half. Qed.

(** C6. The four trend bonuses are 10, 8, 5 and 3 points, and a listing that
    earns all of them gets 26 points from the trend stage, one more than the
    25 the stage is documented to award at most: [badged_mat] goes from 33 to
    59 in the stage, and scores 59 where the same listing without badges and
    trends scores 33. *)
Theorem C6_trend_bonus_reaches_26 :
  trend_points true ["yoga"%string] badged_mat = 26%Z /\
  trend_stage true ["yoga"%string] (33, badged_mat) = (59, badged_mat) /\
  score (score_one (is_trending hot_trends)
           (map Str.lower (trending_keywords yoga_pins)) badged_mat)
  = Some 59 /\
  score (score_one (is_trending cold_trends)
           (map Str.lower (trending_keywords no_pins)) plain_mat)
  = Some 33.
Proof. vm_compute. repeat split; reflexivity. Qed.

(** ** The discount of a listing *)

(** The listings the adapters build. *)
Inductive scraped : product -> Prop :=
  | scraped_amazon title_ url_ price_ mrp_ rating_ reviews_ asin_ image_ badges_ :
      scraped (amazon_listing title_ url_ price_ mrp_ rating_ reviews_ asin_
                 image_ badges_)
  | scraped_flipkart title_ url_ price_ mrp_ rating_ image_ :
      scraped (flipkart_listing title_ url_ price_ mrp_ rating_ image_)
  | scraped_myntra title_ url_ price_ mrp_ image_ :
      scraped (myntra_listing title_ url_ price_ mrp_ image_)
  | scraped_basic platform_ title_ url_ price_ image_ :
      In platform_ ["meesho"; "ajio"; "nykaa"; "firstcry"]%string ->
      scraped (basic_listing platform_ title_ url_ price_ image_).

(** The rule as the specification words it: the discount is there exactly
    when price and mrp are present and [mrp > price]. *)
Definition discount_as_specified (p : product) : Prop :=
  match price p, mrp p with
  | Some pr, Some m =>
      if pr <? m
      then discount_pct p = Some (Py.round ((m - pr) / m * 100) 1)
      else discount_pct p = None
  | _, _ => discount_pct p = None
  end.

(** The rule of the Amazon adapter: a price or an mrp of zero counts as
    missing. *)
Definition discount_of (price_ mrp_ : option float) : option float :=
  match mrp_, price_ with
  | Some m, Some pr =>
      if Py.truthy m && Py.truthy pr && (pr <? m)
      then Some (Py.round ((m - pr) / m * 100) 1)
      else None
  | _, _ => None
  end.

(** A free Amazon item with a list price: price and mrp are present and
    [mrp > price], yet no discount is stored. *)
Definition free_item : product :=
  amazon_listing "Sample Sachet" "https://www.amazon.in/Sample/dp/B0FREE"
    (Some 0) (Some 100) None None "B0FREE" None no_badges.

Lemma C5_counterexample_zero_price :
  scraped free_item /\ price free_item = Some 0 /\ mrp free_item = Some 100 /\
  (0 <? 100) = true /\ discount_pct free_item = None /\
  ~ discount_as_specified free_item.
Proof.
  split; [constructor|]. repeat (split; [reflexivity|]).
  unfold discount_as_specified. cbn. discriminate.
Qed.

(** A positive price below the mrp makes both count as present. *)
Lemma positive_below (pr m : float) :
  (0 <? pr) = true -> (pr <? m) = true ->
  Py.truthy pr = true /\ Py.truthy m = true.
Proof.
  intros P L. unfold Py.truthy. rewrite (ltb_neq _ _ P). split; [reflexivity|].
  destruct (m =? 0) eqn:E; [exfalso|reflexivity].
  apply eqb_leb in E. destruct E as [E _].
  pose proof (ltb_irrefl_leb _ _ L) as C.
  now rewrite (leb_trans _ _ _ E (ltb_leb _ _ P)) in C.
Qed.

(** C5 (amended). For every listing the Amazon adapter builds: when price and
    mrp are both present and not zero and [mrp > price], [discount_pct] is
    [(mrp - price) / mrp * 100] rounded to one decimal place, computed in
    floating point as the adapter does (in particular for every positive
    price below the mrp; price 1000 and mrp 2000 give exactly 50.0); in every
    other case [discount_pct] is absent.  The adapters that extract no mrp
    (Meesho, Ajio, Nykaa, FirstCry) store no discount. *)
Theorem C5_amazon_discount :
  forall (title_ url_ : string) (price_ mrp_ rating_ : option float)
         (reviews_ : option Z) (asin_ : string) (image_ : option string)
         (badges_ : badge_flags),
    let p := amazon_listing title_ url_ price_ mrp_ rating_ reviews_ asin_
               image_ badges_ in
    (forall pr m,
       price_ = Some pr -> mrp_ = Some m ->
       Py.truthy pr = true -> Py.truthy m = true -> (pr <? m) = true ->
       discount_pct p = Some (Py.round ((m - pr) / m * 100) 1)) /\
    (forall pr m,
       price_ = Some pr -> mrp_ = Some m ->
       (0 <? pr) = true -> (pr <? m) = true ->
       discount_pct p = Some (Py.round ((m - pr) / m * 100) 1)) /\
    (price_ = None \/ mrp_ = None \/
     (exists pr m, price_ = Some pr /\ mrp_ = Some m /\
        (Py.truthy pr && Py.truthy m && (pr <? m)) = false) ->
     discount_pct p = None) /\
    discount_pct p = discount_of price_ mrp_ /\
    discount_of (Some 1000) (Some 2000) = Some 50 /\
    (forall platform_ t u pr im,
       discount_pct (basic_listing platform_ t u pr im) = None).
Proof.
  intros title_ url_ price_ mrp_ rating_ reviews_ asin_ image_ badges_ p.
  assert (T : forall pr m,
       price_ = Some pr -> mrp_ = Some m ->
       Py.truthy pr = true -> Py.truthy m = true -> (pr <? m) = true ->
       discount_pct p = Some (Py.round ((m - pr) / m * 100) 1)).
  { intros pr m -> -> A B C. unfold p, amazon_listing. cbn [discount_pct].
    now rewrite A, B, C. }
  split; [exact T|]. split; [|split; [|split; [|split]]].
  - intros pr m E1 E2 P L. destruct (positive_below pr m P L) as [A B].
    now apply T.
  - unfold p, amazon_listing. cbn [discount_pct].
    intros [-> | [-> | (pr & m & -> & -> & F)]].
    + now destruct mrp_.
    + reflexivity.
    + destruct (Py.truthy m), (Py.truthy pr), (pr <? m); cbn in F;
        try discriminate; reflexivity.
  - reflexivity.
  - vm_compute. reflexivity.
  - reflexivity.
Qed.

Lemma C5_amazon_discount_witness :
  discount_pct mat_by_reviews = Some (Py.round ((1999 - 999) / 1999 * 100) 1) /\
  discount_pct mat_by_popularity
  = Some (Py.round ((1999 - 999) / 1999 * 100) 1) /\
  discount_pct low_rated_mat = None.
Proof.
  split; [|split].
  - exact (proj1 (C5_amazon_discount "Yoga Mat 6mm"
             "https://www.amazon.in/Yoga-Mat-6mm/dp/B0YOGA" (Some 999)
             (Some 1999) (Some 4.5) (Some 6000%Z) "B0YOGA" None no_badges)
             999 1999 eq_refl eq_refl eq_refl eq_refl eq_refl).
  - exact (proj1 (proj2 (C5_amazon_discount "Yoga Mat 6mm"
             "https://www.amazon.in/Yoga-Mat-6mm/dp/B0YOGA" (Some 999)
             (Some 1999) (Some 4) (Some 1500%Z) "B0YOGA" None no_badges))
             999 1999 eq_refl eq_refl eq_refl eq_refl).
  - exact (proj1 (proj2 (proj2 (C5_amazon_discount "Thin Yoga Mat"
             "https://www.amazon.in/Thin-Mat/dp/B0THIN" (Some 999) None
             (Some 3) (Some 6000%Z) "B0THIN" None no_badges)))
             (or_intror (or_introl eq_refl))).
Defined.

(** The sibling adapters that do extract an mrp never store a discount. *)
Lemma flipkart_myntra_store_no_discount :
  (forall t u pr m r im, discount_pct (flipkart_listing t u pr m r im) = None) /\
  (forall t u pr m im, discount_pct (myntra_listing t u pr m im) = None).
Proof. split; reflexivity. Qed.

(** ** The fetcher *)

Close Scope float_scope.

(** The document of the first answer with status 200, if any. *)
Fixpoint first_document (outcomes : list http_outcome) : option BeautifulSoup :=
  match outcomes with
  | [] => None
  | Response st body :: rest =>
      if (st =? 200)%Z then Some (Soup body) else first_document rest
  | NetworkError _ :: rest => first_document rest
  end.

(** The number of answers consumed: up to the first 200, or all of them. *)
Fixpoint attempts_used (outcomes : list http_outcome) : nat :=
  match outcomes with
  | [] => 0
  | Response st body :: rest =>
      if (st =? 200)%Z then 1 else S (attempts_used rest)
  | NetworkError _ :: rest => S (attempts_used rest)
  end.

Lemma attempts_used_le (outcomes : list http_outcome) :
  attempts_used outcomes <= List.length outcomes.
Proof.
  induction outcomes as [|[st body|m] rest IH]; cbn; [lia| |lia].
  destruct (st =? 200)%Z; lia.
Qed.

(** The answers the network gives to the next [n] requests. *)
Definition next_answers (w : world) (n : nat) : list http_outcome :=
  map (fun i => server w (calls w + i)) (seq 0 n).

Lemma next_answers_S (w w' : world) (n : nat) :
  server w' = server w -> calls w' = S (calls w) ->
  next_answers w (S n) = server w (calls w) :: next_answers w' n.
Proof.
  intros Hs Hc. unfold next_answers. cbn [seq map]. rewrite Nat.add_0_r.
  f_equal. rewrite <- seq_shift, map_map. apply map_ext. intros i.
  rewrite Hs, Hc. f_equal. lia.
Qed.

Lemma safe_get_loop_spec (u : string) (n a : nat) (w : world) :
  exists w',
    safe_get_loop u (seq a n) w
    = (Ok (first_document (next_answers w (Nat.min n (3 - a)))), w') /\
    calls w' = calls w + attempts_used (next_answers w (Nat.min n (3 - a))) /\
    server w' = server w.
Proof.
  revert a w. induction n as [|n IH]; intros a w.
  - exists w. cbn. auto.
  - cbn [seq safe_get_loop].
    destruct (Nat.le_gt_cases 3 a) as [Ha|Ha].
    + (* delays[attempt] raises: no request is made *)
      assert (N : nth_error delays a = None)
        by (apply nth_error_None; cbn; lia).
      destruct (IH (S a) (Build_world (server w) (calls w) (Warned :: trace w)))
        as (w' & E & C & S').
      replace (Nat.min n (3 - S a)) with 0 in * by lia.
      replace (Nat.min (S n) (3 - a)) with 0 by lia.
      exists w'. split; [|split; assumption].
      unfold Eff.bind, Eff.try_except, attempt_body, index. rewrite N.
      unfold Eff.raise, emit, Eff.modify, Eff.ret. cbn. exact E.
    + assert (N : exists extra, nth_error delays a = Some extra).
      { destruct a as [|[|[|a]]]; cbn; eauto. lia. }
      destruct N as (extra & N).
      replace (Nat.min (S n) (3 - a)) with (S (Nat.min n (3 - S a))) by lia.
      set (k := Nat.min n (3 - S a)) in *.
      set (wr := Build_world (server w) (S (calls w))
                   (Requested u :: Slept extra :: trace w)).
      rewrite (next_answers_S w wr k eq_refl eq_refl).
      unfold Eff.bind at 1. unfold Eff.try_except, attempt_body, index.
      rewrite N. unfold Eff.bind, Eff.ret, emit, Eff.modify, requests_get.
      cbn [server calls trace fst snd].
      destruct (server w (calls w)) as [st body|m] eqn:R.
      * cbn [first_document attempts_used].
        destruct (st =? 200)%Z eqn:E200.
        -- eexists. split; [reflexivity|]. cbn. split; [lia|reflexivity].
        -- destruct ((st =? 403)%Z || (st =? 429)%Z).
           ++ destruct (IH (S a) (Build_world (server w) (S (calls w))
                  (Cooldown :: Warned :: Requested u :: Slept extra :: trace w)))
                as (w' & E & C & S').
              exists w'. cbn [server calls] in *.
              fold k in E, C.
              change (next_answers _ k) with (next_answers wr k) in E, C.
              split; [exact E|]. split; [lia|exact S'].
           ++ destruct (IH (S a) (Build_world (server w) (S (calls w))
                  (Warned :: Requested u :: Slept extra :: trace w)))
                as (w' & E & C & S').
              exists w'. cbn [server calls] in *. fold k in E, C.
              change (next_answers _ k) with (next_answers wr k) in E, C.
              split; [exact E|]. split; [lia|exact S'].
      * cbn [first_document attempts_used].
        destruct (IH (S a) (Build_world (server w) (S (calls w))
               (Warned :: Requested u :: Slept extra :: trace w)))
          as (w' & E & C & S').
        exists w'. cbn [server calls] in *. fold k in E, C.
        change (next_answers _ k) with (next_answers wr k) in E, C.
        split; [exact E|]. split; [lia|exact S'].
Qed.

Definition is_failure (o : http_outcome) : bool :=
  match o with
  | Response st _ => negb (st =? 200)%Z
  | NetworkError _ => true
  end.

Lemma first_document_exhausted (l : list http_outcome) :
  forallb is_failure l = true ->
  first_document l = None /\ attempts_used l = List.length l.
Proof.
  induction l as [|[st body|m] l IH]; cbn; [auto| |].
  - intros H. apply andb_true_iff in H. destruct H as [H1 H2].
    apply negb_true_iff in H1. rewrite H1. destruct (IH H2). split; [auto|lia].
  - intros H. destruct (IH H). split; [auto|lia].
Qed.

Lemma next_answers_length (w : world) (n : nat) :
  List.length (next_answers w n) = n.
Proof. unfold next_answers. now rewrite length_map, length_seq. Qed.

(** C7. Whatever the URL and whatever the network answers (responses of any
    status, or errors), [_safe_get] returns and does not raise.  It sends at
    most 3 requests, returns the document of the first answer with status 200
    among them, and [None] when none of them has it, having then used them
    all.  Against a server that answers 429, 429 and then 200, it returns the
    document of the third answer and has sent exactly 3 requests. *)
Theorem C7_safe_get_never_raises :
  forall (u : string) (retries : nat) (w : world),
    let answers := next_answers w (Nat.min retries 3) in
    (exists w',
       _safe_get u retries w = (Ok (first_document answers), w') /\
       calls w' = calls w + attempts_used answers /\
       calls w' <= calls w + 3 /\
       server w' = server w) /\
    (forallb is_failure answers = true ->
     fst (_safe_get u retries w) = Ok None /\
     calls (snd (_safe_get u retries w)) = calls w + Nat.min retries 3) /\
    (forall a b c rest,
       exists w',
         _safe_get u 3
           (fresh_world (Response 429 a :: Response 429 b
                         :: Response 200 c :: rest))
         = (Ok (Some (Soup c)), w') /\
         calls w' = 3).
Proof.
  intros u retries w answers.
  destruct (safe_get_loop_spec u retries 0 w) as (w' & E & C & S').
  rewrite Nat.sub_0_r in E, C. fold answers in E, C.
  assert (L : attempts_used answers <= 3).
  { pose proof (attempts_used_le answers) as L.
    unfold answers in L at 2. rewrite next_answers_length in L. lia. }
  split; [|split].
  - exists w'. unfold _safe_get. split; [exact E|]. split; [exact C|].
    split; [lia|exact S'].
  - intros F. unfold _safe_get. rewrite E. cbn [fst snd].
    destruct (first_document_exhausted answers F) as [D U].
    rewrite D, C, U. unfold answers. now rewrite next_answers_length.
  - intros a b c rest. eexists. split; [reflexivity|reflexivity].
Qed.

Lemma C7_safe_get_never_raises_witness :
  fst (_safe_get "https://www.amazon.in/s?k=yoga+mats" 3
         (fresh_world [Response 503 ""; NetworkError "timed out";
                       Response 429 ""]))
  = Ok None /\
  calls (snd (_safe_get "https://www.amazon.in/s?k=yoga+mats" 3
                (fresh_world [Response 503 ""; NetworkError "timed out";
                              Response 429 ""])))
  = 3.
Proof.
  exact (proj1 (proj2 (C7_safe_get_never_raises
                         "https://www.amazon.in/s?k=yoga+mats" 3
                         (fresh_world [Response 503 ""%string;
                                       NetworkError "timed out";
                                       Response 429 ""%string])))
           eq_refl).
Defined.

(** With more than three retries the extra iterations raise [IndexError] on
    [delays[attempt]], which the handler swallows: no fourth request. *)
Example safe_get_five_retries :
  let '(r, w) := _safe_get "u" 5 (fresh_world []) in
  r = Ok None /\ calls w = 3.
Proof. cbn. auto. Qed.

(** ** The trend fetchers *)




Lemma fill_topics_try (src : pytrends) (niche : string) (l : trend_locals) :
  exists l',
    Eff.try_except (fill_topics src niche) (fun _ => Eff.ret tt) l
    = (Ok tt, l') /\
    l_rising l' = l_rising l /\ l_breakout l' = l_breakout l.
Proof.
  unfold Eff.try_except, fill_topics, Eff.bind, Eff.call.
  destruct (related_topics_ src) as [tq|e]; [|eexists; split; [reflexivity|auto]].
  destruct (dict_get niche tq) as [fr|]; [|eexists; split; [reflexivity|auto]].
  destruct (rows_present fr); eexists; (split; [reflexivity|auto]).
Qed.

(** The trends library answers everything but the related-queries request,
    which is refused. *)
Definition partial_outage : pytrends :=
  {| TrendReq := Ok tt;
     build_payload := Ok tt;
     interest_over_time := Ok (Some 55%float);
     related_queries := Raise (LibraryError "429 Too Many Requests");
     related_topics_ := Ok [];
     trending_searches := Ok None |}.



(** ** Persistence *)

Lemma in_firstn (A : Type) (k : nat) (l : list A) (x : A) :
  In x (firstn k l) -> In x l.
Proof.
  revert l. induction k as [|k IH]; intros [|y l]; cbn; try tauto.
  intros [->|H]; [now left|right; now apply IH].
Qed.

Lemma save_products_rows (session_id : Z) (niche : string)
    (raw_products : list product) (saved : Z) (db : database) :
  exists k,
    products_table (snd (save_products session_id niche raw_products saved db))
    = products_table db
      ++ map (product_row_of session_id niche) (firstn k raw_products) /\
    (forall n, fst (save_products session_id niche raw_products saved db) = Ok n ->
       k = List.length raw_products /\
       n = (saved + Z.of_nat (List.length raw_products))%Z).
Proof.
  revert saved db. induction raw_products as [|p rest IH]; intros saved db.
  - exists 0. cbn. rewrite app_nil_r. split; [reflexivity|].
    intros n H. injection H as <-. split; [reflexivity|lia].
  - cbn [save_products]. unfold Eff.bind, insert_product.
    destruct (accepts db (List.length (products_table db))) as [[]|e].
    + destruct (IH (saved + 1)%Z
                  {| products_table := products_table db
                                       ++ [product_row_of session_id niche p];
                     accepts := accepts db |}) as (k & E & N).
      exists (S k). split.
      * rewrite E. cbn [products_table firstn map]. now rewrite <- app_assoc.
      * intros n H. destruct (N n H) as [-> ->]. cbn [List.length].
        split; [reflexivity|lia].
    + exists 0. cbn. rewrite app_nil_r. split; [reflexivity|].
      intros n H. discriminate.
Qed.

Lemma scored_trend_bonus (products : list product) (niche : string)
    (t : google_trends) (e : realtime_events) (pt : pinterest_trends) :
  Forall (fun q => trend_bonus q = Some 0%Z)
    (fst (_score_products products niche t e pt)).
Proof.
  unfold _score_products. cbn [fst]. apply Forall_forall. intros q Hq.
  apply in_map_iff in Hq. destruct Hq as (p & <- & _).
  apply trend_bonus_of_score_one.
Qed.

(** C10. Every listing the scoring engine has processed, and so every
    listing it returns and every listing of the final list, carries
    [trend_bonus = 0], also when trend points were added to its score (the
    sample listing [badged_mat] earns 26 of them); and every row the
    persistence step inserts for a run stores [trend_bonus = 0]. *)
Theorem C10_trend_bonus_is_always_zero :
  forall (products : list product) (niche : string) (t : google_trends)
         (e : realtime_events) (pt : pinterest_trends),
    Forall (fun q => trend_bonus q = Some 0%Z)
      (fst (_score_products products niche t e pt)) /\
    Forall (fun q => trend_bonus q = Some 0%Z)
      (snd (_score_products products niche t e pt)) /\
    (forall run completion,
       Forall (fun q => trend_bonus q = Some 0%Z)
         (scrape_all_platforms run completion niche t e pt)) /\
    (forall run completion session_id accepts_,
       Forall (fun row => r_trend_bonus row = Some 0%Z)
         (products_table
            (snd (save_products session_id niche
                    (scrape_all_platforms run completion niche t e pt) 0
                    {| products_table := []; accepts := accepts_ |})))) /\
    (trend_points true ["yoga"%string] badged_mat = 26%Z /\
     trend_bonus (score_one true ["yoga"%string] badged_mat) = Some 0%Z).
Proof.
  intros products niche t e pt.
  assert (R : forall ps, Forall (fun q => trend_bonus q = Some 0%Z)
                (snd (_score_products ps niche t e pt))).
  { intros ps. pose proof (scored_trend_bonus ps niche t e pt) as F.
    unfold _score_products in *. cbn [fst snd] in *.
    rewrite Forall_forall in *. intros q Hq. apply filter_In in Hq.
    apply F, Hq. }
  assert (S : forall run completion,
       Forall (fun q => trend_bonus q = Some 0%Z)
         (scrape_all_platforms run completion niche t e pt)).
  { intros run completion. unfold scrape_all_platforms.
    apply Forall_forall. intros q Hq. apply rank_in in Hq.
    specialize (R (gather_products run completion niche)).
    rewrite Forall_forall in R. now apply R. }
  split; [apply scored_trend_bonus|]. split; [apply R|]. split; [exact S|].
  split; [|split; reflexivity].
  intros run completion session_id accepts_.
  destruct (save_products_rows session_id niche
              (scrape_all_platforms run completion niche t e pt) 0
              {| products_table := []; accepts := accepts_ |}) as (k & -> & _).
  cbn [products_table app]. apply Forall_forall. intros row Hrow.
  apply in_map_iff in Hrow. destruct Hrow as (q & <- & Hq).
  cbn [product_row_of r_trend_bonus].
  specialize (S run completion). rewrite Forall_forall in S.
  apply S. eapply in_firstn; exact Hq.
Qed.

(** ** The numeric parsers *)

Lemma str_count_filter (f g : ascii -> bool) (s : string) :
  (forall c, f c = true -> g c = true) ->
  str_count f (str_filter g s) = str_count f s.
Proof.
  intros H. induction s as [|c s IH]; [reflexivity|]. cbn.
  destruct (g c) eqn:G; cbn; rewrite IH; [reflexivity|].
  destruct (f c) eqn:F; [|reflexivity]. apply H in F. congruence.
Qed.

Lemma str_filter_app (f : ascii -> bool) (a b : string) :
  str_filter f (a ++ b) = (str_filter f a ++ str_filter f b)%string.
Proof.
  induction a as [|c a IH]; [reflexivity|]. cbn.
  destruct (f c); cbn; now rewrite IH.
Qed.

Lemma str_filter_empty_count (f : ascii -> bool) (s : string) :
  str_filter f s = EmptyString -> str_count f s = 0.
Proof.
  induction s as [|c s IH]; [reflexivity|]. cbn.
  destruct (f c); [discriminate|]. exact IH.
Qed.

Lemma digit_is_not_dot (c : ascii) : is_digit c = true -> is_dot c = false.
Proof.
  unfold is_digit, is_dot. destruct (Ascii.eqb_spec c "."); [|reflexivity].
  subst. discriminate.
Qed.

(** The price depends on the text through its digits and dots only. *)
Lemma parse_price_cleaned (text : string) :
  _parse_price text
  = let cleaned := str_filter (fun c => is_digit c || is_dot c) text in
    if Str.truthy cleaned then
      match float_of_digits_and_dots cleaned with
      | Ok x => Some x
      | Raise _ => None
      end
    else None.
Proof. unfold _parse_price. now destruct text. Qed.

Lemma parse_price_none_cases (text : string) :
  _parse_price text = None <->
  str_count is_digit text = 0 \/ 2 <= str_count is_dot text.
Proof.
  rewrite parse_price_cleaned. cbn zeta.
  set (keep := fun c => is_digit c || is_dot c).
  assert (D : str_count is_digit (str_filter keep text) = str_count is_digit text).
  { apply str_count_filter. intros c H. unfold keep. now rewrite H. }
  assert (P : str_count is_dot (str_filter keep text) = str_count is_dot text).
  { apply str_count_filter. intros c H. unfold keep. rewrite H. apply orb_true_r. }
  destruct (Str.truthy (str_filter keep text)) eqn:T.
  - unfold float_of_digits_and_dots. rewrite D, P.
    destruct (Nat.ltb_spec 0 (str_count is_digit text)) as [H1|H1];
      destruct (Nat.leb_spec (str_count is_dot text) 1) as [H2|H2]; cbn;
      split; intros H; try discriminate; try lia; auto.
  - split; [intros _|reflexivity]. left. rewrite <- D.
    destruct (str_filter keep text); [reflexivity|discriminate].
Qed.

(** X1. On ASCII text, [_parse_price] finds no price (returns [None], not
    zero) exactly when the text has no digit or has more than one dot: a
    second dot anywhere in the text, such as the one of "Rs.", makes a price
    unreadable. *)
Theorem parse_price_none_iff :
  forall (text : string),
    is_ascii text = true ->
    (_parse_price text = None <->
     str_count is_digit text = 0 \/ 2 <= str_count is_dot text).
Proof. intros text _. apply parse_price_none_cases. Qed.

Lemma parse_price_none_iff_witness :
  _parse_price "Rs. 1,299.00" = None.
Proof.
  apply (parse_price_none_iff "Rs. 1,299.00" eq_refl). right. cbn. lia.
Defined.

(** X2. [_parse_price] ignores every character that is neither a digit nor
    a dot, wherever it stands: currency signs, thousands separators and
    spaces do not change the price that is read. *)
Theorem parse_price_ignores_separators :
  forall (a b : string) (c : ascii),
    is_digit c = false -> is_dot c = false ->
    _parse_price (a ++ String c b) = _parse_price (a ++ b).
Proof.
  intros a b c Hd Hp. rewrite !parse_price_cleaned. cbn zeta.
  rewrite !str_filter_app. cbn [str_filter]. now rewrite Hd, Hp.
Qed.

Lemma parse_price_ignores_separators_witness :
  _parse_price ("1" ++ String "," "299") = _parse_price ("1" ++ "299").
Proof.
  exact (parse_price_ignores_separators "1" "299" "," eq_refl eq_refl).
Defined.

Lemma take_while_count (f g : ascii -> bool) (s : string) :
  str_count g (take_while f s) <= str_count g s.
Proof.
  induction s as [|c s IH]; [cbn; lia|]. cbn.
  destruct (f c); cbn; [|lia]. destruct (g c); lia.
Qed.

Lemma take_while_digits_no_dot (s : string) :
  str_count is_dot (take_while is_digit s) = 0.
Proof.
  induction s as [|c s IH]; [reflexivity|]. cbn.
  destruct (is_digit c) eqn:D; [|reflexivity]. cbn.
  now rewrite (digit_is_not_dot c D), IH.
Qed.

Lemma str_count_app (f : ascii -> bool) (a b : string) :
  str_count f (a ++ b) = str_count f a + str_count f b.
Proof.
  induction a as [|c a IH]; [reflexivity|]. cbn. rewrite IH. lia.
Qed.

(** The match of the rating pattern is always a numeral [float] accepts. *)
Lemma number_at_is_a_float (c : ascii) (s : string) :
  is_digit c = true ->
  exists x, float_of_digits_and_dots (number_at (String c s)) = Ok x.
Proof.
  intros D. unfold float_of_digits_and_dots.
  assert (A : 0 < str_count is_digit (number_at (String c s))
              /\ str_count is_dot (number_at (String c s)) <= 1).
  { unfold number_at. cbn [take_while drop_while]. rewrite D.
    destruct (drop_while is_digit s) as [|x rest] eqn:R.
    - cbn. rewrite D, (digit_is_not_dot c D), take_while_digits_no_dot. lia.
    - assert (G : 0 < str_count is_digit (String c (take_while is_digit s))
                  /\ str_count is_dot (String c (take_while is_digit s)) = 0).
      { cbn. rewrite D, (digit_is_not_dot c D), take_while_digits_no_dot. lia. }
      destruct (Ascii.eqb_spec x ".") as [->|N].
      + rewrite !str_count_app. cbn [str_count].
        rewrite !take_while_digits_no_dot, D, (digit_is_not_dot c D).
        change (is_dot ".") with true. change (is_digit ".") with false.
        lazy iota. lia.
      + destruct G as [G1 G2].
        destruct x as [[] [] [] [] [] [] [] []];
          first [ exfalso; apply N; reflexivity
                | lazy iota beta; split; [exact G1|rewrite G2; lia] ]. }
  destruct A as [A1 A2].
  apply Nat.ltb_lt in A1. apply Nat.leb_le in A2. rewrite A1, A2. cbn.
  eexists. reflexivity.
Qed.

Lemma search_number_none (s : string) :
  search_number s = None <-> str_count is_digit s = 0.
Proof.
  induction s as [|c s IH]; [cbn; tauto|]. cbn [search_number str_count].
  destruct (is_digit c); [split; [discriminate|cbn; lia]|]. exact IH.
Qed.

Lemma parse_rating_none_cases (text : string) :
  (_parse_rating text = None <-> str_count is_digit text = 0) /\
  (forall before, str_count is_digit before = 0 ->
     _parse_rating (before ++ text) = _parse_rating text).
Proof.
  revert text.
  assert (N : forall text,
            _parse_rating text = None <-> str_count is_digit text = 0).
  { intros text. unfold _parse_rating. destruct text as [|c s]; [cbn; tauto|].
    cbn [Str.truthy]. rewrite <- search_number_none.
    destruct (search_number (String c s)) as [m|] eqn:S; [|tauto].
    split; [|discriminate]. intros H. exfalso.
    assert (E : exists c' s', is_digit c' = true /\ m = number_at (String c' s')).
    { clear H. revert S. generalize (String c s). intros t.
      induction t as [|c' t IH]; [discriminate|]. cbn [search_number].
      destruct (is_digit c') eqn:D; [|exact IH].
      intros H. injection H as <-. eauto. }
    destruct E as (c' & s' & D & ->).
    destruct (number_at_is_a_float c' s' D) as (x & E). rewrite E in H.
    discriminate. }
  intros text. split; [apply N|].
  intros before H. induction before as [|c b IH]; [reflexivity|].
  cbn [str_count] in H. destruct (is_digit c) eqn:D; [cbn in H; lia|].
  cbn in H. specialize (IH H).
  cbn [String.append]. rewrite <- IH.
  unfold _parse_rating at 1. cbn [Str.truthy search_number]. rewrite D.
  unfold _parse_rating.
  destruct (b ++ text)%string eqn:E; [reflexivity|reflexivity].
Qed.

(** X3. On ASCII text, [_parse_rating] finds no rating exactly when the text
    has no digit; otherwise it reads the number that starts at the first
    digit, and what stands before that digit does not matter. *)
Theorem parse_rating_none_iff :
  forall (text : string),
    is_ascii text = true ->
    (_parse_rating text = None <-> str_count is_digit text = 0) /\
    (forall before, is_ascii before = true ->
       str_count is_digit before = 0 ->
       _parse_rating (before ++ text) = _parse_rating text).
Proof.
  intros text _. destruct (parse_rating_none_cases text) as [N B].
  split; [exact N|]. intros before _. apply B.
Qed.

Lemma parse_rating_none_iff_witness :
  _parse_rating ("Rated " ++ "4.5 out of 5")%string
  = _parse_rating "4.5 out of 5".
Proof.
  exact (proj2 (parse_rating_none_iff "4.5 out of 5" eq_refl)
           "Rated "%string eq_refl eq_refl).
Defined.

Lemma int_of_digits_nonneg (acc : Z) (s : string) :
  (0 <= acc)%Z -> (0 <= int_of_digits acc s)%Z.
Proof.
  revert acc. induction s as [|c s IH]; intros acc H; [exact H|].
  cbn [int_of_digits]. apply IH. unfold digit_value. lia.
Qed.

Lemma search_digits_none (s : string) :
  search_digits s = None <-> str_count is_digit s = 0.
Proof.
  unfold search_digits.
  induction s as [|c s IH]; [cbn; tauto|]. cbn [drop_while str_count].
  destruct (is_digit c); cbn [negb]; [split; [discriminate|lia]|]. exact IH.
Qed.

Lemma take_while_length (f : ascii -> bool) (s : string) :
  String.length (take_while f s) <= String.length s.
Proof. induction s as [|c s IH]; cbn; [lia|]. destruct (f c); cbn; lia. Qed.

Lemma drop_while_length (f : ascii -> bool) (s : string) :
  String.length (drop_while f s) <= String.length s.
Proof. induction s as [|c s IH]; cbn; [lia|]. destruct (f c); cbn; lia. Qed.

Lemma str_filter_length (f : ascii -> bool) (s : string) :
  String.length (str_filter f s) <= String.length s.
Proof. induction s as [|c s IH]; cbn; [lia|]. destruct (f c); cbn; lia. Qed.

Lemma after_last_length (c : ascii) (s : string) :
  String.length (after_last c s) <= String.length s.
Proof.
  induction s as [|x s IH]; cbn [after_last String.length]; [lia|].
  destruct (existsb _ _); [lia|]. destruct (Ascii.eqb x c); cbn; lia.
Qed.

Lemma search_digits_length (s m : string) :
  search_digits s = Some m -> String.length m <= String.length s.
Proof.
  unfold search_digits. intros H.
  pose proof (drop_while_length (fun c => negb (is_digit c)) s) as D.
  remember (drop_while (fun c => negb (is_digit c)) s) as r eqn:E.
  destruct r as [|c rest]; [discriminate|].
  injection H as <-.
  pose proof (take_while_length is_digit (String c rest)) as T.
  cbn [take_while] in T. lia.
Qed.

Lemma parse_reviews_cases (max_str_digits : option nat) (text : string) :
  (forall n, _parse_reviews max_str_digits text = Ok (Some n) ->
             (0 <= n)%Z) /\
  (_parse_reviews max_str_digits text = Ok None <->
   str_count is_digit (before_first ")" (after_last "(" text)) = 0) /\
  (forall e, _parse_reviews max_str_digits text = Raise e ->
     exists limit, max_str_digits = Some limit /\
                   limit < String.length text).
Proof.
  unfold _parse_reviews.
  set (segment := before_first ")" (after_last "(" text)).
  set (cleaned := str_filter _ segment).
  assert (C : str_count is_digit cleaned = str_count is_digit segment).
  { apply str_count_filter. intros c D. apply negb_true_iff, orb_false_iff.
    split.
    - destruct (Ascii.eqb_spec c ","); [subst; discriminate|reflexivity].
    - unfold is_digit in D. unfold is_space.
      apply andb_true_iff in D. destruct D as [D1 D2].
      apply Nat.leb_le in D1, D2.
      apply orb_false_iff. split; apply andb_false_iff.
      + right. apply Nat.leb_gt. lia.
      + right. apply Nat.leb_gt. lia. }
  assert (L : String.length cleaned <= String.length text).
  { unfold cleaned, segment, before_first.
    etransitivity; [apply str_filter_length|].
    etransitivity; [apply take_while_length|]. apply after_last_length. }
  destruct text as [|c s].
  - split; [discriminate|]. split; [cbn; tauto|discriminate].
  - cbn [Str.truthy].
    pose proof (search_digits_none cleaned) as N.
    pose proof (search_digits_length cleaned) as M.
    destruct (search_digits cleaned) as [m|].
    + specialize (M m eq_refl). unfold int_of_numeral.
      assert (Z : str_count is_digit segment <> 0).
      { rewrite <- C. intros E. apply N in E. discriminate. }
      destruct max_str_digits as [limit|].
      * destruct (Nat.ltb_spec limit (String.length m)).
        -- split; [discriminate|]. split; [split; [discriminate|tauto]|].
           intros e _. exists limit. split; [reflexivity|lia].
        -- split; [|split; [split; [discriminate|tauto]|discriminate]].
           intros n E. injection E as <-. apply int_of_digits_nonneg. lia.
      * split; [|split; [split; [discriminate|tauto]|discriminate]].
        intros n E. injection E as <-. apply int_of_digits_nonneg. lia.
    + split; [discriminate|]. split; [|discriminate].
      rewrite <- C. split; [intros _; now apply N|reflexivity].
Qed.

(** X4. On ASCII text, a review count read by [_parse_reviews] is never
    negative; the parser finds no count exactly when the segment it looks at
    (after the last opening parenthesis, up to the next closing one) has no
    digit; and it raises only under an interpreter that limits the length of
    integer numerals, for a text longer than that limit. *)
Theorem parse_reviews_non_negative :
  forall (max_str_digits : option nat) (text : string),
    is_ascii text = true ->
    (forall n, _parse_reviews max_str_digits text = Ok (Some n) ->
               (0 <= n)%Z) /\
    (_parse_reviews max_str_digits text = Ok None <->
     str_count is_digit (before_first ")" (after_last "(" text)) = 0) /\
    (forall e, _parse_reviews max_str_digits text = Raise e ->
       exists limit, max_str_digits = Some limit /\
                     limit < String.length text).
Proof. intros max_str_digits text _. apply parse_reviews_cases. Qed.

Lemma parse_reviews_non_negative_witness :
  _parse_reviews (Some 4300) "4.5 (reviews)" = Ok None.
Proof.
  apply (parse_reviews_non_negative (Some 4300) "4.5 (reviews)" eq_refl).
  reflexivity.
Defined.

(** ** The score as an exact sum

    Twice the points of each stage, as integers. *)

Open Scope float_scope.

Definition commission_x2 (p : product) : Z :=
  match dict_get (Str.lower (platform p))
          [ ("amazon"%string, 36%Z); ("myntra"%string, 45%Z);
            ("meesho"%string, 50%Z); ("flipkart"%string, 30%Z);
            ("ajio"%string, 42%Z); ("nykaa"%string, 36%Z);
            ("firstcry"%string, 30%Z) ] with
  | Some c => c
  | None => 30%Z
  end.

Definition rating_x2 (p : product) : Z :=
  let r := Py.or0 (rating p) in
  if 5 <=? r then 40%Z
  else if 4.5 <=? r then 36%Z
  else if 4 <=? r then 28%Z
  else if 3.5 <=? r then 14%Z
  else 0%Z.

Definition review_x2 (p : product) : Z :=
  let n := match review_count p with Some n => n | None => 0%Z end in
  (if 5000 <=? n then 40
   else if 2000 <=? n then 34
   else if 1000 <=? n then 28
   else if 500 <=? n then 20
   else if 100 <=? n then 10
   else 0)%Z.

Definition price_x2 (p : product) : Z :=
  let pr := Py.or0 (price p) in
  if Py.truthy pr then
    if (200 <=? pr) && (pr <=? 5000) then 40%Z
    else if (100 <=? pr) && (pr <=? 10000) then 24%Z
    else 8%Z
  else 0%Z.

Definition stock_x2 (p : product) : Z :=
  let stock := match stock_status p with
               | Some s => s
               | None => "In Stock"%string
               end in
  if String.eqb stock "In Stock" then 30%Z
  else if String.eqb stock "Limited Stock" then 16%Z
  else 0%Z.

(** Twice the points a listing has before the trend stage. *)
Definition base_x2 (p : product) : Z :=
  (commission_x2 p + rating_x2 p + review_x2 p + price_x2 p + stock_x2 p)%Z.

Lemma commission_stage_x2 (p : product) :
  fst (commission_stage (0, p)) = half (commission_x2 p).
Proof.
  unfold commission_stage, commission_x2, commission_pct_of, commission_map,
    dict_get. cbn [fst].
  repeat match goal with
         | |- context [String.eqb ?a ?b] => destruct (String.eqb a b)
         end; reflexivity.
Qed.

Ltac add_x2 :=
  repeat match goal with
  | |- context [half ?a + ?lit] =>
      match lit with
      | 20 => change lit with (half 40); rewrite (half_add a 40) by lia
      | 18 => change lit with (half 36); rewrite (half_add a 36) by lia
      | 17 => change lit with (half 34); rewrite (half_add a 34) by lia
      | 15 => change lit with (half 30); rewrite (half_add a 30) by lia
      | 14 => change lit with (half 28); rewrite (half_add a 28) by lia
      | 12 => change lit with (half 24); rewrite (half_add a 24) by lia
      | 10 => change lit with (half 20); rewrite (half_add a 20) by lia
      | 8 => change lit with (half 16); rewrite (half_add a 16) by lia
      | 7 => change lit with (half 14); rewrite (half_add a 14) by lia
      | 5 => change lit with (half 10); rewrite (half_add a 10) by lia
      | 4 => change lit with (half 8); rewrite (half_add a 8) by lia
      end
  end.

Lemma rating_stage_x2 (h : Z) (p : product) :
  (0 <= h <= 200)%Z ->
  fst (rating_stage (half h, p)) = half (h + rating_x2 p).
Proof.
  intros H. unfold rating_stage, rating_x2.
  destruct (5 <=? _); [|destruct (4.5 <=? _); [|destruct (4 <=? _);
    [|destruct (3.5 <=? _); [|destruct (_ && _)]]]];
    cbn [fst]; add_x2; f_equal; lia.
Qed.

Lemma review_stage_x2 (h : Z) (p : product) :
  (0 <= h <= 200)%Z ->
  fst (review_stage (half h, p)) = half (h + review_x2 p).
Proof.
  intros H. unfold review_stage, review_x2.
  destruct (5000 <=? _)%Z; [|destruct (2000 <=? _)%Z; [|destruct (1000 <=? _)%Z;
    [|destruct (500 <=? _)%Z; [|destruct (100 <=? _)%Z; [|destruct (0 <? _)%Z]]]]];
    cbn [fst]; add_x2; f_equal; lia.
Qed.

Lemma price_stage_x2 (h : Z) (p : product) :
  (0 <= h <= 200)%Z ->
  fst (price_stage (half h, p)) = half (h + price_x2 p).
Proof.
  intros H. unfold price_stage, price_x2.
  destruct (Py.truthy _); [destruct (_ && _); [|destruct (_ && _)]|];
    cbn [fst]; add_x2; f_equal; lia.
Qed.

Lemma stock_stage_x2 (h : Z) (p : product) :
  (0 <= h <= 200)%Z ->
  fst (stock_stage (half h, p)) = half (h + stock_x2 p).
Proof.
  intros H. unfold stock_stage, stock_x2.
  destruct (String.eqb _ "In Stock"); [|destruct (String.eqb _ "Limited Stock")];
    cbn [fst]; add_x2; f_equal; lia.
Qed.

Lemma x2_ranges (p : product) :
  (30 <= commission_x2 p <= 50 /\ 0 <= rating_x2 p <= 40 /\
   0 <= review_x2 p <= 40 /\ 0 <= price_x2 p <= 40 /\
   0 <= stock_x2 p <= 30)%Z.
Proof.
  unfold commission_x2, rating_x2, review_x2, price_x2, stock_x2, dict_get.
  repeat match goal with
         | |- context [if ?c then _ else _] => destruct c
         end; lia.
Qed.

(** A stage reads the listing it is given, and the earlier stages only
    write keys that the later ones do not read. *)
Lemma stage_reads (f : product -> Z) (st st' : scoring) :
  (forall p q, agree p q -> f p = f q) ->
  agree (snd st) (snd st') -> f (snd st) = f (snd st').
Proof. intros H A. now apply H. Qed.

Lemma x2_agree (p q : product) :
  agree p q ->
  commission_x2 p = commission_x2 q /\ rating_x2 p = rating_x2 q /\
  review_x2 p = review_x2 q /\ price_x2 p = price_x2 q /\
  stock_x2 p = stock_x2 q.
Proof.
  intros (_ & P & _ & R & _ & _ & Ra & Rc & _ & _ & S & _).
  unfold commission_x2, rating_x2, review_x2, price_x2, stock_x2.
  now rewrite P, R, Ra, Rc, S.
Qed.

Lemma agree_mark (fires : product -> bool) (r : string) (p : product) :
  agree (mark fires r p) p.
Proof. unfold mark, agree. destruct (fires p); cbn; tauto. Qed.

Lemma agree_set_commission (p : product) (v : float) :
  agree (set_commission_estimate p v) p.
Proof. unfold agree. cbn. tauto. Qed.

(** The running score and the listing after the five stages that precede
    the trend stage. *)
Lemma before_trend_stage (p : product) :
  exists q,
    stock_stage (price_stage (review_stage (rating_stage
      (commission_stage (0, p)))))
    = (half (base_x2 p), q) /\ agree q p.
Proof.
  pose proof (x2_ranges p) as (C & R & V & P & S).
  set (s1 := commission_stage (0, p)).
  assert (E1 : s1 = (half (commission_x2 p), snd s1))
    by (rewrite <- (commission_stage_x2 p); apply surjective_pairing).
  assert (A1 : agree (snd s1) p)
    by (unfold s1; rewrite commission_stage_snd; apply agree_set_commission).
  set (s2 := rating_stage s1).
  assert (E2 : s2 = (half (commission_x2 p + rating_x2 p), snd s2)).
  { rewrite (surjective_pairing s2) at 1. f_equal. unfold s2. rewrite E1.
    rewrite rating_stage_x2 by lia.
    now rewrite (proj1 (proj2 (x2_agree _ _ A1))). }
  assert (A2 : agree (snd s2) p).
  { unfold s2. rewrite rating_stage_snd.
    eapply agree_trans; [apply agree_mark|exact A1]. }
  set (s3 := review_stage s2).
  assert (E3 : s3 = (half (commission_x2 p + rating_x2 p + review_x2 p), snd s3)).
  { rewrite (surjective_pairing s3) at 1. f_equal. unfold s3. rewrite E2.
    rewrite review_stage_x2 by lia.
    now rewrite (proj1 (proj2 (proj2 (x2_agree _ _ A2)))). }
  assert (A3 : agree (snd s3) p).
  { unfold s3. rewrite review_stage_snd.
    eapply agree_trans; [apply agree_mark|exact A2]. }
  set (s4 := price_stage s3).
  assert (E4 : s4 = (half (commission_x2 p + rating_x2 p + review_x2 p
                           + price_x2 p), snd s4)).
  { rewrite (surjective_pairing s4) at 1. f_equal. unfold s4. rewrite E3.
    rewrite price_stage_x2 by lia.
    now rewrite (proj1 (proj2 (proj2 (proj2 (x2_agree _ _ A3))))). }
  assert (A4 : agree (snd s4) p)
    by (unfold s4; now rewrite price_stage_snd).
  exists (snd (stock_stage s4)). split.
  - rewrite (surjective_pairing (stock_stage s4)) at 1. f_equal. rewrite E4.
    rewrite stock_stage_x2 by lia. unfold base_x2.
    now rewrite (proj2 (proj2 (proj2 (proj2 (x2_agree _ _ A4))))).
  - rewrite stock_stage_snd. eapply agree_trans; [apply agree_mark|exact A4].
Qed.

Lemma trend_points_agree (g : bool) (kws : list string) (p q : product) :
  agree p q -> trend_points g kws p = trend_points g kws q.
Proof.
  intros (T & _ & _ & _ & _ & _ & _ & _ & _ & _ & _ & B).
  unfold trend_points. now rewrite T, B.
Qed.

Lemma raw_score_x2 (g : bool) (kws : list string) (p : product) :
  raw_score g kws p = half (base_x2 p + 2 * trend_points g kws p).
Proof.
  unfold raw_score. destruct (before_trend_stage p) as (q & -> & A).
  pose proof (x2_ranges p). unfold base_x2.
  rewrite trend_stage_half by lia. cbn [fst].
  now rewrite (trend_points_agree g kws q p A).
Qed.

(** The score in integers: the floating-point additions and the rounding
    lose nothing. *)
Lemma score_one_x2 (g : bool) (kws : list string) (p : product) :
  score (score_one g kws p)
  = Some (half (Z.min 200 (base_x2 p + 2 * trend_points g kws p))) /\
  (30 <= base_x2 p <= 200)%Z /\ (0 <= trend_points g kws p <= 26)%Z.
Proof.
  pose proof (x2_ranges p). pose proof (trend_points_range g kws p).
  split; [|unfold base_x2; lia].
  rewrite score_of_score_one_raw, raw_score_x2.
  unfold base_x2 in *. rewrite final_half by lia. now rewrite Z.min_comm.
Qed.

(** X5. For a listing whose title and platform name are ASCII text, the
    score is the exact sum of the points of the six stages, capped at 100:
    the floating-point additions and the rounding to one decimal place lose
    nothing.  With the points doubled and written as integers, the score is
    the float of
    [min(200, commission + rating + reviews + price + stock + 2 * trend) / 2]. *)
Theorem score_is_the_exact_capped_sum :
  forall (g : bool) (kws : list string) (p : product),
    is_ascii (title p) = true -> is_ascii (platform p) = true ->
    score (score_one g kws p)
    = Some (half (Z.min 200 (base_x2 p + 2 * trend_points g kws p))) /\
    (30 <= base_x2 p <= 200)%Z /\ (0 <= trend_points g kws p <= 26)%Z.
Proof. intros g kws p _ _. apply score_one_x2. Qed.

Lemma score_is_the_exact_capped_sum_witness :
  score (score_one true ["yoga"%string] badged_mat)
  = Some (half (Z.min 200 (base_x2 badged_mat
                           + 2 * trend_points true ["yoga"%string]
                                   badged_mat))).
Proof.
  exact (proj1 (score_is_the_exact_capped_sum true ["yoga"%string] badged_mat
                  eq_refl eq_refl)).
Defined.

Lemma half_leb (a b : Z) :
  (0 <= a <= 200)%Z -> (0 <= b <= 200)%Z ->
  (half a <=? half b) = (a <=? b)%Z.
Proof.
  intros Ha Hb.
  assert (T : forallb (fun a => forallb (fun b =>
                Bool.eqb (half a <=? half b) (a <=? b)%Z)
                (zrange 201)) (zrange 201) = true)
    by (vm_compute; reflexivity).
  pose proof (forall_half _ _ T a ltac:(cbn; lia)) as T'. cbn beta in T'.
  pose proof (forall_half _ _ T' b ltac:(cbn; lia)) as T''. cbn beta in T''.
  now apply Bool.eqb_prop in T''.
Qed.

(** Whether a scored listing passes, in integers. *)
Lemma passes_x2 (g : bool) (kws : list string) (p : product) :
  passes (score_one g kws p)
  = negb (excluded (score_one g kws p))
    && (140 <=? base_x2 p + 2 * trend_points g kws p)%Z.
Proof.
  unfold passes. f_equal.
  destruct (score_one_x2 g kws p) as (E & B & T).
  rewrite E.
  destruct (half_facts (Z.min 200 (base_x2 p + 2 * trend_points g kws p))
              ltac:(lia)) as (_ & _ & _ & _ & ->).
  destruct (Z.leb_spec 140 (Z.min 200 (base_x2 p + 2 * trend_points g kws p)));
    destruct (Z.leb_spec 140 (base_x2 p + 2 * trend_points g kws p));
    try reflexivity; lia.
Qed.

Lemma too_few_reviews_iff (p : product) :
  too_few_reviews p = true <->
  exists n, review_count p = Some n /\ (0 < n < 100)%Z.
Proof.
  unfold too_few_reviews. destruct (review_count p) as [n|].
  - repeat rewrite andb_true_iff. repeat rewrite negb_true_iff.
    repeat rewrite Z.leb_gt. rewrite Z.ltb_lt. split.
    + intros H. exists n. split; [reflexivity|lia].
    + intros (m & E & H). injection E as <-. lia.
  - cbn. split; [discriminate|]. intros (m & E & _). discriminate.
Qed.

Lemma excluded_of_score_one (g : bool) (kws : list string) (p : product) :
  excluded (score_one g kws p)
  = out_of_stock p || too_few_reviews p || rating_too_low p || excluded p.
Proof.
  unfold excluded at 1. rewrite exclude_of_score_one.
  destruct (out_of_stock p), (too_few_reviews p), (rating_too_low p);
    reflexivity.
Qed.

(** X6. A listing with a review count strictly between 0 and 100 is marked
    [too_few_reviews] by the review rule, for no points; once scored it is
    excluded and passes no filter, whatever its other fields.  A count of 0
    or an absent count gives no points and no mark. *)
Theorem few_reviews_are_excluded :
  forall (p : product) (n : Z),
    review_count p = Some n ->
    ((0 < n < 100)%Z ->
     (forall s, review_stage (s, p) = (s, set_exclude p "too_few_reviews")) /\
     (forall g kws, excluded (score_one g kws p) = true /\
                    passes (score_one g kws p) = false)) /\
    (n = 0%Z -> forall s, review_stage (s, p) = (s, p)).
Proof.
  intros p n E. split.
  - intros H. split.
    + intros s. unfold review_stage. rewrite E.
      destruct (Z.leb_spec 5000 n); [lia|]. destruct (Z.leb_spec 2000 n); [lia|].
      destruct (Z.leb_spec 1000 n); [lia|]. destruct (Z.leb_spec 500 n); [lia|].
      destruct (Z.leb_spec 100 n); [lia|]. destruct (Z.ltb_spec 0 n); [|lia].
      reflexivity.
    + intros g kws.
      assert (F : too_few_reviews p = true)
        by (apply too_few_reviews_iff; eauto).
      assert (X : excluded (score_one g kws p) = true).
      { rewrite excluded_of_score_one, F. now destruct (out_of_stock p). }
      split; [exact X|]. unfold passes. now rewrite X.
  - intros -> s. unfold review_stage. rewrite E. reflexivity.
Qed.

Definition few_reviews_mat : product :=
  amazon_listing "New Yoga Mat" "https://www.amazon.in/New-Mat/dp/B0NEWM"
    (Some 999) None (Some 5) (Some 50%Z) "B0NEWM" None no_badges.

Definition zero_reviews_mat : product :=
  amazon_listing "New Yoga Mat" "https://www.amazon.in/New-Mat/dp/B0NEWM"
    (Some 999) None (Some 5) (Some 0%Z) "B0NEWM" None no_badges.

Lemma few_reviews_are_excluded_witness :
  review_stage (38, few_reviews_mat)
  = (38, set_exclude few_reviews_mat "too_few_reviews") /\
  passes (score_one true [] few_reviews_mat) = false /\
  review_stage (38, zero_reviews_mat) = (38, zero_reviews_mat).
Proof.
  split; [|split].
  - exact (proj1 (proj1 (few_reviews_are_excluded few_reviews_mat 50 eq_refl)
                    (conj eq_refl eq_refl)) 38).
  - exact (proj2 (proj2 (proj1 (few_reviews_are_excluded few_reviews_mat 50
                                  eq_refl) (conj eq_refl eq_refl)) true [])).
  - exact (proj2 (few_reviews_are_excluded zero_reviews_mat 0 eq_refl)
             eq_refl 38).
Defined.

(** X7. The exclusion reason a scored listing carries is that of the last
    rule that fires, in the order of the stages: out of stock, else too few
    reviews, else rating too low; when no rule fires, the listing keeps the
    [_exclude] it came with, so a reason left by an earlier run is never
    cleared.  A listing is excluded after scoring exactly when a rule fires
    or it was excluded before. *)
Theorem exclusion_reason_last_rule_wins :
  forall (g : bool) (kws : list string) (p : product),
    _exclude (score_one g kws p)
    = (if out_of_stock p then Some "out_of_stock"%string
       else if too_few_reviews p then Some "too_few_reviews"%string
       else if rating_too_low p then Some "rating_too_low"%string
       else _exclude p) /\
    excluded (score_one g kws p)
    = out_of_stock p || too_few_reviews p || rating_too_low p || excluded p /\
    (out_of_stock p = true <->
     exists s, stock_status p = Some s /\ s <> "In Stock"%string
               /\ s <> "Limited Stock"%string) /\
    (too_few_reviews p = true <->
     exists n, review_count p = Some n /\ (0 < n < 100)%Z).
Proof.
  intros g kws p. split; [apply exclude_of_score_one|].
  split; [apply excluded_of_score_one|]. split; [|apply too_few_reviews_iff].
  unfold out_of_stock. destruct (stock_status p) as [s|].
  - rewrite andb_true_iff, !negb_true_iff, !String.eqb_neq. split.
    + intros [A B]. exists s. auto.
    + intros (s' & E & A & B). injection E as <-. auto.
  - cbn. split; [discriminate|]. intros (s & E & _). discriminate.
Qed.

(** X8. The trend context can only raise a score and never changes whether
    a listing is excluded: the score with any trend signals is at least the
    score without them, the exclusion reason is the same, and a listing that
    passes without trend signals passes with any. *)
Theorem trend_signals_only_add :
  forall (g : bool) (kws : list string) (p : product),
    (score_key (score_one false [] p) <=? score_key (score_one g kws p)) = true /\
    _exclude (score_one g kws p) = _exclude (score_one false [] p) /\
    (passes (score_one false [] p) = true -> passes (score_one g kws p) = true).
Proof.
  intros g kws p.
  destruct (score_one_x2 g kws p) as (E & B & T).
  destruct (score_one_x2 false [] p) as (E0 & _ & T0).
  split; [|split].
  - unfold score_key. rewrite E, E0. rewrite half_leb by lia.
    apply Z.leb_le. cbn [trend_points] in *.
    assert (trend_points false [] p <= trend_points g kws p)%Z.
    { unfold trend_points. cbn [existsb].
      destruct g, (existsb _ kws), (badges p) as [[[] [] ?]|]; cbn; lia. }
    lia.
  - now rewrite !exclude_of_score_one.
  - rewrite !passes_x2, !excluded_of_score_one.
    assert (trend_points false [] p <= trend_points g kws p)%Z.
    { unfold trend_points. cbn [existsb].
      destruct g, (existsb _ kws), (badges p) as [[[] [] ?]|]; cbn; lia. }
    rewrite !andb_true_iff, !Z.leb_le. intros [X L]. split; [exact X|lia].
Qed.

Lemma trend_signals_only_add_witness :
  passes (score_one true ["yoga"%string] mat_by_reviews) = true.
Proof.
  exact (proj2 (proj2 (trend_signals_only_add true ["yoga"%string]
                         mat_by_reviews)) eq_refl).
Defined.

(** ** What the adapters' listings can score *)

Lemma scraped_fresh (p : product) :
  scraped p -> stock_status p = Some "In Stock"%string /\ _exclude p = None.
Proof. intros []; split; reflexivity. Qed.

Lemma trend_points_without_badges (g : bool) (kws : list string) (p : product) :
  badges p = None -> (0 <= trend_points g kws p <= 18)%Z.
Proof.
  intros B. unfold trend_points. rewrite B.
  destruct g, (existsb _ kws); lia.
Qed.

(** X9. Every listing an adapter builds is in stock for the engine: the
    stock rule gives it its 15 points and never excludes it.  The listings of
    the Myntra, Meesho, Ajio, Nykaa and FirstCry adapters carry no rating and
    no review count, so no rule excludes them at all; a Flipkart listing can
    only be excluded for its rating. *)
Theorem adapter_listings_are_in_stock :
  forall (p : product),
    scraped p ->
    stock_x2 p = 30%Z /\ out_of_stock p = false /\
    (forall g kws,
       (rating p = None -> review_count p = None ->
        excluded (score_one g kws p) = false) /\
       (review_count p = None ->
        excluded (score_one g kws p) = rating_too_low p)) /\
    (platform p <> "amazon"%string -> review_count p = None) /\
    (platform p <> "amazon"%string -> platform p <> "flipkart"%string ->
     rating p = None).
Proof.
  intros p S. destruct (scraped_fresh p S) as [St Ex].
  assert (O : out_of_stock p = false) by (unfold out_of_stock; now rewrite St).
  split; [unfold stock_x2; now rewrite St|]. split; [exact O|].
  split; [|split].
  - intros g kws.
    assert (X : review_count p = None ->
                excluded (score_one g kws p) = rating_too_low p).
    { intros R. rewrite excluded_of_score_one, O.
      unfold too_few_reviews, excluded. rewrite R, Ex. cbn.
      now rewrite orb_false_r. }
    split; [|exact X].
    intros Ra R. rewrite (X R). unfold rating_too_low. now rewrite Ra.
  - destruct S; cbn; intros N1; try reflexivity. now elim N1.
  - destruct S; cbn; intros N1 N2; try reflexivity;
      [now elim N1|now elim N2].
Qed.

Lemma adapter_listings_are_in_stock_witness :
  stock_x2 unrated_mat = 30%Z /\
  excluded (score_one true [] unrated_mat) = false /\
  review_count unrated_mat = None /\ rating unrated_mat = None.
Proof.
  pose (S := scraped_basic "meesho" "Yoga Mat"
               "https://www.meesho.com/yoga-mat/p/1" (Some 499%float) None
               (or_introl eq_refl)).
  split; [|split; [|split]].
  - exact (proj1 (adapter_listings_are_in_stock unrated_mat S)).
  - exact (proj1 (proj1 (proj2 (proj2
             (adapter_listings_are_in_stock unrated_mat S))) true [])
             eq_refl eq_refl).
  - exact (proj1 (proj2 (proj2 (proj2
             (adapter_listings_are_in_stock unrated_mat S))))
             ltac:(discriminate)).
  - exact (proj2 (proj2 (proj2 (proj2
             (adapter_listings_are_in_stock unrated_mat S))))
             ltac:(discriminate) ltac:(discriminate)).
Defined.

Lemma basic_listing_x2 (platform_ title_ url_ : string) (price_ : option float)
    (image_ : option string) (g : bool) (kws : list string) :
  let p := basic_listing platform_ title_ url_ price_ image_ in
  (base_x2 p = commission_x2 p + price_x2 p + 30 /\
   0 <= price_x2 p <= 40 /\ 30 <= commission_x2 p <= 50 /\
   0 <= trend_points g kws p <= 18)%Z /\
  excluded (score_one g kws p) = false.
Proof.
  intros p. pose proof (x2_ranges p) as (C & _ & _ & P & _).
  split; [|now rewrite excluded_of_score_one].
  split.
  { unfold base_x2. change (rating_x2 p) with 0%Z.
    change (review_x2 p) with 0%Z. change (stock_x2 p) with 30%Z. lia. }
  split; [exact P|]. split; [exact C|].
  now apply trend_points_without_badges.
Qed.

Lemma myntra_listing_cold (title_ url_ : string) (price_ mrp_ : option float)
    (image_ : option string) :
  passes (score_one false [] (myntra_listing title_ url_ price_ mrp_ image_))
  = false.
Proof.
  set (p := myntra_listing title_ url_ price_ mrp_ image_).
  pose proof (x2_ranges p) as (_ & _ & _ & P & _).
  rewrite passes_x2, excluded_of_score_one.
  change (out_of_stock p || too_few_reviews p || rating_too_low p
          || excluded p) with false.
  change (base_x2 p) with (45 + 0 + 0 + price_x2 p + 30)%Z.
  change (trend_points false [] p) with 0%Z.
  cbn [negb andb]. apply Z.leb_gt. lia.
Qed.

Lemma basic_listing_cold (platform_ title_ url_ : string)
    (price_ : option float) (image_ : option string) :
  passes (score_one false []
            (basic_listing platform_ title_ url_ price_ image_)) = false.
Proof.
  destruct (basic_listing_x2 platform_ title_ url_ price_ image_ false [])
    as ((B & P & C & T) & X).
  rewrite passes_x2, X, B. cbn [negb andb]. apply Z.leb_gt.
  change (trend_points false [] _) with 0%Z. lia.
Qed.

Lemma flipkart_listing_cold (title_ url_ : string)
    (price_ mrp_ rating_ : option float) (image_ : option string) :
  passes (score_one false []
            (flipkart_listing title_ url_ price_ mrp_ rating_ image_))
  = (5 <=? Py.or0 rating_)
    && (Py.truthy (Py.or0 price_)
        && ((200 <=? Py.or0 price_) && (Py.or0 price_ <=? 5000))).
Proof.
  set (p := flipkart_listing title_ url_ price_ mrp_ rating_ image_).
  rewrite passes_x2, excluded_of_score_one.
  change (out_of_stock p) with false. change (too_few_reviews p) with false.
  change (excluded p) with false. rewrite orb_false_r. cbn [orb].
  change (trend_points false [] p) with 0%Z.
  change (base_x2 p) with (30 + rating_x2 p + 0 + price_x2 p + 30)%Z.
  unfold rating_too_low, rating_x2, price_x2.
  change (rating p) with rating_. change (price p) with price_.
  destruct (5 <=? Py.or0 rating_); [|destruct (4.5 <=? Py.or0 rating_);
    [|destruct (4 <=? Py.or0 rating_);
      [|destruct (3.5 <=? Py.or0 rating_)]]];
    destruct (Py.truthy (Py.or0 price_));
    destruct ((200 <=? Py.or0 price_) && (Py.or0 price_ <=? 5000));
    destruct ((100 <=? Py.or0 price_) && (Py.or0 price_ <=? 10000));
    cbn [negb andb]; try reflexivity;
    try (rewrite andb_false_r); try reflexivity;
    try (apply andb_false_iff; right; apply Z.leb_gt; lia).
Qed.

Lemma firstcry_listing_fails (g : bool) (kws : list string)
    (title_ url_ : string) (price_ : option float) (image_ : option string) :
  passes (score_one g kws
            (basic_listing "firstcry" title_ url_ price_ image_)) = false.
Proof.
  set (p := basic_listing "firstcry" title_ url_ price_ image_).
  destruct (basic_listing_x2 "firstcry" title_ url_ price_ image_ g kws)
    as ((B & P & _ & T) & X). fold p in B, P, T, X.
  rewrite passes_x2, X, B. change (commission_x2 p) with 30%Z.
  cbn [negb andb]. apply Z.leb_gt. lia.
Qed.

(** X10. Without any trend signal (the niche is not trending and no keyword
    is known) no listing of the Myntra, Meesho, Ajio, Nykaa and FirstCry
    adapters passes the scoring stage, and a Flipkart listing passes exactly
    when its rating is at least 5 and its price lies between 200 and 5000:
    only Amazon's listings, which also carry review counts and badges, pass
    otherwise. *)
Theorem without_trends_only_amazon_and_top_flipkart_pass :
  (forall platform_ title_ url_ price_ image_,
     passes (score_one false []
               (basic_listing platform_ title_ url_ price_ image_)) = false) /\
  (forall title_ url_ price_ mrp_ image_,
     passes (score_one false []
               (myntra_listing title_ url_ price_ mrp_ image_)) = false) /\
  (forall title_ url_ price_ mrp_ rating_ image_,
     passes (score_one false []
               (flipkart_listing title_ url_ price_ mrp_ rating_ image_))
     = (5 <=? Py.or0 rating_)
       && (Py.truthy (Py.or0 price_)
           && ((200 <=? Py.or0 price_) && (Py.or0 price_ <=? 5000)))).
Proof.
  split; [|split].
  - apply basic_listing_cold.
  - apply myntra_listing_cold.
  - apply flipkart_listing_cold.
Qed.

(** X11. The substring test of the keyword bonus is true of the empty
    keyword: when the platform-trend keywords contain an empty string (the
    trends scraper keeps every text shorter than 50 characters, the empty
    one included), every listing earns the 8 keyword points, whatever its
    title. *)
Theorem empty_keyword_matches_every_title :
  forall (pt : pinterest_trends),
    In ""%string (trending_keywords pt) ->
    forall (g : bool) (p : product),
      existsb (fun kw => Str.contains kw (Str.lower (title p)))
        (map Str.lower (trending_keywords pt)) = true /\
      (8 <= trend_points g (map Str.lower (trending_keywords pt)) p)%Z /\
      raw_score g (map Str.lower (trending_keywords pt)) p
      = half (base_x2 p
              + 2 * trend_points g (map Str.lower (trending_keywords pt)) p).
Proof.
  intros pt H g p.
  assert (E : existsb (fun kw => Str.contains kw (Str.lower (title p)))
                (map Str.lower (trending_keywords pt)) = true).
  { apply existsb_exists. exists ""%string. split.
    - change ""%string with (Str.lower ""). now apply in_map.
    - now destruct (Str.lower (title p)). }
  split; [exact E|]. split; [|apply raw_score_x2].
  unfold trend_points. rewrite E.
  destruct g, (badges p) as [[[] [] ?]|]; cbn; lia.
Qed.

Definition blank_pins : pinterest_trends :=
  {| pt_niche := "yoga mats"; trending_keywords := ["Explore"; ""]%string;
     is_trending_on_pinterest := true |}.

Lemma empty_keyword_matches_every_title_witness :
  (8 <= trend_points false (map Str.lower (trending_keywords blank_pins))
          unrated_mat)%Z.
Proof.
  exact (proj1 (proj2 (empty_keyword_matches_every_title blank_pins
                         (or_intror (or_introl eq_refl)) false unrated_mat))).
Defined.

(** ** The platform selector and the gathering of results *)

Close Scope float_scope.

Definition matches (kws : list string) (niche : string) : bool :=
  existsb (fun kw => Str.contains kw (Str.lower niche)) kws.

Lemma determine_platforms_cases (niche : string) :
  _determine_platforms niche
  = fromkeys []
      (((((["amazon"; "flipkart"]%string : list string)
          ++ (if matches fashion_kw niche
              then ["myntra"; "meesho"; "ajio"]%string else []))
         ++ (if matches beauty_kw niche
             then ["nykaa"; "myntra"; "meesho"]%string else []))
        ++ (if matches baby_kw niche
            then ["firstcry"; "meesho"]%string else []))
       ++ (if matches fashion_kw niche || matches beauty_kw niche
              || matches baby_kw niche then [] else ["meesho"%string]))%list.
Proof.
  unfold _determine_platforms, matches.
  destruct (existsb _ fashion_kw), (existsb _ beauty_kw), (existsb _ baby_kw);
    reflexivity.
Qed.

Lemma determine_platforms_in_scrapers (niche : string) :
  filter (fun p => str_in p scrapers) (_determine_platforms niche)
  = _determine_platforms niche.
Proof.
  rewrite determine_platforms_cases.
  destruct (matches fashion_kw niche), (matches beauty_kw niche),
           (matches baby_kw niche); reflexivity.
Qed.

(** X12. Whatever the niche, the selected platforms start with Amazon and
    Flipkart, contain Meesho, have no duplicate, and are all platforms that
    have an adapter (so none is dropped when the adapters are looked up);
    there are between 3 and 7 of them. *)
Theorem selected_platforms_are_well_formed :
  forall (niche : string),
    let platforms := _determine_platforms niche in
    NoDup platforms /\
    (exists rest, platforms = "amazon"%string :: "flipkart"%string :: rest) /\
    In "meesho"%string platforms /\
    incl platforms scrapers /\
    filter (fun p => str_in p scrapers) platforms = platforms /\
    3 <= List.length platforms <= 7.
Proof.
  intros niche platforms. unfold platforms.
  split; [|split; [|split; [|split; [|split]]]];
    try apply determine_platforms_in_scrapers;
    rewrite determine_platforms_cases;
    destruct (matches fashion_kw niche), (matches beauty_kw niche),
             (matches baby_kw niche); cbn;
    try (eexists; reflexivity); try lia; try tauto;
    try (repeat constructor; cbn; intuition discriminate);
    try (intros x Hx; cbn in *; tauto).
Qed.

Lemma lower_ascii_idempotent (c : ascii) :
  Str.lower_ascii (Str.lower_ascii c) = Str.lower_ascii c.
Proof. destruct c as [[] [] [] [] [] [] [] []]; reflexivity. Qed.

Lemma lower_idempotent (s : string) : Str.lower (Str.lower s) = Str.lower s.
Proof.
  induction s as [|c s IH]; [reflexivity|]. cbn.
  now rewrite lower_ascii_idempotent, IH.
Qed.

Lemma category_platforms_cases (niche : string) :
  let platforms := _determine_platforms niche in
  (In "firstcry"%string platforms <-> matches baby_kw niche = true) /\
  (In "nykaa"%string platforms <-> matches beauty_kw niche = true) /\
  (In "ajio"%string platforms <-> matches fashion_kw niche = true) /\
  (In "myntra"%string platforms <->
   matches fashion_kw niche = true \/ matches beauty_kw niche = true) /\
  _determine_platforms (Str.lower niche) = platforms.
Proof.
  intros platforms. unfold platforms.
  split; [|split; [|split; [|split]]];
    try (rewrite !determine_platforms_cases; unfold matches;
         now rewrite lower_idempotent);
    rewrite determine_platforms_cases;
    destruct (matches fashion_kw niche), (matches beauty_kw niche),
             (matches baby_kw niche); cbn;
    intuition discriminate.
Qed.

(** X13. For a niche written in ASCII, the category marketplaces are
    selected exactly by the keyword tables: FirstCry when the niche contains
    a baby keyword, Nykaa when it contains a beauty keyword, Ajio when it
    contains a fashion keyword, and Myntra when it contains a fashion or a
    beauty keyword.  The test is a substring test on the lower-cased niche,
    so two ASCII niches that differ only in the case of their letters get
    the same platforms. *)
Theorem category_platforms_follow_keywords :
  forall (niche : string),
    is_ascii niche = true ->
    let platforms := _determine_platforms niche in
    (In "firstcry"%string platforms <-> matches baby_kw niche = true) /\
    (In "nykaa"%string platforms <-> matches beauty_kw niche = true) /\
    (In "ajio"%string platforms <-> matches fashion_kw niche = true) /\
    (In "myntra"%string platforms <->
     matches fashion_kw niche = true \/ matches beauty_kw niche = true) /\
    _determine_platforms (Str.lower niche) = platforms /\
    (forall other,
       is_ascii other = true -> Str.lower other = Str.lower niche ->
       _determine_platforms other = platforms).
Proof.
  intros niche _ platforms.
  destruct (category_platforms_cases niche) as (A & B & C & D & E).
  repeat (split; [assumption|]).
  intros other _ L. unfold platforms.
  destruct (category_platforms_cases other) as (_ & _ & _ & _ & <-).
  now rewrite L, E.
Qed.

Lemma category_platforms_follow_keywords_witness :
  _determine_platforms "BABY Clothing" = _determine_platforms "baby clothing".
Proof.
  exact (proj2 (proj2 (proj2 (proj2 (proj2
           (category_platforms_follow_keywords "baby clothing" eq_refl)))))
           "BABY Clothing"%string eq_refl eq_refl).
Defined.

Lemma fold_left_gather (f : string -> list product) (l : list string)
    (acc : list product) :
  fold_left (fun all_products platform_ => all_products ++ f platform_) l acc
  = acc ++ flat_map f l.
Proof.
  revert acc. induction l as [|x l IH]; intros acc; cbn.
  - now rewrite app_nil_r.
  - rewrite IH. now rewrite app_assoc.
Qed.

(** What one adapter call contributes. *)
Definition contribution (run : string -> string -> option (list product))
    (niche platform_ : string) : list product :=
  match run platform_ niche with
  | Some products => products
  | None => []
  end.

(** X14. The gathered list is the concatenation, in the order of
    completion, of what the adapter calls return: a call that raises
    contributes nothing and takes nothing from the others, whose listings are
    all kept, each platform's in the order its adapter gave them. *)
Theorem gathered_products_are_the_contributions :
  forall (run : string -> string -> option (list product))
         (completion : list string -> list string) (niche : string),
    gather_products run completion niche
    = flat_map (contribution run niche)
        (completion (_determine_platforms niche)) /\
    (forall q,
       In q (gather_products run completion niche) <->
       exists platform_ products,
         In platform_ (completion (_determine_platforms niche)) /\
         run platform_ niche = Some products /\ In q products).
Proof.
  intros run completion niche.
  assert (E : gather_products run completion niche
              = flat_map (contribution run niche)
                  (completion (_determine_platforms niche))).
  { unfold gather_products. rewrite determine_platforms_in_scrapers.
    rewrite <- (app_nil_l (flat_map _ _)), <- fold_left_gather.
    generalize (@nil product).
    induction (completion (_determine_platforms niche)) as [|x l IH];
      intros acc; [reflexivity|]. cbn [fold_left]. rewrite <- IH.
    f_equal. unfold contribution. destruct (run x niche); [reflexivity|].
    now rewrite app_nil_r. }
  split; [exact E|]. intros q. rewrite E, in_flat_map. split.
  - intros (pf & Hp & Hq). unfold contribution in Hq.
    destruct (run pf niche) as [l|] eqn:R; [|contradiction].
    exists pf, l. auto.
  - intros (pf & l & Hp & R & Hq). exists pf. split; [exact Hp|].
    unfold contribution. now rewrite R.
Qed.

(** ** The schedule of the fetcher *)

(** The extra delays of the sleeps of a trace, in the order of the trace. *)
Fixpoint slept_extras (tr : list event) : list Z :=
  match tr with
  | [] => []
  | Slept extra :: rest => extra :: slept_extras rest
  | _ :: rest => slept_extras rest
  end.

Definition is_cooldown (ev : event) : bool :=
  match ev with Cooldown => true | _ => false end.

Definition is_request_of (u : string) (ev : event) : bool :=
  match ev with Requested v => String.eqb u v | _ => false end.

Definition is_request (ev : event) : bool :=
  match ev with Requested _ => true | _ => false end.

(** An answer that asks the client to slow down. *)
Definition throttled (o : http_outcome) : bool :=
  match o with
  | Response st _ => ((st =? 403) || (st =? 429))%Z
  | NetworkError _ => false
  end.

Definition count {A : Type} (f : A -> bool) (l : list A) : nat :=
  List.length (filter f l).

Lemma slept_extras_app (l l' : list event) :
  slept_extras (l ++ l') = slept_extras l ++ slept_extras l'.
Proof.
  induction l as [|ev l IH]; [reflexivity|].
  destruct ev; cbn; now rewrite IH.
Qed.

Lemma count_app {A : Type} (f : A -> bool) (l l' : list A) :
  count f (l ++ l') = count f l + count f l'.
Proof. unfold count. now rewrite filter_app, length_app. Qed.

Lemma skipn_delays (a : nat) (extra : Z) :
  nth_error delays a = Some extra ->
  skipn a delays = extra :: skipn (S a) delays.
Proof.
  destruct a as [|[|[|a]]]; cbn; intros H;
    [injection H as <-; reflexivity ..|destruct a; discriminate].
Qed.

Lemma safe_get_loop_trace (u : string) (n a : nat) (w : world) :
  let answers := next_answers w (Nat.min n (3 - a)) in
  let k := attempts_used answers in
  exists new,
    trace (snd (safe_get_loop u (seq a n) w)) = new ++ trace w /\
    slept_extras (rev new) = firstn k (skipn a delays) /\
    count is_cooldown new = count throttled (firstn k answers) /\
    count is_request new = k /\
    count (is_request_of u) new = k.
Proof.
  revert a w. induction n as [|n IH]; intros a w.
  - exists []. cbn. auto.
  - cbn [seq safe_get_loop].
    destruct (Nat.le_gt_cases 3 a) as [Ha|Ha].
    + assert (N : nth_error delays a = None)
        by (apply nth_error_None; cbn; lia).
      destruct (IH (S a) (Build_world (server w) (calls w) (Warned :: trace w)))
        as (new & E & Sl & Co & Rq & Ru).
      replace (Nat.min n (3 - S a)) with 0 in * by lia.
      replace (Nat.min (S n) (3 - a)) with 0 by lia.
      cbn [next_answers seq map attempts_used firstn] in *.
      exists (new ++ [Warned]).
      unfold Eff.bind, Eff.try_except, attempt_body, index. rewrite N.
      unfold Eff.raise, emit, Eff.modify, Eff.ret. cbn.
      cbn [server calls trace]. cbn [trace] in E.
              rewrite E, <- app_assoc. split; [reflexivity|].
      rewrite rev_app_distr, !count_app. cbn [rev app slept_extras].
      cbn. cbn in Sl, Co, Rq, Ru. split; [exact Sl|].
      unfold count in *. cbn. lia.
    + assert (N : exists extra, nth_error delays a = Some extra).
      { destruct a as [|[|[|a]]]; cbn; eauto. lia. }
      destruct N as (extra & N).
      replace (Nat.min (S n) (3 - a)) with (S (Nat.min n (3 - S a))) by lia.
      set (k := Nat.min n (3 - S a)) in *.
      set (wr := Build_world (server w) (S (calls w))
                   (Requested u :: Slept extra :: trace w)).
      rewrite (next_answers_S w wr k eq_refl eq_refl).
      rewrite (skipn_delays a extra N).
      assert (U : String.eqb u u = true) by apply String.eqb_refl.
      unfold Eff.bind at 1. unfold Eff.try_except, attempt_body, index.
      rewrite N. unfold Eff.bind, Eff.ret, emit, Eff.modify, requests_get.
      cbn [server calls trace fst snd].
      destruct (server w (calls w)) as [st body|m] eqn:R.
      * cbn [attempts_used].
        destruct (st =? 200)%Z eqn:E200.
        -- exists [Requested u; Slept extra]. cbn [snd trace].
           split; [reflexivity|]. cbn. rewrite U.
           assert (T : ((st =? 403) || (st =? 429))%Z = false).
           { apply Z.eqb_eq in E200. subst. reflexivity. }
           unfold count. cbn. rewrite T. auto.
        -- destruct ((st =? 403)%Z || (st =? 429)%Z) eqn:T.
           ++ destruct (IH (S a) (Build_world (server w) (S (calls w))
                  (Cooldown :: Warned :: Requested u :: Slept extra :: trace w)))
                as (new & E & Sl & Co & Rq & Ru).
              fold k in E, Sl, Co, Rq, Ru.
              change (next_answers _ k) with (next_answers wr k) in *.
              exists (new ++ [Cooldown; Warned; Requested u; Slept extra]).
              cbn [server calls trace]. cbn [trace] in E.
              rewrite E, <- app_assoc.
              split; [reflexivity|].
              rewrite rev_app_distr, !count_app. cbn [rev app slept_extras].
              cbn [firstn]. rewrite Sl.
              split; [reflexivity|]. unfold count in *.
              cbn [filter throttled is_cooldown is_request is_request_of
                   List.length].
              rewrite T, U. cbn [List.length]. lia.
           ++ destruct (IH (S a) (Build_world (server w) (S (calls w))
                  (Warned :: Requested u :: Slept extra :: trace w)))
                as (new & E & Sl & Co & Rq & Ru).
              fold k in E, Sl, Co, Rq, Ru.
              change (next_answers _ k) with (next_answers wr k) in *.
              exists (new ++ [Warned; Requested u; Slept extra]).
              cbn [server calls trace]. cbn [trace] in E.
              rewrite E, <- app_assoc.
              split; [reflexivity|].
              rewrite rev_app_distr, !count_app. cbn [rev app slept_extras].
              cbn [firstn]. rewrite Sl.
              split; [reflexivity|]. unfold count in *.
              cbn [filter throttled is_cooldown is_request is_request_of
                   List.length].
              rewrite T, U. cbn [List.length]. lia.
      * cbn [attempts_used].
        destruct (IH (S a) (Build_world (server w) (S (calls w))
               (Warned :: Requested u :: Slept extra :: trace w)))
          as (new & E & Sl & Co & Rq & Ru).
        fold k in E, Sl, Co, Rq, Ru.
        change (next_answers _ k) with (next_answers wr k) in *.
        exists (new ++ [Warned; Requested u; Slept extra]).
        cbn [server calls trace]. cbn [trace] in E.
              rewrite E, <- app_assoc.
        split; [reflexivity|].
        rewrite rev_app_distr, !count_app. cbn [rev app slept_extras].
        cbn [firstn]. rewrite Sl.
        split; [reflexivity|]. unfold count in *.
        cbn [filter throttled is_cooldown is_request is_request_of
             List.length].
        rewrite U. cbn [List.length]. lia.
Qed.

(** X15. The effects of a fetch follow the retry schedule.  If [k] requests
    were sent, the sleeps that preceded them carried, in order, the first [k]
    of the extra delays 0, 5 and 15 (each on top of the random 3 to 6); the
    long cooldown was taken once for each answer with status 403 or 429 among
    the [k] answers received, and never otherwise; all [k] requests went to
    the URL asked for. *)
Theorem fetch_follows_the_retry_schedule :
  forall (u : string) (retries : nat) (w : world),
    let answers := next_answers w (Nat.min retries 3) in
    let k := attempts_used answers in
    exists new,
      trace (snd (_safe_get u retries w)) = new ++ trace w /\
      slept_extras (rev new) = firstn k delays /\
      count is_cooldown new = count throttled (firstn k answers) /\
      count is_request new = k /\
      count (is_request_of u) new = k.
Proof.
  intros u retries w. unfold _safe_get.
  pose proof (safe_get_loop_trace u retries 0 w) as H.
  rewrite Nat.sub_0_r in H. exact H.
Qed.

(** ** What the trend fetchers return *)

Definition no_locals : trend_locals :=
  {| l_rising := []; l_breakout := []; l_topics := [] |}.

Lemma firstn_length_le {A : Type} (n : nat) (l : list A) :
  List.length (firstn n l) <= n.
Proof. rewrite length_firstn. lia. Qed.

Lemma fill_rising_effect (src : pytrends) (niche : string) :
  exists l,
    Eff.try_except (fill_rising src niche) (fun _ => Eff.ret tt) no_locals
    = (Ok tt, l) /\
    (l = no_locals \/
     exists top,
       top <> [] /\ List.length top <= 10 /\
       l = {| l_rising := [(niche, top)];
              l_breakout :=
                [(niche, filter (fun q => (5000 <=? value q)%Z) top)];
              l_topics := [] |}).
Proof.
  unfold Eff.try_except, fill_rising, Eff.bind, Eff.call.
  destruct (related_queries src) as [rq|e]; [|eexists; split; [reflexivity|now left]].
  destruct (dict_get niche rq) as [fr|]; [|eexists; split; [reflexivity|now left]].
  destruct fr as [[|r rs]|]; cbn [rows_present];
    try (eexists; split; [reflexivity|now left]).
  eexists. split; [reflexivity|]. right. exists (firstn 10 (r :: rs)).
  split; [discriminate|]. split; [apply firstn_length_le|reflexivity].
Qed.

(** X16. Whatever the trends library answers, the search-interest signal is
    consistent: [is_trending] is true exactly when [interest_pct] exceeds 40
    (on the failure path too, where both are neutral), the signal is for the
    niche asked for, the rising queries are listed under the niche only, at
    most 10 of them, and every breakout query is one of the listed rising
    queries with a value of at least 5000. *)
Theorem search_interest_signal_is_consistent :
  forall (src : pytrends) (niche : string),
    exists d,
      analyze_google_trends src niche = Ok d /\
      is_trending d = (40 <? interest_pct d)%Z /\
      gt_niche d = niche /\
      (forall kw rows,
         In (kw, rows) (rising_queries d) ->
         kw = niche /\ List.length rows <= 10 /\ rows <> []) /\
      (forall b kw rows,
         breakout_queries d = Some b -> In (kw, rows) b ->
         kw = niche /\
         (forall q, In q rows -> (5000 <= value q)%Z) /\
         exists rising, In (kw, rising) (rising_queries d) /\ incl rows rising).
Proof.
  intros src niche.
  assert (Neutral : forall e,
    is_trending (neutral_trends niche e)
    = (40 <? interest_pct (neutral_trends niche e))%Z /\
    gt_niche (neutral_trends niche e) = niche /\
    (forall kw rows,
       In (kw, rows) (rising_queries (neutral_trends niche e)) ->
       kw = niche /\ List.length rows <= 10 /\ rows <> []) /\
    (forall b kw rows,
       breakout_queries (neutral_trends niche e) = Some b -> In (kw, rows) b ->
       kw = niche /\
       (forall q, In q rows -> (5000 <= value q)%Z) /\
       exists rising,
         In (kw, rising) (rising_queries (neutral_trends niche e))
         /\ incl rows rising)).
  { intros e. cbn. repeat split; try contradiction; discriminate. }
  unfold analyze_google_trends, google_trends_body.
  unfold Eff.try_except at 1. unfold Eff.bind at 1. unfold Eff.call at 1.
  destruct (TrendReq src) as [[]|e]; [|eexists; split; [reflexivity|apply Neutral]].
  unfold Eff.bind at 1. unfold Eff.call at 1.
  destruct (build_payload src) as [[]|e]; [|eexists; split; [reflexivity|apply Neutral]].
  unfold Eff.bind at 1. unfold Eff.call at 1.
  destruct (interest_over_time src) as [frame|e];
    [|eexists; split; [reflexivity|apply Neutral]].
  unfold Eff.bind at 1.
  destruct (fill_rising_effect src niche) as (l1 & E1 & L1).
  fold no_locals. rewrite E1.
  unfold Eff.bind at 1.
  destruct (fill_topics_try src niche l1) as (l2 & -> & R2 & B2).
  unfold Eff.bind, Eff.call, Eff.ret, Eff.get.
  assert (Good : forall pct,
    let d := {| gt_niche := niche; interest_pct := pct;
                rising_queries := l_rising l2;
                breakout_queries := Some (l_breakout l2);
                related_topics := Some (l_topics l2);
                is_trending := (40 <? pct)%Z; error := None |} in
    is_trending d = (40 <? interest_pct d)%Z /\
    gt_niche d = niche /\
    (forall kw rows,
       In (kw, rows) (rising_queries d) ->
       kw = niche /\ List.length rows <= 10 /\ rows <> []) /\
    (forall b kw rows,
       breakout_queries d = Some b -> In (kw, rows) b ->
       kw = niche /\
       (forall q, In q rows -> (5000 <= value q)%Z) /\
       exists rising, In (kw, rising) (rising_queries d) /\ incl rows rising)).
  { intros pct d. unfold d. cbn [is_trending interest_pct gt_niche
      rising_queries breakout_queries].
    split; [reflexivity|]. split; [reflexivity|]. rewrite R2, B2.
    destruct L1 as [->|(top & NE & Len & ->)];
      cbn [l_rising l_breakout no_locals].
    - split; [intros ? ? []|]. intros b kw rows0 H. injection H as <-.
      intros [].
    - split.
      + intros kw rows0 [H|[]]. injection H as <- <-. auto.
      + intros b kw rows0 H. injection H as <-. intros [H|[]].
        injection H as <- <-. split; [reflexivity|]. split.
        * intros q Hq. apply filter_In in Hq. now apply Z.leb_le.
        * exists top. split; [now left|].
          intros q Hq. now apply filter_In in Hq. }
  destruct frame as [mean|].
  - destruct (py_int mean) as [pct|e]; cbn [fst snd];
      eexists; (split; [reflexivity|]); [apply Good|apply Neutral].
  - cbn [fst snd]. eexists. split; [reflexivity|]. apply Good.
Qed.

Lemma NoDup_firstn {A : Type} (n : nat) (l : list A) :
  NoDup l -> NoDup (firstn n l).
Proof.
  revert l. induction n as [|n IH]; intros [|x l] H; cbn; try constructor.
  - inversion H; subst. intros C. apply in_firstn in C. contradiction.
  - inversion H; subst. now apply IH.
Qed.

Lemma list_of_set_spec (o : iteration_order) (l : list string) :
  NoDup (list_of_set o l) /\ forall x, In x (list_of_set o l) <-> In x l.
Proof.
  unfold list_of_set. pose proof (iterate_perm o (nodup string_dec l)) as P.
  split.
  - apply (Permutation_NoDup (Permutation_sym P)). apply NoDup_nodup.
  - intros x. split; intros H.
    + apply (Permutation_in _ P) in H. now apply nodup_In in H.
    + apply (Permutation_in _ (Permutation_sym P)). now apply nodup_In.
Qed.

(** A text some search page or feed really gave. *)
Definition from_search (net : web) (queries : list string) (x : string)
    : Prop :=
  exists q texts,
    In q queries /\ google_search net (search_url q) = Ok texts /\
    In x (firstn 5 texts).

Lemma search_loop_events (net : web) (queries : list string)
    (events : list string) :
  let '(_, events') := search_loop net queries events in
  (forall x, In x events' -> In x events \/ from_search net queries x) /\
  List.length events' <= List.length events + 5 * List.length queries.
Proof.
  revert events. induction queries as [|q rest IH]; intros events.
  - cbn. split; [auto|lia].
  - cbn [search_loop]. unfold Eff.bind at 1. unfold Eff.call at 1.
    destruct (google_search net (search_url q)) as [texts|e] eqn:G.
    + unfold Eff.bind at 1. unfold Eff.modify at 1.
      specialize (IH (events ++ firstn 5 texts)).
      destruct (search_loop net rest (events ++ firstn 5 texts)) as [r ev'].
      destruct IH as [IH1 IH2]. split.
      * intros x Hx. destruct (IH1 x Hx) as [H|(q' & t' & A & B & C)].
        -- apply in_app_iff in H. destruct H as [H|H]; [now left|].
           right. exists q, texts. split; [now left|]. auto.
        -- right. exists q', t'. split; [now right|]. auto.
      * rewrite length_app in IH2. pose proof (firstn_length_le 5 texts).
        cbn [List.length]. lia.
    + split; [auto|]. cbn [List.length]. lia.
Qed.

(** X17. The event fetcher always returns, with at most 15 trending topics,
    at most 10 detected events and at most 20 combined items; the combined
    items are distinct, and each of them is a text that one of the three
    search pages gave (among its first five) or one of the first 20 trending
    searches. *)
Theorem realtime_events_are_bounded :
  forall (o : iteration_order) (net : web) (src : pytrends) (niche : string),
    exists d,
      detect_realtime_events o net src niche = Ok d /\
      ev_niche d = niche /\
      List.length (trending_topics d) <= 15 /\
      List.length (detected_events d) <= 10 /\
      List.length (combined d) <= 20 /\
      NoDup (combined d) /\
      (forall x, In x (combined d) ->
         from_search net (event_queries net niche) x \/
         exists ts, trending_searches src = Ok (Some ts) /\
                    In x (firstn 20 ts)).
Proof.
  intros o net src niche. unfold detect_realtime_events.
  pose proof (search_loop_events net (event_queries net niche) []) as S.
  unfold Eff.try_except at 1.
  destruct (search_loop net (event_queries net niche) []) as [r1 events].
  destruct S as [S _].
  assert (E1 : exists r, (match r1 with
                          | Ok a => (Ok a, events)
                          | Raise e => Eff.ret tt events
                          end) = (r, events))
    by (destruct r1; eexists; reflexivity).
  destruct E1 as (r & ->).
  assert (E2 : exists r' topics,
            Eff.try_except (trending_loop src) (fun _ => Eff.ret tt) []
            = (r', topics) /\
            forall x, In x topics ->
              exists ts, trending_searches src = Ok (Some ts)
                         /\ In x (firstn 20 ts)).
  { unfold Eff.try_except, trending_loop, Eff.bind, Eff.call, Eff.ret,
      Eff.modify.
    destruct (TrendReq src) as [[]|]; [|eexists; eexists; split;
      [reflexivity|intros ? []]].
    destruct (trending_searches src) as [[[|t ts]|]|];
      try solve [eexists; eexists; split; [reflexivity|intros ? []]].
    eexists. eexists. split; [reflexivity|]. intros x Hx. eauto. }
  destruct E2 as (r' & topics & -> & T).
  eexists. split; [reflexivity|].
  cbn [ev_niche trending_topics detected_events combined].
  destruct (list_of_set_spec o (events ++ topics)) as [ND IN].
  split; [reflexivity|]. split; [apply firstn_length_le|].
  split; [apply firstn_length_le|]. split; [apply firstn_length_le|].
  split; [now apply NoDup_firstn|].
  intros x Hx. apply in_firstn in Hx. apply IN in Hx.
  apply in_app_iff in Hx. destruct Hx as [Hx|Hx].
  - destruct (S x Hx) as [[]|H]. now left.
  - right. now apply T.
Qed.

(** X18. The platform-trend fetcher always returns, with at most 20
    keywords, all distinct when the page was fetched; each keyword is a text
    of the page and, when keyword and niche are ASCII text, one that
    mentions the niche (whatever the case of the letters) or is shorter than
    50 characters; [is_trending_on_pinterest] tells whether there is any
    keyword. *)
Theorem pinterest_keywords_are_bounded :
  forall (o : iteration_order) (net : web) (niche : string),
    exists d,
      scrape_pinterest_trends o net niche = Ok d /\
      pt_niche d = niche /\
      List.length (trending_keywords d) <= 20 /\
      NoDup (trending_keywords d) /\
      (forall k, In k (trending_keywords d) ->
         exists items,
           pinterest_page net = Ok items /\ In k items /\
           (is_ascii niche = true -> is_ascii k = true ->
            Str.contains (Str.lower niche) (Str.lower k) = true
            \/ String.length k < 50)) /\
      (is_trending_on_pinterest d = true <-> trending_keywords d <> []).
Proof.
  intros o net niche. unfold scrape_pinterest_trends.
  unfold Eff.try_except, pinterest_body, Eff.bind, Eff.call, Eff.modify,
    Eff.ret.
  assert (Z' : forall l : list string,
            Nat.ltb 0 (List.length l) = true <-> l <> []).
  { intros [|x l]; cbn; split; try discriminate; try reflexivity.
    intros H. now elim H. }
  destruct (pinterest_page net) as [items|e].
  - eexists. split; [reflexivity|].
    cbn [pt_niche trending_keywords is_trending_on_pinterest app].
    set (kept := filter _ items).
    destruct (list_of_set_spec o kept) as [ND IN].
    split; [reflexivity|]. split; [apply firstn_length_le|].
    split; [now apply NoDup_firstn|]. split; [|apply Z'].
    intros k Hk. apply in_firstn in Hk. apply IN in Hk.
    apply filter_In in Hk. destruct Hk as [Hk P].
    exists items. split; [reflexivity|]. split; [exact Hk|]. intros _ _.
    apply orb_true_iff in P. destruct P as [P|P]; [now left|right].
    now apply Nat.ltb_lt.
  - eexists. split; [reflexivity|].
    cbn [pt_niche trending_keywords is_trending_on_pinterest].
    split; [reflexivity|]. split; [cbn; lia|]. split; [constructor|].
    split; [intros k []|apply Z'].
Qed.

(** ** The platform adapters *)

(** What one card contributes to the products. *)
Definition listing_of {card : Type} (body : card -> card_outcome)
    (item : card) : list product :=
  match body item with
  | Listed p => [p]
  | Skipped | Failed => []
  end.

Lemma card_loop_flat_map {card : Type} (body : card -> card_outcome)
    (items : list card) (products : list product) :
  card_loop body items products
  = products ++ flat_map (listing_of body) items.
Proof.
  revert products. induction items as [|item rest IH]; intros products;
    cbn [card_loop flat_map]; [now rewrite app_nil_r|].
  rewrite IH. unfold listing_of.
  destruct (body item); cbn [app]; rewrite <- ?app_assoc; reflexivity.
Qed.

Lemma listing_of_length {card : Type} (body : card -> card_outcome)
    (items : list card) :
  List.length (flat_map (listing_of body) items) <= List.length items.
Proof.
  induction items as [|item rest IH]; cbn [flat_map List.length]; [lia|].
  rewrite length_app. unfold listing_of at 1. destruct (body item); cbn; lia.
Qed.

(** The document a fetch obtains in the state [w] of the network: that of
    the first answer with status 200 among the next three. *)
Definition fetched (w : world) : option BeautifulSoup :=
  first_document (next_answers w 3).

(** The first 15 cards of the page fetched, none when the fetch fails. *)
Definition page_cards {card : Type} (items_of : BeautifulSoup -> list card)
    (w : world) : list card :=
  match fetched w with
  | Some soup => firstn 15 (items_of soup)
  | None => []
  end.

Lemma safe_get_fetched (u : string) (w : world) :
  exists w',
    _safe_get u 3 w = (Ok (fetched w), w') /\
    calls w' = calls w + attempts_used (next_answers w 3) /\
    attempts_used (next_answers w 3) <= 3 /\
    server w' = server w.
Proof.
  destruct (safe_get_loop_spec u 3 0 w) as (w' & E & C & S').
  change (Nat.min 3 (3 - 0)) with 3 in E, C.
  exists w'. split; [exact E|]. split; [exact C|]. split; [|exact S'].
  pose proof (attempts_used_le (next_answers w 3)) as L.
  now rewrite next_answers_length in L.
Qed.

Lemma page_cards_length {card : Type} (items_of : BeautifulSoup -> list card)
    (w : world) :
  List.length (page_cards items_of w) <= 15.
Proof.
  unfold page_cards. destruct (fetched w); [|cbn; lia].
  rewrite length_firstn. lia.
Qed.

Lemma one_page_spec {card : Type} (u : string)
    (items_of : BeautifulSoup -> list card) (body : card -> card_outcome)
    (w : world) :
  exists w',
    one_page u items_of body w
    = (Ok (flat_map (listing_of body) (page_cards items_of w)), w') /\
    calls w' = calls w + attempts_used (next_answers w 3) /\
    attempts_used (next_answers w 3) <= 3 /\
    server w' = server w.
Proof.
  destruct (safe_get_fetched u w) as (w' & E & C).
  exists w'. split; [|exact C].
  unfold one_page, Eff.bind, page_cards. rewrite E.
  destruct (fetched w); unfold Eff.ret; [|reflexivity].
  now rewrite card_loop_flat_map.
Qed.

Lemma amazon_spec (html : html_parser) (max_str_digits : option nat)
    (niche : string) (w : world) :
  exists w1 w2,
    scrape_amazon html max_str_digits niche w
    = (Ok (flat_map (listing_of (amazon_body max_str_digits))
             (page_cards (amazon_cards html) w)
           ++ flat_map (listing_of (amazon_body max_str_digits))
                (page_cards (amazon_cards html) w1)), w2) /\
    calls w1 = calls w + attempts_used (next_answers w 3) /\
    server w1 = server w /\
    calls w2 = calls w1 + attempts_used (next_answers w1 3) /\
    server w2 = server w /\
    calls w2 <= calls w + 6.
Proof.
  unfold scrape_amazon. cbn [amazon_pages].
  set (u1 := ("https://www.amazon.in/s?k=" ++ _ ++ "&sort=review-rank")%string).
  set (u2 := ("https://www.amazon.in/s?k=" ++ _ ++ "&sort=popularity-rank")%string).
  destruct (safe_get_fetched u1 w) as (w1 & E1 & C1 & L1 & S1).
  destruct (safe_get_fetched u2 w1) as (w2 & E2 & C2 & L2 & S2).
  exists w1, w2.
  split; [|split; [exact C1|split; [exact S1|split; [exact C2|split;
    [rewrite S2; exact S1|lia]]]]].
  unfold Eff.bind at 1. rewrite E1. unfold page_cards.
  destruct (fetched w) as [soup1|].
  - unfold Eff.bind. rewrite E2.
    destruct (fetched w1) as [soup2|]; unfold Eff.ret.
    + now rewrite !card_loop_flat_map.
    + cbn [flat_map]. now rewrite card_loop_flat_map, app_nil_r.
  - unfold Eff.bind. rewrite E2.
    destruct (fetched w1) as [soup2|]; unfold Eff.ret.
    + now rewrite card_loop_flat_map.
    + reflexivity.
Qed.

Lemma in_listing_of {card : Type} (body : card -> card_outcome)
    (items : list card) (p : product) :
  In p (flat_map (listing_of body) items) <->
  exists item, In item items /\ body item = Listed p.
Proof.
  rewrite in_flat_map. unfold listing_of. split.
  - intros (item & I & H). exists item. split; [exact I|].
    destruct (body item); cbn in H; try tauto.
    destruct H as [->|[]]. reflexivity.
  - intros (item & I & H). exists item. split; [exact I|].
    rewrite H. now left.
Qed.

Lemma amazon_body_listed (max_str_digits : option nat) (item : amazon_card)
    (p : product) :
  amazon_body max_str_digits item = Listed p ->
  scraped p /\ platform p = "amazon"%string.
Proof.
  unfold amazon_body.
  destruct (a_title_el item), (a_link_el item); try discriminate.
  destruct (_parse_reviews _ _); [|discriminate].
  intros H. injection H as <-. split; [constructor|reflexivity].
Qed.

Lemma flipkart_body_listed (item : flipkart_card) (p : product) :
  flipkart_body item = Listed p ->
  scraped p /\ platform p = "flipkart"%string.
Proof.
  unfold flipkart_body.
  destruct (f_title_el item) as [[attribute text]|]; [|discriminate].
  destruct (href_of _); [|discriminate].
  intros H. injection H as <-. split; [constructor|reflexivity].
Qed.

Lemma myntra_body_listed (item : myntra_card) (p : product) :
  myntra_body item = Listed p ->
  scraped p /\ platform p = "myntra"%string.
Proof.
  unfold myntra_body.
  destruct (m_title_el item); [|discriminate].
  destruct (href_of _); [|discriminate].
  intros H. injection H as <-. split; [constructor|reflexivity].
Qed.

Lemma basic_body_listed (platform_ : string) (full_url_of : string -> string)
    (item : basic_card) (p : product) :
  In platform_ ["meesho"; "ajio"; "nykaa"; "firstcry"]%string ->
  basic_body platform_ full_url_of item = Listed p ->
  scraped p /\ platform p = platform_.
Proof.
  intros I. unfold basic_body.
  destruct (b_title_el item); [|discriminate].
  destruct (href_of _); [|discriminate].
  intros H. injection H as <-. split; [now constructor|reflexivity].
Qed.

Lemma one_page_listings {card : Type} (u : string)
    (items_of : BeautifulSoup -> list card) (body : card -> card_outcome)
    (P : product -> Prop) (w : world) :
  (forall item p, body item = Listed p -> P p) ->
  exists products w',
    one_page u items_of body w = (Ok products, w') /\
    (forall p, In p products -> P p) /\
    List.length products <= 15 /\
    calls w <= calls w' <= calls w + 3 /\
    server w' = server w.
Proof.
  intros B. destruct (one_page_spec u items_of body w) as (w' & E & C & L & S').
  eexists. exists w'. split; [exact E|]. split; [|split; [|split]].
  - intros p H. apply in_listing_of in H. destruct H as (item & _ & H).
    now apply (B item).
  - etransitivity; [apply listing_of_length|apply page_cards_length].
  - lia.
  - exact S'.
Qed.

(** X19. Every adapter of the [scrapers] table returns, whatever the network
    answers and whatever the page holds: it never raises.  What it returns
    are listings built as the adapter builds them, all labelled with the
    adapter's own platform, at most 15 of them (30 for Amazon, which reads
    two pages), after at most 3 requests (6 for Amazon). *)
Theorem adapters_return_their_own_listings :
  forall (html : html_parser) (max_str_digits : option nat)
         (platform_ : string)
         (scraper : string -> Eff.M world (list product))
         (niche : string) (w : world),
    scraper_of html max_str_digits platform_ = Some scraper ->
    exists products w',
      scraper niche w = (Ok products, w') /\
      (forall p, In p products -> scraped p /\ platform p = platform_) /\
      List.length products
      <= (if String.eqb platform_ "amazon" then 30 else 15) /\
      calls w <= calls w'
      <= calls w + (if String.eqb platform_ "amazon" then 6 else 3) /\
      server w' = server w.
Proof.
  intros html max_str_digits platform_ scraper niche w H.
  unfold scraper_of in H. cbn [dict_get] in H.
  repeat match type of H with
         | context [String.eqb ?a ?b] =>
             destruct (String.eqb_spec a b) as [->|?]
         end; try discriminate; injection H as <-.
  - destruct (amazon_spec html max_str_digits niche w)
      as (w1 & w2 & E & C1 & S1 & C2 & S2 & L).
    eexists. exists w2. split; [exact E|]. split; [|split; [|split]].
    + intros p I. apply in_app_or in I.
      destruct I as [I|I]; apply in_listing_of in I;
        destruct I as (item & _ & I);
        now apply (amazon_body_listed max_str_digits item).
    + rewrite length_app. cbn [String.eqb Ascii.eqb Bool.eqb].
      pose proof (listing_of_length (amazon_body max_str_digits)
                    (page_cards (amazon_cards html) w)).
      pose proof (listing_of_length (amazon_body max_str_digits)
                    (page_cards (amazon_cards html) w1)).
      pose proof (page_cards_length (amazon_cards html) w).
      pose proof (page_cards_length (amazon_cards html) w1).
      change (("amazon" =? "amazon")%string) with true. lia.
    + change (("amazon" =? "amazon")%string) with true. lia.
    + exact S2.
  - apply one_page_listings. apply flipkart_body_listed.
  - apply one_page_listings. apply myntra_body_listed.
  - apply one_page_listings. intros item p.
    apply basic_body_listed. cbn. tauto.
  - apply one_page_listings. intros item p.
    apply basic_body_listed. cbn. tauto.
  - apply one_page_listings. intros item p.
    apply basic_body_listed. cbn. tauto.
  - apply one_page_listings. intros item p.
    apply basic_body_listed. cbn. tauto.
Qed.

Definition sample_page : html_parser :=
  {| amazon_cards := fun _ =>
       [ {| a_title_el := Some "Yoga Mat 6mm"%string;
            a_link_el := Some "/Yoga-Mat/dp/B0C1?ref=sr_1_1"%string;
            a_price_el := Some "499"%string;
            a_mrp_el := Some "999"%string;
            a_rating_el := Some "4.6 out of 5 stars"%string;
            a_review_el := Some "(2,345)"%string;
            a_image_el := Some (Some "https://m.media-amazon.com/1.jpg"%string);
            data_asin := "B0C1";
            a_badge_el := false;
            a_text := "Yoga Mat 6mm 4.6 out of 5 stars" |} ];
     flipkart_cards := fun _ _ => [];
     myntra_cards := fun _ => [];
     basic_cards := fun _ _ =>
       [ {| b_title_el := Some "Yoga Mat"%string;
            b_price_el := Some "299"%string;
            b_image_el := None;
            b_link_el := Some None |};
         {| b_title_el := Some "Yoga Block"%string;
            b_price_el := Some "199"%string;
            b_image_el := None;
            b_link_el := None |} ] |}.

Lemma adapters_return_their_own_listings_witness :
  exists products w',
    scrape_meesho sample_page "yoga mats"
      (fresh_world [Response 200 "<html>"%string])
    = (Ok products, w') /\
    (forall p, In p products -> scraped p /\ platform p = "meesho"%string) /\
    List.length products <= 15 /\
    0 <= calls w' <= 3 /\
    server w' = server_of [Response 200 "<html>"%string].
Proof.
  exact (adapters_return_their_own_listings sample_page (Some 4300)
           "meesho" (scrape_meesho sample_page) "yoga mats"
           (fresh_world [Response 200 "<html>"%string]) eq_refl).
Defined.

(** The cards that the Meesho, Ajio, Nykaa and FirstCry adapters list: those
    with a title element and, when they have a link element, with an [href]
    on it. *)
Definition listable (item : basic_card) : bool :=
  match b_title_el item, b_link_el item with
  | Some _, (None | Some (Some _)) => true
  | _, _ => false
  end.

Lemma basic_body_summary (platform_ : string)
    (full_url_of : string -> string) (cards : list basic_card) :
  map (fun p => (title p, price p))
    (flat_map (listing_of (basic_body platform_ full_url_of)) cards)
  = map (fun item => (text_or_empty (b_title_el item),
                      _parse_price (text_or_empty (b_price_el item))))
      (filter listable cards).
Proof.
  induction cards as [|item rest IH]; [reflexivity|].
  cbn [flat_map filter]. rewrite map_app, IH.
  unfold listing_of, basic_body, listable, href_of.
  destruct (b_title_el item) as [t|] eqn:T; [|reflexivity].
  destruct (b_link_el item) as [[h|]|]; cbn [map app title price basic_listing];
    rewrite ?T; reflexivity.
Qed.

Lemma basic_body_without_link (platform_ : string)
    (full_url_of : string -> string) (cards : list basic_card)
    (item : basic_card) (title_ : string) :
  In item cards -> b_title_el item = Some title_ -> b_link_el item = None ->
  exists p,
    In p (flat_map (listing_of (basic_body platform_ full_url_of)) cards) /\
    title p = title_ /\ url p = full_url_of ""%string.
Proof.
  intros I T L. eexists. split.
  - apply in_listing_of. exists item. split; [exact I|].
    unfold basic_body. rewrite T, L. reflexivity.
  - split; reflexivity.
Qed.

(** X20. What the Meesho, Ajio, Nykaa and FirstCry adapters list of a page.
    Only the first 15 cards are looked at.  Of these, a card is listed when
    it has a title element and its link, if it has one, carries an [href];
    a card whose link lacks the [href] is dropped silently, title and price
    notwithstanding.  The listings follow the order of the page.  A card
    without any link is listed with an empty URL (for FirstCry, with the bare
    address of the site). *)
Theorem basic_adapters_list_the_titled_cards :
  forall (html : html_parser) (max_str_digits : option nat)
         (platform_ : string)
         (scraper : string -> Eff.M world (list product))
         (niche : string) (w : world),
    In platform_ ["meesho"; "ajio"; "nykaa"; "firstcry"]%string ->
    scraper_of html max_str_digits platform_ = Some scraper ->
    let cards := page_cards (basic_cards html platform_) w in
    exists products,
      fst (scraper niche w) = Ok products /\
      map (fun p => (title p, price p)) products
      = map (fun item => (text_or_empty (b_title_el item),
                          _parse_price (text_or_empty (b_price_el item))))
          (filter listable cards) /\
      (forall item title_,
         In item cards -> b_title_el item = Some title_ ->
         b_link_el item = None ->
         exists p, In p products /\ title p = title_ /\
                   url p = if String.eqb platform_ "firstcry"
                           then "https://www.firstcry.com"%string
                           else ""%string).
Proof.
  intros html max_str_digits platform_ scraper niche w I H cards.
  cbn in I.
  destruct I as [<-|[<-|[<-|[<-|[]]]]]; injection H as <-;
    match goal with
    | |- context [fst (?f html niche w)] => unfold f
    end;
    match goal with
    | |- context [one_page ?u ?i ?b w] =>
        destruct (one_page_spec u i b w) as (w' & E & _); rewrite E
    end;
    (eexists; split; [reflexivity|]; split;
     [apply basic_body_summary|]);
    intros item title_ Hi Ht Hl;
    match goal with
    | |- context [basic_body ?pf ?fu] =>
        exact (basic_body_without_link pf fu _ item title_ Hi Ht Hl)
    end.
Qed.

Lemma basic_adapters_list_the_titled_cards_witness :
  exists products,
    fst (scrape_meesho sample_page "yoga mats"
           (fresh_world [Response 200 "<html>"%string])) = Ok products /\
    map (fun p => (title p, price p)) products
    = [("Yoga Block"%string, Some 199%float)].
Proof.
  destruct (basic_adapters_list_the_titled_cards sample_page None "meesho"
              (scrape_meesho sample_page) "yoga mats"
              (fresh_world [Response 200 "<html>"%string])
              (or_introl eq_refl) eq_refl) as (products & E & T & _).
  exists products. split; [exact E|exact T].
Defined.

Lemma contains_char (c : ascii) (s : string) :
  Str.contains (String c "") s
  = existsb (Ascii.eqb c) (list_ascii_of_string s).
Proof.
  induction s as [|x s IH]; [reflexivity|].
  cbn [Str.contains String.prefix list_ascii_of_string existsb].
  rewrite IH. destruct (ascii_dec c x) as [->|N].
  - rewrite Ascii.eqb_refl. now destruct s.
  - now destruct (Ascii.eqb_spec c x).
Qed.

Lemma contains_char_app (c : ascii) (a b : string) :
  Str.contains (String c "") (a ++ b)
  = Str.contains (String c "") a || Str.contains (String c "") b.
Proof.
  rewrite !contains_char.
  induction a as [|x a IH]; [reflexivity|].
  cbn [append list_ascii_of_string existsb]. rewrite IH.
  now rewrite orb_assoc.
Qed.

Lemma before_first_has_none (c : ascii) (s : string) :
  Str.contains (String c "") (before_first c s) = false.
Proof.
  rewrite contains_char. unfold before_first.
  induction s as [|x s IH]; [reflexivity|]. cbn [take_while].
  destruct (Ascii.eqb_spec x c) as [->|N]; [reflexivity|].
  cbn [negb list_ascii_of_string existsb]. rewrite IH.
  destruct (Ascii.eqb_spec c x); [congruence|reflexivity].
Qed.

Lemma amazon_body_url (max_str_digits : option nat) (item : amazon_card)
    (p : product) :
  amazon_body max_str_digits item = Listed p ->
  exists path,
    url p = ("https://www.amazon.in" ++ path)%string /\
    Str.contains "?" (url p) = false.
Proof.
  unfold amazon_body.
  destruct (a_title_el item), (a_link_el item) as [href|]; try discriminate.
  destruct (_parse_reviews _ _); [|discriminate].
  intros H. injection H as <-. exists (before_first "?" href).
  split; [reflexivity|].
  change (url (amazon_listing _ _ _ _ _ _ _ _ _))
    with ("https://www.amazon.in" ++ before_first "?" href)%string.
  now rewrite contains_char_app, before_first_has_none.
Qed.

(** X21. The Amazon adapter reads two result pages, the one sorted by review
    rank and the one sorted by popularity, and the second is fetched whatever
    became of the first.  Its result is what the first 15 cards of the first
    page give, followed by what the first 15 cards of the second give: a
    product that both pages show is listed twice.  Every listed URL is the
    address of the site followed by the link's path, cut before any query
    string. *)
Theorem amazon_reads_both_result_pages :
  forall (html : html_parser) (max_str_digits : option nat)
         (niche : string) (w : world),
    exists w1 products,
      fst (scrape_amazon html max_str_digits niche w) = Ok products /\
      calls w1 = calls w + attempts_used (next_answers w 3) /\
      server w1 = server w /\
      products
      = flat_map (listing_of (amazon_body max_str_digits))
          (page_cards (amazon_cards html) w)
        ++ flat_map (listing_of (amazon_body max_str_digits))
             (page_cards (amazon_cards html) w1) /\
      (forall p, In p products ->
         exists path,
           url p = ("https://www.amazon.in" ++ path)%string /\
           Str.contains "?" (url p) = false) /\
      (forall item p,
         In item (page_cards (amazon_cards html) w) ->
         In item (page_cards (amazon_cards html) w1) ->
         amazon_body max_str_digits item = Listed p ->
         exists l1 l2 l3, products = l1 ++ p :: l2 ++ p :: l3).
Proof.
  intros html max_str_digits niche w.
  destruct (amazon_spec html max_str_digits niche w)
    as (w1 & w2 & E & C1 & S1 & _).
  exists w1. eexists. rewrite E. split; [reflexivity|].
  split; [exact C1|]. split; [exact S1|]. split; [reflexivity|]. split.
  - intros p I. apply in_app_or in I.
    destruct I as [I|I]; apply in_listing_of in I;
      destruct I as (item & _ & I);
      now apply (amazon_body_url max_str_digits item).
  - intros item p I1 I2 B.
    assert (L : forall cards, In item cards ->
              exists a b, flat_map (listing_of (amazon_body max_str_digits))
                            cards = a ++ p :: b).
    { intros cards I. apply in_split.
      apply in_listing_of. now exists item. }
    destruct (L _ I1) as (a1 & b1 & ->). destruct (L _ I2) as (a2 & b2 & ->).
    exists a1, (b1 ++ a2), b2. now rewrite <- !app_assoc.
Qed.

Lemma gathered_in (run : string -> string -> option (list product))
    (completion : list string -> list string) (niche : string) (q : product) :
  In q (gather_products run completion niche) ->
  exists platform_ products,
    run platform_ niche = Some products /\ In q products.
Proof.
  unfold gather_products.
  generalize (completion (filter (fun p => str_in p scrapers)
                            (_determine_platforms niche))).
  intros l.
  assert (G : forall acc,
            In q (fold_left
                    (fun all_products platform_ =>
                       match run platform_ niche with
                       | Some products => all_products ++ products
                       | None => all_products
                       end) l acc) ->
            In q acc \/
            exists platform_ products,
              run platform_ niche = Some products /\ In q products).
  { induction l as [|x l IH]; intros acc H; [now left|].
    cbn [fold_left] in H. apply IH in H. destruct H as [H|H]; [|now right].
    destruct (run x niche) as [products|] eqn:R; [|now left].
    apply in_app_or in H. destruct H as [H|H]; [now left|].
    right. now exists x, products. }
  intros H. destruct (G [] H) as [[]|H']. exact H'.
Qed.

(** The products of a one-page adapter come from the cards of its page. *)
Ltac by_one_page :=
  match goal with
  | |- context [one_page ?u ?i ?b ?w] =>
      let w' := fresh "w'" in
      let E := fresh "E" in
      let R := fresh "R" in
      let I := fresh "I" in
      let item := fresh "item" in
      destruct (one_page_spec u i b w) as (w' & E & _); rewrite E; cbn [fst];
      intros R; injection R as <-; intros p I;
      apply in_listing_of in I; destruct I as (item & _ & I);
      revert I
  end.

Lemma run_scrapers_listed (html : html_parser) (max_str_digits : option nat)
    (network : string -> world) (platform_ niche : string)
    (products : list product) :
  run_scrapers html max_str_digits network platform_ niche = Some products ->
  forall p, In p products -> scraped p /\ platform p = platform_.
Proof.
  unfold run_scrapers.
  destruct (scraper_of html max_str_digits platform_) as [scraper|] eqn:H;
    [|discriminate].
  unfold scraper_of in H. cbn [dict_get] in H.
  repeat match type of H with
         | context [String.eqb ?a ?b] =>
             destruct (String.eqb_spec a b) as [->|?]
         end; try discriminate; injection H as <-.
  - destruct (amazon_spec html max_str_digits niche (network "amazon"%string))
      as (w1 & w2 & E & _).
    rewrite E. cbn [fst]. intros R. injection R as <-. intros p I.
    apply in_app_or in I.
    destruct I as [I|I]; apply in_listing_of in I;
      destruct I as (item & _ & I);
      now apply (amazon_body_listed max_str_digits item).
  - unfold scrape_flipkart. by_one_page. apply flipkart_body_listed.
  - unfold scrape_myntra. by_one_page. apply myntra_body_listed.
  - unfold scrape_meesho. by_one_page. apply basic_body_listed. cbn. tauto.
  - unfold scrape_ajio. by_one_page. apply basic_body_listed. cbn. tauto.
  - unfold scrape_nykaa. by_one_page. apply basic_body_listed. cbn. tauto.
  - unfold scrape_firstcry. by_one_page. apply basic_body_listed. cbn. tauto.
Qed.

Lemma returned_passes (products : list product) (niche : string)
    (t : google_trends) (e : realtime_events) (pt : pinterest_trends)
    (q : product) :
  In q (snd (_score_products products niche t e pt)) ->
  exists p, In p products /\
    q = score_one (is_trending t) (map Str.lower (trending_keywords pt)) p /\
    passes q = true.
Proof.
  unfold _score_products. cbn [snd]. intros H.
  apply filter_In in H. destruct H as [H P].
  apply in_map_iff in H. destruct H as (p & <- & I).
  exists p. auto.
Qed.

(** What reaches the final list of a run comes from an adapter call, as a
    listing of that adapter which passed the scoring stage. *)
Lemma final_list_origin (html : html_parser) (max_str_digits : option nat)
    (network : string -> world) (completion : list string -> list string)
    (niche : string) (t : google_trends) (e : realtime_events)
    (pt : pinterest_trends) (q : product) :
  In q (scrape_all_platforms (run_scrapers html max_str_digits network)
          completion niche t e pt) ->
  exists p,
    scraped p /\
    q = score_one (is_trending t) (map Str.lower (trending_keywords pt)) p /\
    passes q = true.
Proof.
  intros H. unfold scrape_all_platforms in H. apply rank_in in H.
  apply returned_passes in H. destruct H as (p & I & E & P).
  apply gathered_in in I. destruct I as (platform_ & products & R & I).
  destruct (run_scrapers_listed _ _ _ _ _ _ R p I) as [S _].
  exists p. auto.
Qed.

Open Scope float_scope.

(** X22. Without any trend signal (the niche is not trending on the search
    engine and the pin board gave no keyword), a run returns nothing but
    Amazon listings and Flipkart listings rated 5 whose price lies between
    200 and 5000, whatever the niche, the pages and the network: the
    listings of the other five adapters are all fetched, scored and
    discarded. *)
Theorem cold_runs_return_amazon_and_top_flipkart_only :
  forall (html : html_parser) (max_str_digits : option nat)
         (network : string -> world)
         (completion : list string -> list string) (niche : string)
         (t : google_trends) (e : realtime_events) (pt : pinterest_trends),
    is_trending t = false -> trending_keywords pt = [] ->
    forall q,
      In q (scrape_all_platforms (run_scrapers html max_str_digits network)
              completion niche t e pt) ->
      platform q = "amazon"%string \/
      (platform q = "flipkart"%string /\
       (5 <=? Py.or0 (rating q)) = true /\
       (200 <=? Py.or0 (price q)) = true /\
       (Py.or0 (price q) <=? 5000) = true).
Proof.
  intros html max_str_digits network completion niche t e pt Ht Hk q H.
  apply final_list_origin in H. destruct H as (p & S & E & P).
  rewrite Ht, Hk in E. cbn [map] in E. subst q.
  pose proof (agree_score_one false [] p)
    as (_ & Pl & _ & Pr & _ & _ & Ra & _).
  rewrite Pl, Pr, Ra. destruct S as [| | |pf ? ? ? ? _].
  - now left.
  - right. rewrite flipkart_listing_cold in P.
    apply andb_true_iff in P. destruct P as [P1 P].
    apply andb_true_iff in P. destruct P as [_ P].
    apply andb_true_iff in P. destruct P as [P2 P3].
    cbn [platform rating price flipkart_listing]. auto.
  - now rewrite myntra_listing_cold in P.
  - now rewrite basic_listing_cold in P.
Qed.

(** X23. No FirstCry listing ever reaches the final list of a run, whatever
    the trend context: the adapter's pages are fetched and parsed for
    nothing. *)
Theorem firstcry_never_reaches_the_final_list :
  forall (html : html_parser) (max_str_digits : option nat)
         (network : string -> world)
         (completion : list string -> list string) (niche : string)
         (t : google_trends) (e : realtime_events) (pt : pinterest_trends)
         (q : product),
    In q (scrape_all_platforms (run_scrapers html max_str_digits network)
            completion niche t e pt) ->
    platform q <> "firstcry"%string.
Proof.
  intros html max_str_digits network completion niche t e pt q H F.
  apply final_list_origin in H. destruct H as (p & S & E & P). subst q.
  pose proof (agree_score_one (is_trending t)
                (map Str.lower (trending_keywords pt)) p) as (_ & Pl & _).
  rewrite Pl in F. destruct S as [| | |pf ? ? ? ? _]; try discriminate.
  cbn [platform basic_listing] in F. subst pf.
  now rewrite firstcry_listing_fails in P.
Qed.

Close Scope float_scope.

(** A network on which every site answers its first request. *)
Definition one_answer (platform_ : string) : world :=
  fresh_world [Response 200 "<html>"%string].

Definition cold_run : list product :=
  scrape_all_platforms (run_scrapers sample_page (Some 4300) one_answer)
    in_order "yoga mats" cold_trends no_events no_pins.

Lemma cold_runs_return_amazon_and_top_flipkart_only_witness :
  exists q, In q cold_run /\ platform q = "amazon"%string.
Proof.
  assert (I : In (hd plain_mat cold_run) cold_run)
    by (vm_compute; left; reflexivity).
  exists (hd plain_mat cold_run). split; [exact I|].
  destruct (cold_runs_return_amazon_and_top_flipkart_only sample_page
              (Some 4300) one_answer in_order "yoga mats" cold_trends
              no_events no_pins eq_refl eq_refl _ I) as [A|[F _]];
    [exact A|vm_compute in F; discriminate].
Defined.

Lemma firstcry_never_reaches_the_final_list_witness :
  exists q, In q cold_run /\ platform q <> "firstcry"%string.
Proof.
  assert (I : In (hd plain_mat cold_run) cold_run)
    by (vm_compute; left; reflexivity).
  exists (hd plain_mat cold_run). split; [exact I|].
  exact (firstcry_never_reaches_the_final_list sample_page (Some 4300)
           one_answer in_order "yoga mats" cold_trends no_events no_pins
           _ I).
Defined.

(** ** Progress over WebSockets *)

(** The sockets of a session on which sending succeeds. *)
Definition live (session_id : Z) (h : hub) : list socket :=
  filter (is_open h) (research_ws_connections h session_id).

(** One message, for each of the sockets [l]. *)
Definition to_each (l : list socket) (message : payload)
    : list (socket * payload) :=
  map (fun ws => (ws, message)) l.

Lemma bind_ok {S A B : Type} (c : Eff.M S A) (k : A -> Eff.M S B)
    (s s' : S) (a : A) :
  c s = (Ok a, s') -> Eff.bind c k s = k a s'.
Proof. intros E. unfold Eff.bind. now rewrite E. Qed.

Lemma bind_raise {S A B : Type} (c : Eff.M S A) (k : A -> Eff.M S B)
    (s s' : S) (e : exn) :
  c s = (Raise e, s') -> Eff.bind c k s = (Raise e, s').
Proof. intros E. unfold Eff.bind. now rewrite E. Qed.

Lemma send_loop_spec (message : payload) (l dead : list socket) (h : hub) :
  send_loop message l dead h
  = (Ok (dead ++ filter (fun ws => negb (is_open h ws)) l),
     {| research_ws_connections := research_ws_connections h;
        is_open := is_open h;
        sent := sent h ++ to_each (filter (is_open h) l) message |}).
Proof.
  revert dead h. induction l as [|ws rest IH]; intros dead h.
  - cbn. rewrite !app_nil_r. now destruct h.
  - cbn [send_loop filter]. unfold Eff.bind at 1, Eff.get.
    destruct (is_open h ws) eqn:O; cbn [negb].
    + unfold Eff.bind, Eff.modify. rewrite IH. cbn [is_open sent
        research_ws_connections]. cbn [to_each map].
      now rewrite <- app_assoc.
    + rewrite IH. now rewrite <- app_assoc.
Qed.

Lemma list_remove_skip (x : socket) (pre rest : list socket) :
  Forall (fun y => x <> y) pre ->
  list_remove x (pre ++ x :: rest) = Ok (pre ++ rest).
Proof.
  induction 1 as [|y pre N _ IH]; cbn [app list_remove].
  - now rewrite Nat.eqb_refl.
  - destruct (Nat.eqb_spec x y); [contradiction|]. now rewrite IH.
Qed.

Lemma remove_loop_spec (session_id : Z) (l pre : list socket) (h : hub) :
  Forall (fun y => is_open h y = true) pre ->
  research_ws_connections h session_id = (pre ++ l)%list ->
  exists h',
    remove_loop session_id (filter (fun ws => negb (is_open h ws)) l) h
    = (Ok tt, h') /\
    research_ws_connections h' session_id
    = (pre ++ filter (is_open h) l)%list /\
    (forall k, k <> session_id ->
       research_ws_connections h' k = research_ws_connections h k) /\
    is_open h' = is_open h /\ sent h' = sent h.
Proof.
  revert pre h. induction l as [|ws rest IH]; intros pre h P R.
  - exists h. cbn. rewrite app_nil_r in *. auto.
  - cbn [filter]. destruct (is_open h ws) eqn:O; cbn [negb].
    + destruct (IH (pre ++ [ws])%list h) as (h' & E & C & K & I & T).
      * apply Forall_app. split; [exact P|]. now constructor.
      * now rewrite <- app_assoc.
      * exists h'. split; [exact E|]. split; [|auto].
        now rewrite C, <- app_assoc.
    + cbn [remove_loop]. unfold Eff.bind at 1, Eff.get.
      unfold Eff.bind at 1, Eff.call. rewrite R, list_remove_skip.
      2:{ eapply Forall_impl; [|exact P]. cbn. intros y Y ->. congruence. }
      unfold Eff.bind, Eff.modify.
      destruct (IH pre (set_connections session_id (pre ++ rest) h))
        as (h' & E & C & K & I & T).
      * exact P.
      * cbn. now rewrite Z.eqb_refl.
      * exists h'. cbn [is_open set_connections] in *.
        split; [exact E|]. split; [exact C|]. split; [|auto].
        intros k N. rewrite (K k N). cbn. destruct (Z.eqb_spec k session_id);
          [contradiction|reflexivity].
Qed.

Lemma broadcast_spec (session_id : Z) (message : payload) (h : hub) :
  exists h',
    broadcast_progress session_id message h = (Ok tt, h') /\
    sent h' = sent h ++ to_each (live session_id h) message /\
    research_ws_connections h' session_id = live session_id h /\
    (forall k, k <> session_id ->
       research_ws_connections h' k = research_ws_connections h k) /\
    is_open h' = is_open h.
Proof.
  unfold broadcast_progress, live. unfold Eff.bind at 1, Eff.get.
  unfold Eff.bind at 1. rewrite send_loop_spec. cbn [app].
  set (h1 := Build_hub _ _ _).
  destruct (remove_loop_spec session_id (research_ws_connections h session_id)
              [] h1 (Forall_nil _) eq_refl) as (h' & E & C & K & I & T).
  exists h'. split; [exact E|]. split; [exact T|]. split; [exact C|].
  split; [exact K|exact I].
Qed.

Lemma list_remove_absent (x : socket) (l : list socket) :
  ~ In x l ->
  list_remove x l = Raise (ValueError "list.remove(x): x not in list").
Proof.
  induction l as [|y l IH]; [reflexivity|]. cbn [In list_remove]. intros N.
  destruct (Nat.eqb_spec x y) as [->|_]; [tauto|].
  rewrite IH; tauto.
Qed.

(** X25. The life of a socket in the session table.  Registering a socket and
    then running its disconnect handler leaves the session's list as it was.
    But once a broadcast has found the socket closed and dropped it, the
    socket's own disconnect handler finds nothing to remove: it raises
    [ValueError] and changes nothing. *)
Theorem disconnect_after_a_failed_send_raises :
  forall (session_id : Z) (ws : socket) (h : hub),
    (~ In ws (research_ws_connections h session_id) ->
     exists h1 h2,
       websocket_registered session_id ws h = (Ok tt, h1) /\
       websocket_disconnected session_id ws h1 = (Ok tt, h2) /\
       research_ws_connections h2 session_id
       = research_ws_connections h session_id) /\
    (forall message,
       is_open h ws = false ->
       exists h',
         broadcast_progress session_id message h = (Ok tt, h') /\
         websocket_disconnected session_id ws h'
         = (Raise (ValueError "list.remove(x): x not in list"), h')).
Proof.
  intros session_id ws h. split.
  - intros N. eexists. eexists. split; [reflexivity|].
    unfold websocket_disconnected, Eff.bind, Eff.get, Eff.call.
    cbn [research_ws_connections set_connections]. rewrite Z.eqb_refl.
    rewrite list_remove_skip.
    2:{ apply Forall_forall. intros y Y ->. contradiction. }
    unfold Eff.modify. split; [reflexivity|]. cbn.
    now rewrite Z.eqb_refl, app_nil_r.
  - intros message C.
    destruct (broadcast_spec session_id message h) as (h' & E & _ & R & _).
    exists h'. split; [exact E|].
    unfold websocket_disconnected, Eff.bind, Eff.get, Eff.call.
    rewrite R, list_remove_absent; [reflexivity|].
    unfold live. rewrite filter_In. intros [_ O]. congruence.
Qed.

Definition two_sockets : hub :=
  {| research_ws_connections := fun k => if Z.eqb k 7 then [1; 2] else [];
     is_open := fun ws => Nat.eqb ws 1;
     sent := [] |}.

Definition saving : payload :=
  {| step := Some "Saving results to database..."%string; progress := 92;
     status := None; products_found := None; error_text := None |}.

Lemma disconnect_after_a_failed_send_raises_witness :
  exists h',
    broadcast_progress 7 saving two_sockets = (Ok tt, h') /\
    websocket_disconnected 7 2 h'
    = (Raise (ValueError "list.remove(x): x not in list"), h').
Proof.
  exact (proj2 (disconnect_after_a_failed_send_raises 7 2 two_sockets)
           saving eq_refl).
Defined.

(** ** The research run *)

(** The database accepts the next [n] inserts into [products]. *)
Definition all_accepted (db : database) (n : nat) : Prop :=
  forall i, i < n ->
    accepts db (List.length (products_table db) + i) = Ok tt.

(** The database accepts the next [k] inserts and refuses the one after
    them with [e]. *)
Definition refused_at (db : database) (k : nat) (e : exn) : Prop :=
  all_accepted db k /\
  accepts db (List.length (products_table db) + k) = Raise e.

Lemma save_products_cons (session_id : Z) (niche : string) (p : product)
    (rest : list product) (saved : Z) (db : database) :
  save_products session_id niche (p :: rest) saved db
  = match accepts db (List.length (products_table db)) with
    | Ok _ =>
        save_products session_id niche rest (saved + 1)%Z
          {| products_table :=
               products_table db ++ [product_row_of session_id niche p];
             accepts := accepts db |}
    | Raise e => (Raise e, db)
    end.
Proof.
  cbn [save_products]. unfold Eff.bind, insert_product.
  now destruct (accepts db (List.length (products_table db))).
Qed.

Lemma save_products_spec (session_id : Z) (niche : string)
    (raw_products : list product) (saved : Z) (db : database) :
  (all_accepted db (List.length raw_products) /\
   save_products session_id niche raw_products saved db
   = (Ok (saved + Z.of_nat (List.length raw_products))%Z,
      {| products_table :=
           products_table db
           ++ map (product_row_of session_id niche) raw_products;
         accepts := accepts db |})) \/
  (exists k e,
     k < List.length raw_products /\ refused_at db k e /\
     save_products session_id niche raw_products saved db
     = (Raise e,
        {| products_table :=
             products_table db
             ++ map (product_row_of session_id niche) (firstn k raw_products);
           accepts := accepts db |})).
Proof.
  revert saved db. induction raw_products as [|p rest IH]; intros saved db.
  - left. split; [intros i Hi; inversion Hi|].
    cbn. rewrite app_nil_r, Z.add_0_r. now destruct db.
  - rewrite save_products_cons.
    destruct (accepts db (List.length (products_table db))) as [[]|e] eqn:A.
    + set (db1 := Build_database _ _).
      assert (L : List.length (products_table db1)
                  = S (List.length (products_table db)))
        by (unfold db1; cbn; rewrite length_app; cbn; lia).
      destruct (IH (saved + 1)%Z db1) as [[Acc E]|(k & e & Hk & [Acc R] & E)].
      * left. split.
        -- intros [|i] Hi; [now rewrite Nat.add_0_r|].
           cbn [List.length] in Hi. specialize (Acc i ltac:(lia)).
           rewrite L in Acc. cbn [accepts db1] in Acc.
           now replace (List.length (products_table db) + S i)
             with (S (List.length (products_table db)) + i) by lia.
        -- rewrite E. cbn [products_table accepts db1 List.length map].
           rewrite <- app_assoc.
           replace (saved + 1 + Z.of_nat (List.length rest))%Z
             with (saved + Z.of_nat (S (List.length rest)))%Z by lia.
           reflexivity.
      * right. exists (S k), e. split; [cbn; lia|]. split; [split|].
        -- intros [|i] Hi; [now rewrite Nat.add_0_r|].
           specialize (Acc i ltac:(lia)).
           rewrite L in Acc. cbn [accepts db1] in Acc.
           now replace (List.length (products_table db) + S i)
             with (S (List.length (products_table db)) + i) by lia.
        -- rewrite L in R. cbn [accepts db1] in R.
           now replace (List.length (products_table db) + S k)
             with (S (List.length (products_table db)) + k) by lia.
        -- rewrite E. cbn [products_table accepts db1 firstn map].
           now rewrite <- app_assoc.
    + right. exists 0, e. split; [cbn; lia|]. split; [split|].
      * intros i Hi. inversion Hi.
      * now rewrite Nat.add_0_r.
      * cbn. rewrite app_nil_r. now destruct db.
Qed.

(** X26. The product rows are inserted one by one and nothing is undone.
    When the database accepts every insert, the table gains one row per
    product, in order, and the count returned is the number of products.
    When it refuses the insert of the product at position [k], the loop
    raises that error at once: the rows of the [k] products before it stay
    in the table, and no later product is tried. *)
Theorem save_products_keeps_what_was_inserted :
  forall (session_id : Z) (niche : string) (raw_products : list product)
         (db : database),
    (all_accepted db (List.length raw_products) ->
     exists db',
       save_products session_id niche raw_products 0 db
       = (Ok (Z.of_nat (List.length raw_products)), db') /\
       products_table db'
       = products_table db
         ++ map (product_row_of session_id niche) raw_products) /\
    (forall k e,
       k < List.length raw_products -> refused_at db k e ->
       exists db',
         save_products session_id niche raw_products 0 db = (Raise e, db') /\
         products_table db'
         = products_table db
           ++ map (product_row_of session_id niche) (firstn k raw_products) /\
         List.length (products_table db')
         = List.length (products_table db) + k).
Proof.
  intros session_id niche raw_products db.
  destruct (save_products_spec session_id niche raw_products 0 db)
    as [[Acc E]|(k & e & Hk & [Acc R] & E)]; split.
  - intros _. eexists. split; [exact E|reflexivity].
  - intros k e Hk [_ R]. rewrite (Acc k Hk) in R. discriminate.
  - intros Acc'. rewrite (Acc' k Hk) in R. discriminate.
  - intros k' e' Hk' [Acc' R'].
    assert (k' = k).
    { destruct (Nat.lt_trichotomy k' k) as [L|[L|L]]; [|exact L|].
      - rewrite (Acc k' L) in R'. discriminate.
      - rewrite (Acc' k L) in R. discriminate. }
    subst k'. rewrite R in R'. injection R' as <-.
    eexists. split; [exact E|]. split; [reflexivity|].
    cbn [products_table]. rewrite length_app, length_map, length_firstn. lia.
Qed.

(** A database that accepts one row and then loses the connection. *)
Definition one_row_then_down : database :=
  {| products_table := [];
     accepts := fun n => if Nat.eqb n 0 then Ok tt
                         else Raise (LibraryError "connection lost") |}.

Lemma save_products_keeps_what_was_inserted_witness :
  exists db',
    save_products 7 "yoga mats" [mat_by_reviews; mat_by_popularity] 0
      one_row_then_down
    = (Raise (LibraryError "connection lost"), db') /\
    products_table db'
    = [product_row_of 7 "yoga mats" mat_by_reviews] /\
    List.length (products_table db') = 1.
Proof.
  refine (proj2 (save_products_keeps_what_was_inserted 7 "yoga mats"
                   [mat_by_reviews; mat_by_popularity] one_row_then_down)
            1 (LibraryError "connection lost") _ _).
  - cbn. lia.
  - split; [|reflexivity]. intros [|i] Hi; [reflexivity|lia].
Defined.

(** The progress messages of a run, before its verdict. *)
Definition progress_steps : list (string * Z) :=
  [ ("Analyzing Google Trends for your niche...", 5);
    ("Detecting real-time events and trends in India...", 15);
    ("Scraping Pinterest trends for your niche...", 25);
    ("Finding products across Amazon, Flipkart, Myntra, Meesho...", 35);
    ("Running competitor analysis on Pinterest...", 60);
    ("Scoring and ranking products...", 75);
    ("Checking for duplicate products...", 85);
    ("Saving results to database...", 92) ]%string%Z.

Definition progress_message (s : string * Z) : payload :=
  {| step := Some (fst s); progress := snd s; status := None;
     products_found := None; error_text := None |}.

(** The two verdicts. *)
Definition completed_message (saved : Z) : payload :=
  {| step := Some "Research complete!"%string; progress := 100;
     status := Some "completed"%string; products_found := Some saved;
     error_text := None |}.

Definition failed_message : payload :=
  {| step := None; progress := 0; status := Some "failed"%string;
     products_found := None;
     error_text := Some "Research failed. Please try again."%string |}.

(** The hub [h'] is [h] after the messages [msgs] were broadcast to the
    session. *)
Definition told (session_id : Z) (msgs : list payload) (h h' : hub) : Prop :=
  sent h' = sent h ++ flat_map (to_each (live session_id h)) msgs /\
  live session_id h' = live session_id h /\
  is_open h' = is_open h /\
  (forall k, k <> session_id ->
     research_ws_connections h' k = research_ws_connections h k).

Definition same_data (b b' : backend) : Prop :=
  store b' = store b /\ research_sessions b' = research_sessions b /\
  evolution_log b' = evolution_log b /\
  evolution_performance_log b' = evolution_performance_log b.

Lemma told_nil (session_id : Z) (h : hub) : told session_id [] h h.
Proof. unfold told. cbn. rewrite app_nil_r. auto. Qed.

Lemma filter_twice {A : Type} (f : A -> bool) (l : list A) :
  filter f (filter f l) = filter f l.
Proof.
  induction l as [|x l IH]; [reflexivity|]. cbn.
  destruct (f x) eqn:F; cbn; rewrite ?F, IH; reflexivity.
Qed.

Lemma told_broadcast (session_id : Z) (message : payload) (b : backend) :
  exists b',
    on_hub (broadcast_progress session_id message) b = (Ok tt, b') /\
    same_data b b' /\
    forall h0 msgs,
      told session_id msgs h0 (connections b) ->
      told session_id (msgs ++ [message]) h0 (connections b').
Proof.
  destruct (broadcast_spec session_id message (connections b))
    as (h' & E & T & R & K & I).
  unfold on_hub. rewrite E. eexists. split; [reflexivity|].
  split; [repeat split|].
  intros h0 msgs (T0 & L0 & I0 & K0). cbn [connections].
  split; [|split; [|split]].
  - rewrite T, T0, flat_map_app, <- app_assoc. cbn [flat_map].
    now rewrite app_nil_r, L0.
  - unfold live at 1. rewrite I, R. unfold live at 1.
    now rewrite filter_twice.
  - congruence.
  - intros k N. rewrite (K k N). now apply K0.
Qed.

Lemma update_spec (session_id : Z) (step_ : string) (pct : Z)
    (status_ : option string) (found : option Z) (b : backend) :
  exists b',
    update session_id step_ pct status_ found b = (Ok tt, b') /\
    same_data b b' /\
    forall h0 msgs,
      told session_id msgs h0 (connections b) ->
      told session_id
        (msgs ++ [{| step := Some step_; progress := pct; status := status_;
                     products_found := found; error_text := None |}])
        h0 (connections b').
Proof. apply told_broadcast. Qed.

Lemma same_data_trans (a b c : backend) :
  same_data a b -> same_data b c -> same_data a c.
Proof. unfold same_data. intuition congruence. Qed.

Lemma analyze_google_trends_returns (src : pytrends) (niche : string) :
  exists t, analyze_google_trends src niche = Ok t.
Proof.
  unfold analyze_google_trends, Eff.try_except.
  destruct (google_trends_body src niche _) as [[t|e] l]; cbn; eauto.
Qed.

Lemma detect_realtime_events_returns (o : iteration_order) (net : web)
    (src : pytrends) (niche : string) :
  exists e, detect_realtime_events o net src niche = Ok e.
Proof.
  unfold detect_realtime_events.
  destruct (Eff.try_except (search_loop _ _) _ _).
  destruct (Eff.try_except (trending_loop _) _ _). eauto.
Qed.

Lemma scrape_pinterest_trends_returns (o : iteration_order) (net : web)
    (niche : string) :
  exists pt, scrape_pinterest_trends o net niche = Ok pt.
Proof.
  unfold scrape_pinterest_trends.
  destruct (Eff.try_except (pinterest_body _ _ _) _ _). eauto.
Qed.

(** The products that steps 1 to 4 of a run come to. *)
Definition run_products (src : sources) (niche : string) : list product :=
  match analyze_google_trends (trends_library src) niche,
        detect_realtime_events (set_order src) (the_web src)
          (events_library src) niche,
        scrape_pinterest_trends (set_order src) (the_web src) niche with
  | Ok trends_data, Ok events_data, Ok pinterest_data =>
      scrape_all_platforms
        (run_scrapers (html src) (max_str_digits src) (network src))
        (completion src) niche trends_data events_data pinterest_data
  | _, _, _ => []
  end.

(** Step 8 of a run and what follows it inside the [try]. *)
Definition store_and_report (svc : services) (session_id : Z)
    (niche : string) (raw_products : list product) : Eff.M backend unit :=
  saved <- on_store (save_products session_id niche raw_products 0) ;;
  Eff.call (dumps_trends_data svc) ;;;
  update_session (update_completed svc) session_id
    (fun row => {| s_status := "completed"; s_products_found := Some saved;
                   s_error_log := s_error_log row |}) ;;;
  Eff.call (insert_evolution_log svc) ;;;
  Eff.modify (fun b =>
    {| connections := connections b; store := store b;
       research_sessions := research_sessions b;
       evolution_log := evolution_log b ++ [(niche, saved)];
       evolution_performance_log := evolution_performance_log b |}) ;;;
  update session_id "Research complete!" 100 (Some "completed"%string)
    (Some saved) ;;;
  log_research_complete svc niche saved.

Lemma bind_call_ok {S A B : Type} (a : A) (k : A -> Eff.M S B) (s : S) :
  Eff.bind (Eff.call (Ok a)) k s = k a s.
Proof. reflexivity. Qed.

Lemma research_steps_announce (src : sources) (svc : services)
    (session_id : Z) (niche : string) (b : backend) :
  exists b8,
    research_steps src svc session_id niche b
    = store_and_report svc session_id niche (run_products src niche) b8 /\
    same_data b b8 /\
    told session_id (map progress_message progress_steps)
      (connections b) (connections b8).
Proof.
  unfold research_steps, run_products.
  destruct (analyze_google_trends_returns (trends_library src) niche)
    as (t & ->).
  destruct (detect_realtime_events_returns (set_order src) (the_web src)
              (events_library src) niche) as (e & ->).
  destruct (scrape_pinterest_trends_returns (set_order src) (the_web src)
              niche) as (pt & ->).
  pose proof (told_nil session_id (connections b)) as T0.
  repeat match goal with
  | T : told session_id ?msgs (connections b) (connections ?b0)
    |- context [Eff.bind (update session_id ?s ?p ?st ?f) ?k ?b0] =>
      let b' := fresh "b" in
      let E := fresh "E" in
      let D := fresh "D" in
      let T' := fresh "T" in
      destruct (update_spec session_id s p st f b0) as (b' & E & D & T');
      rewrite (bind_ok _ _ _ _ _ E);
      specialize (T' _ _ T); cbn [app] in T'; clear T E;
      rewrite ?bind_call_ok
  end.
  eexists. split; [reflexivity|]. split; [|eassumption].
  repeat match goal with
         | D : same_data ?x ?y, D' : same_data ?y ?z |- _ =>
             pose proof (same_data_trans x y z D D'); clear D D'
         end.
  assumption.
Qed.

Definition completed_row (saved : Z) (row : session_row) : session_row :=
  {| s_status := "completed"; s_products_found := Some saved;
     s_error_log := s_error_log row |}.

Definition failed_row (e : exn) (row : session_row) : session_row :=
  {| s_status := "failed"; s_products_found := s_products_found row;
     s_error_log := Some (exn_str e) |}.

(** The session rows [rows'] are [rows] with [change] applied to the rows of
    the session. *)
Definition session_changed (session_id : Z)
    (change : session_row -> session_row)
    (rows rows' : Z -> option session_row) : Prop :=
  forall k, rows' k = if Z.eqb k session_id then option_map change (rows k)
                      else rows k.

Lemma research_failed_spec (svc : services) (session_id : Z) (e : exn)
    (b : backend) :
  exists b',
    research_failed svc session_id e b = (Ok tt, b') /\
    store b' = store b /\ evolution_log b' = evolution_log b /\
    evolution_performance_log b' = evolution_performance_log b /\
    match update_failed svc with
    | Ok _ => session_changed session_id (failed_row e)
                (research_sessions b) (research_sessions b')
    | Raise _ => research_sessions b' = research_sessions b
    end /\
    forall h0 msgs,
      told session_id msgs h0 (connections b) ->
      told session_id (msgs ++ [failed_message]) h0 (connections b').
Proof.
  unfold research_failed.
  destruct (update_failed svc) as [[]|e'].
  - set (b1 := {| connections := connections b; store := store b;
                  research_sessions :=
                    fun k => if Z.eqb k session_id
                             then option_map (failed_row e)
                                    (research_sessions b k)
                             else research_sessions b k;
                  evolution_log := evolution_log b;
                  evolution_performance_log :=
                    evolution_performance_log b |}).
    destruct (told_broadcast session_id failed_message b1)
      as (b' & E & (D1 & D2 & D3 & D4) & T).
    exists b'. split; [|split; [exact D1|split; [exact D3|split;
      [exact D4|split; [|exact T]]]]].
    + rewrite (bind_ok _ _ b b1 tt); [exact E|reflexivity].
    + rewrite D2. intros k. reflexivity.
  - destruct (told_broadcast session_id failed_message b)
      as (b' & E & (D1 & D2 & D3 & D4) & T).
    exists b'. split; [|split; [exact D1|split; [exact D3|split;
      [exact D4|split; [exact D2|exact T]]]]].
    rewrite (bind_ok _ _ b b tt); [exact E|reflexivity].
Qed.

Lemma store_and_report_spec (svc : services) (session_id : Z)
    (niche : string) (raw_products : list product) (b : backend) :
  get_supabase svc = Ok tt ->
  let n := List.length raw_products in
  let rows := map (product_row_of session_id niche) raw_products in
  (all_accepted (store b) n /\ dumps_trends_data svc = Ok tt /\
   update_completed svc = Ok tt /\ insert_evolution_log svc = Ok tt /\
   exists b',
     store_and_report svc session_id niche raw_products b = (Ok tt, b') /\
     products_table (store b') = products_table (store b) ++ rows /\
     session_changed session_id (completed_row (Z.of_nat n))
       (research_sessions b) (research_sessions b') /\
     evolution_log b' = evolution_log b ++ [(niche, Z.of_nat n)] /\
     evolution_performance_log b'
     = evolution_performance_log b
       ++ match insert_performance_log svc with
          | Ok _ => [(niche, Z.of_nat n)]
          | Raise _ => []
          end /\
     forall h0 msgs,
       told session_id msgs h0 (connections b) ->
       told session_id (msgs ++ [completed_message (Z.of_nat n)]) h0
         (connections b')) \/
  (exists e b',
     store_and_report svc session_id niche raw_products b = (Raise e, b') /\
     connections b' = connections b /\
     evolution_log b' = evolution_log b /\
     evolution_performance_log b' = evolution_performance_log b /\
     ((exists k,
         k < n /\ refused_at (store b) k e /\
         products_table (store b')
         = products_table (store b) ++ firstn k rows /\
         research_sessions b' = research_sessions b) \/
      (all_accepted (store b) n /\
       products_table (store b') = products_table (store b) ++ rows /\
       ((dumps_trends_data svc = Raise e /\
         research_sessions b' = research_sessions b) \/
        (dumps_trends_data svc = Ok tt /\ update_completed svc = Raise e /\
         research_sessions b' = research_sessions b) \/
        (dumps_trends_data svc = Ok tt /\ update_completed svc = Ok tt /\
         insert_evolution_log svc = Raise e /\
         session_changed session_id (completed_row (Z.of_nat n))
           (research_sessions b) (research_sessions b')))))).
Proof.
  intros G n rows.
  remember (store_and_report svc session_id niche raw_products b) as out
    eqn:O.
  unfold store_and_report in O. unfold Eff.bind at 1, on_store in O.
  destruct (save_products_spec session_id niche raw_products 0 (store b))
    as [[Acc E]|(k & e & Hk & R & E)]; rewrite E in O; cbn [Z.add] in O.
  2:{ right. exists e. eexists. split; [exact O|].
      cbn. repeat split. left. exists k.
      repeat split; try apply R; try exact Hk.
      unfold rows. now rewrite firstn_map. }
  fold n rows in O.
  destruct (dumps_trends_data svc) as [[]|e] eqn:Du.
  2:{ right. exists e. eexists. split; [exact O|]. cbn.
      repeat split. right. repeat split; auto. }
  rewrite bind_call_ok in O.
  destruct (update_completed svc) as [[]|e] eqn:Up.
  2:{ right. exists e. eexists. split; [exact O|]. cbn.
      repeat split. right. repeat split; auto. }
  destruct (insert_evolution_log svc) as [[]|e] eqn:Lg.
  2:{ right. exists e. eexists. split; [exact O|]. cbn.
      repeat split. right. repeat split; auto.
      right. right. repeat split; auto. }
  left. split; [exact Acc|]. split; [reflexivity|]. split; [reflexivity|].
  split; [reflexivity|].
  cbv beta iota delta [update_session Eff.bind Eff.call Eff.modify] in O.
  match type of O with
  | context [update ?s ?st ?p ?x ?f ?b0] =>
      destruct (update_spec s st p x f b0)
        as (b3 & E3 & (D1 & D2 & D3 & D4) & T3);
      rewrite E3 in O
  end.
  unfold log_research_complete, Eff.try_except in O. rewrite G in O.
  cbv beta iota delta [Eff.bind Eff.call Eff.modify Eff.ret] in O.
  destruct (insert_performance_log svc) as [[]|e].
  - eexists. split; [exact O|]. cbn [store evolution_log research_sessions
      evolution_performance_log connections]. rewrite D1, D2, D3, D4.
    split; [reflexivity|]. split; [intros k; reflexivity|].
    split; [reflexivity|]. split; [reflexivity|].
    intros h0 msgs T. now apply T3.
  - eexists. split; [exact O|]. rewrite D1, D2, D3, D4.
    split; [reflexivity|]. split; [intros k; reflexivity|].
    split; [reflexivity|]. split; [cbn; now rewrite app_nil_r|].
    intros h0 msgs T. now apply T3.
Qed.

(** A run, once the client is there: either everything is written and the
    verdict is "completed", or the first failure is caught, recorded if the
    database allows it, and the verdict is "failed". *)
Lemma run_spec (src : sources) (svc : services) (session_id : Z)
    (niche : string) (b : backend) :
  get_supabase svc = Ok tt ->
  let raw_products := run_products src niche in
  let n := List.length raw_products in
  let rows := map (product_row_of session_id niche) raw_products in
  exists b' verdict,
    run_full_research src svc session_id niche b = (Ok tt, b') /\
    told session_id (map progress_message progress_steps ++ [verdict])
      (connections b) (connections b') /\
    ((verdict = completed_message (Z.of_nat n) /\
      all_accepted (store b) n /\ dumps_trends_data svc = Ok tt /\
      update_completed svc = Ok tt /\ insert_evolution_log svc = Ok tt /\
      products_table (store b') = products_table (store b) ++ rows /\
      session_changed session_id (completed_row (Z.of_nat n))
        (research_sessions b) (research_sessions b') /\
      evolution_log b' = evolution_log b ++ [(niche, Z.of_nat n)] /\
      evolution_performance_log b'
      = evolution_performance_log b
        ++ match insert_performance_log svc with
           | Ok _ => [(niche, Z.of_nat n)]
           | Raise _ => []
           end) \/
     (verdict = failed_message /\
      evolution_log b' = evolution_log b /\
      evolution_performance_log b' = evolution_performance_log b /\
      exists e rows1,
        match update_failed svc with
        | Ok _ => session_changed session_id (failed_row e) rows1
                    (research_sessions b')
        | Raise _ => research_sessions b' = rows1
        end /\
        ((exists k,
            k < n /\ refused_at (store b) k e /\
            products_table (store b')
            = products_table (store b) ++ firstn k rows /\
            rows1 = research_sessions b) \/
         (all_accepted (store b) n /\
          products_table (store b') = products_table (store b) ++ rows /\
          ((dumps_trends_data svc = Raise e /\
            rows1 = research_sessions b) \/
           (dumps_trends_data svc = Ok tt /\ update_completed svc = Raise e /\
            rows1 = research_sessions b) \/
           (dumps_trends_data svc = Ok tt /\ update_completed svc = Ok tt /\
            insert_evolution_log svc = Raise e /\
            session_changed session_id (completed_row (Z.of_nat n))
              (research_sessions b) rows1)))))).
Proof.
  intros G raw_products n rows. unfold run_full_research.
  rewrite G, bind_call_ok. unfold Eff.try_except.
  destruct (research_steps_announce src svc session_id niche b)
    as (b8 & -> & (D1 & D2 & D3 & D4) & T8).
  destruct (store_and_report_spec svc session_id niche raw_products b8 G)
    as [(Acc & Du & Up & Lg & b' & E & Tb & Ss & El & Pl & T)
       |(e & b1 & E & C & El & Pl & Cases)];
    fold raw_products; rewrite E.
  - exists b', (completed_message (Z.of_nat n)).
    split; [reflexivity|]. split; [now apply T|]. left.
    rewrite D1 in Acc, Tb. rewrite D2 in Ss. rewrite D3 in El.
    rewrite D4 in Pl. fold n rows in Acc, Tb, Ss, El, Pl. tauto.
  - destruct (research_failed_spec svc session_id e b1)
      as (b' & E' & S1 & El' & Pl' & Ss' & T').
    exists b', failed_message. split; [exact E'|].
    split; [apply T'; now rewrite C|]. right.
    split; [reflexivity|]. split; [congruence|]. split; [congruence|].
    exists e, (research_sessions b1). split; [exact Ss'|].
    rewrite S1. rewrite D1, D2 in Cases. fold n rows in Cases.
    destruct Cases as [(k & Hk & R & Tb & Ss)|(Acc & Tb & Cases)].
    + left. exists k. auto.
    + right. split; [exact Acc|]. split; [exact Tb|].
      destruct Cases as [[? ?]|[(? & ? & ?)|(? & ? & ? & ?)]]; auto.
      right. right. auto.
Qed.



(** Sample surroundings of a run. *)
Definition kept_order : iteration_order :=
  {| iterate := fun l => l; iterate_perm := @Permutation_refl string |}.

Definition quiet_web : web :=
  {| google_search := fun _ => Ok []; pinterest_page := Ok [];
     month_year := "November 2026" |}.

Definition yoga_sources : sources :=
  {| set_order := kept_order; trends_library := partial_outage;
     events_library := partial_outage; the_web := quiet_web;
     html := sample_page; max_str_digits := Some 4300;
     network := one_answer; completion := in_order |}.

Definition all_up : services :=
  {| get_supabase := Ok tt; dumps_trends_data := Ok tt;
     update_completed := Ok tt; insert_evolution_log := Ok tt;
     insert_performance_log := Ok tt; update_failed := Ok tt |}.


Definition running_row : session_row :=
  {| s_status := "running"; s_products_found := None; s_error_log := None |}.

Definition session_7 (db : database) : backend :=
  {| connections := two_sockets; store := db;
     research_sessions := fun k => if Z.eqb k 7 then Some running_row
                                   else None;
     evolution_log := []; evolution_performance_log := [] |}.

Definition always_up : database :=
  {| products_table := []; accepts := fun _ => Ok tt |}.




(** ** The coroutines among the others *)

Definition not_in_list : exn := ValueError "list.remove(x): x not in list".

Lemma list_remove_outcome (x : socket) (l : list socket) :
  (exists l', list_remove x l = Ok l') \/ list_remove x l = Raise not_in_list.
Proof.
  induction l as [|y l IH]; [now right|]. cbn [list_remove].
  destruct (Nat.eqb x y); [left; eauto|].
  destruct IH as [(l' & ->)| ->]; [left; eauto|now right].
Qed.

Lemma remove_loop_cons (session_id : Z) (ws : socket) (rest : list socket)
    (h : hub) :
  remove_loop session_id (ws :: rest) h
  = match list_remove ws (research_ws_connections h session_id) with
    | Ok l => remove_loop session_id rest (set_connections session_id l h)
    | Raise e => (Raise e, h)
    end.
Proof.
  cbn [remove_loop]. unfold Eff.bind, Eff.get, Eff.call, Eff.modify.
  now destruct (list_remove ws (research_ws_connections h session_id)).
Qed.

Lemma remove_loop_outcome (session_id : Z) (dead : list socket) (h : hub) :
  exists h',
    remove_loop session_id dead h = (Ok tt, h') \/
    remove_loop session_id dead h = (Raise not_in_list, h').
Proof.
  revert h. induction dead as [|ws rest IH]; intros h.
  - exists h. now left.
  - rewrite remove_loop_cons.
    destruct (list_remove_outcome ws (research_ws_connections h session_id))
      as [(l' & ->)| ->].
    + apply IH.
    + exists h. now right.
Qed.

Lemma send_loop_among_returns (session_id : Z) (message : payload)
    (n i : nat) (dead : list socket) (sc : scene) :
  exists dead' sc',
    send_loop_among session_id message n i dead sc = (Ok dead', sc').
Proof.
  revert i dead sc. induction n as [|n IH]; intros i dead sc.
  - cbn [send_loop_among]. unfold Eff.bind, Eff.get, quietly, on_hub.
    rewrite send_loop_spec. eauto.
  - cbn [send_loop_among]. unfold Eff.bind at 1, Eff.get.
    destruct (nth_error (session_list session_id sc) i) as [ws|];
      [|unfold Eff.ret; eauto].
    unfold Eff.bind at 1, suspended, Eff.modify.
    unfold Eff.bind at 1, Eff.get.
    match goal with
    | |- context [is_open (connections (backstage ?s)) ws] =>
        destruct (is_open (connections (backstage s)) ws)
    end; [|apply IH].
    unfold Eff.bind at 1, quietly, on_hub, Eff.modify. apply IH.
Qed.

Lemma broadcast_among_eq (session_id : Z) (message : payload) (sc : scene)
    (dead : list socket) (sc1 : scene) :
  send_loop_among session_id message (List.length (pending sc)) 0 [] sc
  = (Ok dead, sc1) ->
  broadcast_progress_among session_id message sc
  = quietly (on_hub (remove_loop session_id dead)) sc1.
Proof.
  intros E. unfold broadcast_progress_among, Eff.bind, Eff.get.
  now rewrite E.
Qed.

Lemma broadcast_among_outcome (session_id : Z) (message : payload)
    (sc : scene) :
  exists sc',
    broadcast_progress_among session_id message sc = (Ok tt, sc') \/
    broadcast_progress_among session_id message sc = (Raise not_in_list, sc').
Proof.
  destruct (send_loop_among_returns session_id message
              (List.length (pending sc)) 0 [] sc) as (dead & sc1 & E).
  rewrite (broadcast_among_eq _ _ _ _ _ E). unfold quietly, on_hub.
  destruct (remove_loop_outcome session_id dead (connections (backstage sc1)))
    as (h' & [-> | ->]); eauto.
Qed.

(** Whatever the others do, a run that has its client returns, or raises the
    [ValueError] of the removal loop of its last broadcast. *)
Lemma run_among_outcome (src : sources) (svc : services) (session_id : Z)
    (niche : string) (sc : scene) :
  get_supabase svc = Ok tt ->
  exists sc',
    run_full_research_among src svc session_id niche sc = (Ok tt, sc') \/
    run_full_research_among src svc session_id niche sc
    = (Raise not_in_list, sc').
Proof.
  intros G.
  assert (E : run_full_research_among src svc session_id niche sc
              = Eff.try_except (research_steps_among src svc session_id niche)
                  (research_failed_among svc session_id) sc).
  { unfold run_full_research_among. now rewrite G. }
  rewrite E. clear E. unfold Eff.try_except.
  destruct (research_steps_among src svc session_id niche sc)
    as [[[]|e] sc1]; [eauto|].
  assert (Q : exists b,
            Eff.try_except
              (update_session (update_failed svc) session_id
                 (fun row => {| s_status := "failed";
                                s_products_found := s_products_found row;
                                s_error_log := Some (exn_str e) |}))
              (fun _ => Eff.ret tt) (backstage sc1) = (Ok tt, b)).
  { unfold Eff.try_except, update_session, Eff.bind, Eff.call, Eff.modify,
      Eff.ret.
    destruct (update_failed svc) as [[]|e']; eauto. }
  destruct Q as (b & Q).
  assert (E : research_failed_among svc session_id e sc1
              = broadcast_progress_among session_id
                  {| step := None; progress := 0;
                     status := Some "failed"%string; products_found := None;
                     error_text :=
                       Some "Research failed. Please try again."%string |}
                  {| backstage := b; pending := pending sc1 |}).
  { unfold research_failed_among. unfold Eff.bind at 1, quietly at 1.
    now rewrite Q. }
  rewrite E. apply broadcast_among_outcome.
Qed.

(** The others do nothing at any suspension. *)
Definition undisturbed (sched : list (list interference)) : Prop :=
  Forall (fun turn => turn = []) sched.

(** Among others that do nothing, [c] does what [c0] does without them. *)
Definition calmly {A : Type} (c : Eff.M scene A) (c0 : Eff.M backend A)
    : Prop :=
  forall sc, undisturbed (pending sc) ->
    exists sc',
      c sc = (fst (c0 (backstage sc)), sc') /\
      backstage sc' = snd (c0 (backstage sc)) /\
      undisturbed (pending sc').

Lemma calmly_quietly {A : Type} (c : Eff.M backend A) : calmly (quietly c) c.
Proof.
  intros sc U. unfold quietly. destruct (c (backstage sc)) as [r b].
  eexists. split; [reflexivity|]. split; [reflexivity|exact U].
Qed.

Lemma calmly_call {A : Type} (r : result A) : calmly (Eff.call r) (Eff.call r).
Proof. intros sc U. exists sc. repeat split. exact U. Qed.

Lemma calmly_bind {A B : Type} (c : Eff.M scene A) (c0 : Eff.M backend A)
    (k : A -> Eff.M scene B) (k0 : A -> Eff.M backend B) :
  calmly c c0 -> (forall a, calmly (k a) (k0 a)) ->
  calmly (Eff.bind c k) (Eff.bind c0 k0).
Proof.
  intros C K sc U. destruct (C sc U) as (sc1 & E & B1 & U1).
  unfold Eff.bind. rewrite E.
  destruct (c0 (backstage sc)) as [[a|e] b1]; cbn [fst snd] in *.
  - destruct (K a sc1 U1) as (sc2 & E2 & B2 & U2). rewrite B1 in E2, B2.
    exists sc2. auto.
  - exists sc1. auto.
Qed.

Lemma calmly_try_except {A : Type} (c : Eff.M scene A) (c0 : Eff.M backend A)
    (h : exn -> Eff.M scene A) (h0 : exn -> Eff.M backend A) :
  calmly c c0 -> (forall e, calmly (h e) (h0 e)) ->
  calmly (Eff.try_except c h) (Eff.try_except c0 h0).
Proof.
  intros C H sc U. destruct (C sc U) as (sc1 & E & B1 & U1).
  unfold Eff.try_except. rewrite E.
  destruct (c0 (backstage sc)) as [[a|e] b1]; cbn [fst snd] in *.
  - exists sc1. auto.
  - destruct (H e sc1 U1) as (sc2 & E2 & B2 & U2). rewrite B1 in E2, B2.
    exists sc2. auto.
Qed.

Lemma suspended_calm (sc : scene) :
  undisturbed (pending sc) ->
  exists sc',
    suspended sc = (Ok tt, sc') /\ backstage sc' = backstage sc /\
    undisturbed (pending sc') /\
    List.length (pending sc') = Nat.pred (List.length (pending sc)).
Proof.
  intros U. unfold suspended, Eff.modify. eexists. split; [reflexivity|].
  destruct sc as [b [|turn rest]]; cbn [pending backstage] in *; [auto|].
  inversion U as [|? ? T U']. subst. cbn [fold_left List.length Nat.pred].
  split; [now destruct b|]. split; [exact U'|reflexivity].
Qed.

Lemma calmly_after_suspension {A : Type} (c : Eff.M scene A)
    (c0 : Eff.M backend A) :
  calmly c c0 -> calmly (suspended ;;; c) c0.
Proof.
  intros C sc U. destruct (suspended_calm sc U) as (sc1 & E & B & U1 & _).
  unfold Eff.bind. rewrite E. destruct (C sc1 U1) as (sc2 & E2 & B2 & U2).
  rewrite B in E2, B2. exists sc2. auto.
Qed.

Lemma skipn_nth_error_some {A : Type} (l : list A) (i : nat) (x : A) :
  nth_error l i = Some x -> skipn i l = x :: skipn (S i) l.
Proof.
  revert l. induction i as [|i IH]; intros [|y l]; cbn; try discriminate.
  - intros H. now injection H as <-.
  - apply IH.
Qed.

Lemma skipn_nth_error_none {A : Type} (l : list A) (i : nat) :
  nth_error l i = None -> skipn i l = [].
Proof.
  revert l. induction i as [|i IH]; intros [|y l]; cbn; try discriminate;
    auto.
Qed.

Lemma send_loop_among_calm (session_id : Z) (message : payload)
    (n i : nat) (dead : list socket) (sc : scene) :
  undisturbed (pending sc) -> List.length (pending sc) = n ->
  let h := connections (backstage sc) in
  let l := skipn i (research_ws_connections h session_id) in
  exists sc',
    send_loop_among session_id message n i dead sc
    = (Ok (dead ++ filter (fun ws => negb (is_open h ws)) l), sc') /\
    connections (backstage sc')
    = {| research_ws_connections := research_ws_connections h;
         is_open := is_open h;
         sent := sent h ++ to_each (filter (is_open h) l) message |} /\
    same_data (backstage sc) (backstage sc') /\
    undisturbed (pending sc').
Proof.
  revert i dead sc. induction n as [|n IH]; intros i dead sc U L h l.
  - cbn [send_loop_among]. unfold Eff.bind, Eff.get, quietly, on_hub.
    unfold session_list. fold h. fold l. rewrite send_loop_spec.
    eexists. split; [reflexivity|]. cbn. repeat split. exact U.
  - cbn [send_loop_among]. unfold Eff.bind at 1, Eff.get.
    unfold session_list. fold h.
    destruct (nth_error (research_ws_connections h session_id) i) as [ws|]
      eqn:N.
    + destruct (suspended_calm sc U) as (sc1 & E & B & U1 & L1).
      rewrite (bind_ok _ _ _ _ _ E). unfold Eff.bind at 1, Eff.get.
      rewrite B. fold h.
      assert (Sk : l = ws :: skipn (S i) (research_ws_connections h session_id))
        by (now apply skipn_nth_error_some).
      rewrite Sk. cbn [filter].
      destruct (is_open h ws) eqn:O; cbn [negb].
      * unfold Eff.bind at 1, quietly at 1, on_hub at 1, Eff.modify at 1.
        rewrite B. fold h.
        match goal with
        | |- context [send_loop_among _ _ n (S i) dead ?s] =>
            destruct (IH (S i) dead s) as (sc' & E' & C' & D' & U')
        end.
        { exact U1. }
        { cbn [pending]. rewrite L1, L. reflexivity. }
        cbn [backstage connections research_ws_connections is_open sent]
          in E', C', D'.
        exists sc'. split; [exact E'|]. split; [|split; [|exact U']].
        -- rewrite C'. cbn [to_each map]. now rewrite <- app_assoc.
        -- destruct D' as (D1 & D2 & D3 & D4). cbn in D1, D2, D3, D4.
           repeat split; assumption.
      * destruct (IH (S i) (dead ++ [ws]) sc1 U1) as (sc' & E' & C' & D' & U').
        { rewrite L1, L. reflexivity. }
        rewrite B in E', C', D'. fold h in E', C'.
        exists sc'. split; [|split; [exact C'|split; [exact D'|exact U']]].
        rewrite E'. now rewrite <- app_assoc.
    + unfold Eff.ret. unfold l. rewrite (skipn_nth_error_none _ _ N).
      cbn [filter to_each map]. rewrite !app_nil_r.
      exists sc. split; [reflexivity|].
      split; [unfold h; now destruct (connections (backstage sc))|].
      split; [repeat split|exact U].
Qed.

Lemma calmly_broadcast (session_id : Z) (message : payload) :
  calmly (broadcast_progress_among session_id message)
    (on_hub (broadcast_progress session_id message)).
Proof.
  intros sc U.
  destruct (send_loop_among_calm session_id message (List.length (pending sc))
              0 [] sc U eq_refl) as (sc1 & E & C & (D1 & D2 & D3 & D4) & U1).
  cbn [skipn app] in E, C.
  rewrite (broadcast_among_eq _ _ _ _ _ E). unfold quietly, on_hub.
  rewrite C, D1, D2, D3, D4.
  assert (A : broadcast_progress session_id message (connections (backstage sc))
              = remove_loop session_id
                  (filter (fun ws => negb (is_open (connections (backstage sc)) ws))
                     (research_ws_connections (connections (backstage sc))
                        session_id))
                  {| research_ws_connections :=
                       research_ws_connections (connections (backstage sc));
                     is_open := is_open (connections (backstage sc));
                     sent := sent (connections (backstage sc))
                             ++ to_each
                                  (filter (is_open (connections (backstage sc)))
                                     (research_ws_connections
                                        (connections (backstage sc)) session_id))
                                  message |}).
  { unfold broadcast_progress, Eff.bind, Eff.get. now rewrite send_loop_spec. }
  rewrite A.
  match goal with
  | |- context [remove_loop ?s ?d ?h] => destruct (remove_loop s d h) as [r h']
  end.
  eexists. split; [reflexivity|]. split; [reflexivity|exact U1].
Qed.

Lemma calmly_steps (src : sources) (svc : services) (session_id : Z)
    (niche : string) :
  calmly (research_steps_among src svc session_id niche)
    (research_steps src svc session_id niche).
Proof.
  unfold research_steps_among, research_steps, update_among, update.
  repeat first
    [ apply calmly_after_suspension
    | apply calmly_broadcast
    | apply calmly_quietly
    | apply calmly_call
    | apply calmly_bind; [|intros ?]
    | progress cbv zeta ].
Qed.

Lemma calmly_run (src : sources) (svc : services) (session_id : Z)
    (niche : string) :
  calmly (run_full_research_among src svc session_id niche)
    (run_full_research src svc session_id niche).
Proof.
  unfold run_full_research_among, run_full_research.
  apply calmly_bind; [apply calmly_call|intros _].
  apply calmly_try_except; [apply calmly_steps|intros e].
  unfold research_failed_among, research_failed.
  apply calmly_bind; [apply calmly_quietly|intros _].
  apply calmly_broadcast.
Qed.

Lemma on_hub_broadcast (session_id : Z) (message : payload) (b : backend) :
  exists b',
    on_hub (broadcast_progress session_id message) b = (Ok tt, b') /\
    sent (connections b')
    = sent (connections b) ++ to_each (live session_id (connections b)) message /\
    research_ws_connections (connections b') session_id
    = live session_id (connections b) /\
    (forall k, k <> session_id ->
       research_ws_connections (connections b') k
       = research_ws_connections (connections b) k) /\
    is_open (connections b') = is_open (connections b).
Proof.
  destruct (broadcast_spec session_id message (connections b))
    as (h' & E & T & R & K & I).
  unfold on_hub. rewrite E. eexists. split; [reflexivity|]. cbn. auto.
Qed.

(** X24. A broadcast among the other coroutines.  Whatever they do while it
    is suspended, it raises nothing but the [ValueError] of its removal
    loop.  When they do nothing, it does not raise: it sends the message
    once to every socket of the session on which sending succeeds, in the
    order of registration, and to no other socket; the sockets on which
    sending failed are dropped from the session's list, the others stay in
    their order, and the lists of the other sessions are left alone.  But
    when the disconnect handler of a closed socket runs while the broadcast
    is suspended in sending to it, the removal loop finds the socket gone
    and the broadcast raises. *)
Theorem broadcast_reaches_the_open_sockets :
  forall (session_id : Z) (message : payload) (sc : scene),
    (exists sc',
       broadcast_progress_among session_id message sc = (Ok tt, sc') \/
       broadcast_progress_among session_id message sc
       = (Raise (ValueError "list.remove(x): x not in list"), sc')) /\
    (undisturbed (pending sc) ->
     exists sc',
       broadcast_progress_among session_id message sc = (Ok tt, sc') /\
       sent (connections (backstage sc'))
       = sent (connections (backstage sc))
         ++ map (fun ws => (ws, message))
              (filter (is_open (connections (backstage sc)))
                 (session_list session_id sc)) /\
       session_list session_id sc'
       = filter (is_open (connections (backstage sc)))
           (session_list session_id sc) /\
       (forall k, k <> session_id ->
          session_list k sc' = session_list k sc) /\
       is_open (connections (backstage sc'))
       = is_open (connections (backstage sc))) /\
    (forall ws rest,
       session_list session_id sc = [ws] ->
       is_open (connections (backstage sc)) ws = false ->
       pending sc = [Disconnected session_id ws] :: rest ->
       exists sc',
         broadcast_progress_among session_id message sc
         = (Raise (ValueError "list.remove(x): x not in list"), sc')).
Proof.
  intros session_id message sc. split; [|split].
  - apply broadcast_among_outcome.
  - intros U. destruct (calmly_broadcast session_id message sc U)
      as (sc' & E & B & _).
    destruct (on_hub_broadcast session_id message (backstage sc))
      as (b' & E0 & T & R & K & I).
    rewrite E0 in E, B. cbn [fst snd] in E, B.
    exists sc'. unfold session_list. rewrite B. auto.
  - intros ws rest L O P.
    destruct sc as [b sched]. cbn [pending] in P. subst sched.
    unfold session_list in L. cbn [backstage] in L, O.
    assert (E : exists sc1,
              send_loop_among session_id message
                (List.length ([Disconnected session_id ws] :: rest)) 0 []
                {| backstage := b;
                   pending := [Disconnected session_id ws] :: rest |}
              = (Ok [ws], sc1) /\
              research_ws_connections (connections (backstage sc1)) session_id
              = []).
    { cbn [List.length send_loop_among]. unfold Eff.bind at 1, Eff.get.
      unfold session_list. cbn [backstage]. rewrite L. cbn [nth_error].
      unfold Eff.bind at 1, suspended, Eff.modify.
      cbn [pending backstage fold_left occurs].
      unfold websocket_disconnected, Eff.bind at 3 4, Eff.get, Eff.call.
      rewrite L. cbn [list_remove]. rewrite Nat.eqb_refl.
      unfold Eff.modify. cbn [snd].
      unfold Eff.bind at 1. cbn [backstage connections is_open set_connections].
      rewrite O. cbn [app].
      destruct rest as [|turn rest]; cbn [List.length send_loop_among].
      - unfold Eff.bind, Eff.get, quietly, on_hub, session_list.
        cbn [backstage connections research_ws_connections set_connections].
        rewrite Z.eqb_refl. cbn [skipn send_loop]. unfold Eff.ret.
        eexists. split; [reflexivity|]. cbn. now rewrite Z.eqb_refl.
      - unfold Eff.bind, Eff.get, session_list.
        cbn [backstage connections research_ws_connections set_connections].
        rewrite Z.eqb_refl. cbn [nth_error]. unfold Eff.ret.
        eexists. split; [reflexivity|]. cbn. now rewrite Z.eqb_refl. }
    destruct E as (sc1 & E & R).
    rewrite (broadcast_among_eq session_id message
               {| backstage := b;
                  pending := [Disconnected session_id ws] :: rest |}
               [ws] sc1 E).
    unfold quietly, on_hub.
    rewrite remove_loop_cons, R. cbn [list_remove]. eauto.
Qed.

(** A session with one socket, on which sending fails. *)
Definition one_closed_socket : backend :=
  {| connections :=
       {| research_ws_connections := fun k => if Z.eqb k 7 then [2] else [];
          is_open := fun _ => false; sent := [] |};
     store := always_up; research_sessions := fun _ => None;
     evolution_log := []; evolution_performance_log := [] |}.

Lemma broadcast_reaches_the_open_sockets_witness :
  exists sc',
    broadcast_progress_among 7 saving
      {| backstage := one_closed_socket; pending := [[Disconnected 7 2]] |}
    = (Raise (ValueError "list.remove(x): x not in list"), sc').
Proof.
  exact (proj2 (proj2 (broadcast_reaches_the_open_sockets 7 saving
           {| backstage := one_closed_socket;
              pending := [[Disconnected 7 2]] |})) 2 [] eq_refl eq_refl
           eq_refl).
Defined.

Lemma run_verdict_undisturbed (src : sources) (svc : services)
    (session_id : Z) (niche : string) (b : backend) :
  get_supabase svc = Ok tt ->
  exists b' verdict,
    run_full_research src svc session_id niche b = (Ok tt, b') /\
    sent (connections b')
    = sent (connections b)
      ++ flat_map
           (fun message =>
              map (fun ws => (ws, message))
                (filter (is_open (connections b))
                   (research_ws_connections (connections b) session_id)))
           (map progress_message progress_steps ++ [verdict]) /\
    (verdict
     = completed_message
         (Z.of_nat (List.length (run_products src niche))) \/
     verdict = failed_message) /\
    (forall k, k <> session_id ->
       research_ws_connections (connections b') k
       = research_ws_connections (connections b) k).
Proof.
  intros G.
  destruct (run_spec src svc session_id niche b G)
    as (b' & verdict & E & (T & _ & _ & K) & Cases).
  exists b', verdict. split; [exact E|]. split; [exact T|].
  split; [|exact K]. destruct Cases as [[-> _]|[-> _]]; auto.
Qed.

(** X27. A research run among the other coroutines, once the database
    client is there.  Whatever the others do and whatever fails inside the
    run, it raises nothing but the [ValueError] of the removal loop of a
    broadcast.  When no client connects to or disconnects from the server
    during the run, it does not raise: the subscribers of the session that
    are open receive the eight progress messages (5, 15, 25, 35, 60, 75, 85
    and 92 per cent) in order, followed by exactly one verdict, "completed"
    with the number of products of the run or "failed" with a progress of
    0, and the registrations of the other sessions are left alone. *)
Theorem a_run_reports_progress_and_one_verdict :
  forall (src : sources) (svc : services) (session_id : Z) (niche : string)
         (sc : scene),
    get_supabase svc = Ok tt ->
    (exists sc',
       run_full_research_among src svc session_id niche sc = (Ok tt, sc') \/
       run_full_research_among src svc session_id niche sc
       = (Raise (ValueError "list.remove(x): x not in list"), sc')) /\
    (undisturbed (pending sc) ->
     exists sc' verdict,
       run_full_research_among src svc session_id niche sc = (Ok tt, sc') /\
       sent (connections (backstage sc'))
       = sent (connections (backstage sc))
         ++ flat_map
              (fun message =>
                 map (fun ws => (ws, message))
                   (filter (is_open (connections (backstage sc)))
                      (session_list session_id sc)))
              (map progress_message progress_steps ++ [verdict]) /\
       (verdict
        = completed_message
            (Z.of_nat (List.length (run_products src niche))) \/
        verdict = failed_message) /\
       (forall k, k <> session_id ->
          session_list k sc' = session_list k sc)).
Proof.
  intros src svc session_id niche sc G. split.
  - now apply run_among_outcome.
  - intros U.
    destruct (calmly_run src svc session_id niche sc U) as (sc' & E & B & _).
    destruct (run_verdict_undisturbed src svc session_id niche (backstage sc)
                G) as (b' & verdict & E0 & T & V & K).
    rewrite E0 in E, B. cbn [fst snd] in E, B.
    exists sc', verdict. unfold session_list. rewrite B. auto.
Qed.

Lemma a_run_reports_progress_and_one_verdict_witness :
  exists sc' verdict,
    run_full_research_among yoga_sources all_up 7 "yoga mats"
      {| backstage := session_7 always_up; pending := [[]; []] |}
    = (Ok tt, sc') /\
    sent (connections (backstage sc'))
    = flat_map (fun message => [(1, message)])
        (map progress_message progress_steps ++ [verdict]).
Proof.
  destruct (proj2 (a_run_reports_progress_and_one_verdict yoga_sources all_up
                     7 "yoga mats"
                     {| backstage := session_7 always_up;
                        pending := [[]; []] |} eq_refl)
              ltac:(repeat constructor))
    as (sc' & verdict & E & T & _).
  exists sc', verdict. split; [exact E|exact T].
Defined.

(** Two runs that are disturbed.  In the first, socket 2 is closed and its
    disconnect handler runs while the first progress message is being sent
    to it: the broadcast raises inside the [try], and the run ends with the
    verdict "failed" with nothing stored, although no service failed.  In
    the second, the same happens to socket 3 during the broadcast of that
    verdict, outside any [try]: the run raises. *)
Definition three_sockets : hub :=
  {| research_ws_connections := fun k => if Z.eqb k 7 then [1; 2; 3] else [];
     is_open := fun ws => Nat.eqb ws 1;
     sent := [] |}.

Example disturbed_runs :
  (let out :=
     run_full_research_among yoga_sources all_up 7 "yoga mats"
       {| backstage := session_7 always_up;
          pending := [[]; [Disconnected 7 2]] |} in
   fst out = Ok tt /\
   sent (connections (backstage (snd out)))
   = [(1, progress_message
            ("Analyzing Google Trends for your niche..."%string, 5%Z));
      (1, failed_message)] /\
   products_table (store (backstage (snd out))) = []) /\
  fst (run_full_research_among yoga_sources all_up 7 "yoga mats"
         {| backstage :=
              {| connections := three_sockets; store := always_up;
                 research_sessions := fun _ => None;
                 evolution_log := []; evolution_performance_log := [] |};
            pending := [[]; [Disconnected 7 2]; []; [Disconnected 7 3]] |})
  = Raise (ValueError "list.remove(x): x not in list").
Proof. split; [split; [|split]|]; vm_compute; reflexivity. Qed.

Lemma completed_run_undisturbed (src : sources) (svc : services)
    (session_id : Z) (niche : string) (b : backend) :
  let raw_products := run_products src niche in
  let n := Z.of_nat (List.length raw_products) in
  get_supabase svc = Ok tt ->
  all_accepted (store b) (List.length raw_products) ->
  dumps_trends_data svc = Ok tt ->
  update_completed svc = Ok tt ->
  insert_evolution_log svc = Ok tt ->
  exists b',
    run_full_research src svc session_id niche b = (Ok tt, b') /\
    told session_id
      (map progress_message progress_steps ++ [completed_message n])
      (connections b) (connections b') /\
    products_table (store b')
    = products_table (store b)
      ++ map (product_row_of session_id niche) raw_products /\
    (forall row,
       research_sessions b session_id = Some row ->
       research_sessions b' session_id
       = Some {| s_status := "completed"; s_products_found := Some n;
                 s_error_log := s_error_log row |}) /\
    (forall k, k <> session_id ->
       research_sessions b' k = research_sessions b k) /\
    evolution_log b' = evolution_log b ++ [(niche, n)].
Proof.
  intros raw_products n G Acc Du Up Lg.
  destruct (run_spec src svc session_id niche b G)
    as (b' & verdict & E & T & Cases).
  fold raw_products in Cases, T. fold n in Cases, T.
  destruct Cases
    as [(-> & _ & _ & _ & _ & Tb & Ss & El & _)
       |(_ & _ & _ & e & rows1 & _ & Cases)].
  - exists b'. split; [exact E|]. split; [exact T|]. split; [exact Tb|].
    split; [|split; [|exact El]].
    + intros row R. rewrite (Ss session_id), Z.eqb_refl, R. reflexivity.
    + intros k N. rewrite (Ss k).
      now destruct (Z.eqb_spec k session_id).
  - exfalso.
    destruct Cases as [(k & Hk & [_ R] & _)|(_ & _ & Cases)].
    + rewrite (Acc k Hk) in R. discriminate.
    + destruct Cases as [[? _]|[(_ & ? & _)|(_ & _ & ? & _)]]; congruence.
Qed.

(** X28. When no client connects to or disconnects from the server during
    the run, a run whose writes are all accepted (every product row, the
    session row and the log entry) ends with the verdict "completed": the
    table has gained the rows of the run's products, in ranking order, the
    session row says "completed" with their number, and the log has one
    entry more, whether or not the performance log then accepts its own
    entry. *)
Theorem a_completed_run_has_stored_everything :
  forall (src : sources) (svc : services) (session_id : Z) (niche : string)
         (sc : scene),
    let raw_products := run_products src niche in
    let n := Z.of_nat (List.length raw_products) in
    get_supabase svc = Ok tt ->
    undisturbed (pending sc) ->
    all_accepted (store (backstage sc)) (List.length raw_products) ->
    dumps_trends_data svc = Ok tt ->
    update_completed svc = Ok tt ->
    insert_evolution_log svc = Ok tt ->
    exists sc',
      run_full_research_among src svc session_id niche sc = (Ok tt, sc') /\
      told session_id
        (map progress_message progress_steps ++ [completed_message n])
        (connections (backstage sc)) (connections (backstage sc')) /\
      products_table (store (backstage sc'))
      = products_table (store (backstage sc))
        ++ map (product_row_of session_id niche) raw_products /\
      (forall row,
         research_sessions (backstage sc) session_id = Some row ->
         research_sessions (backstage sc') session_id
         = Some {| s_status := "completed"; s_products_found := Some n;
                   s_error_log := s_error_log row |}) /\
      (forall k, k <> session_id ->
         research_sessions (backstage sc') k
         = research_sessions (backstage sc) k) /\
      evolution_log (backstage sc')
      = evolution_log (backstage sc) ++ [(niche, n)].
Proof.
  intros src svc session_id niche sc raw_products n G U Acc Du Up Lg.
  destruct (calmly_run src svc session_id niche sc U) as (sc' & E & B & _).
  destruct (completed_run_undisturbed src svc session_id niche (backstage sc)
              G Acc Du Up Lg) as (b' & E0 & Facts).
  rewrite E0 in E, B. cbn [fst snd] in E, B.
  exists sc'. rewrite B. split; [exact E|exact Facts].
Qed.

Lemma a_completed_run_has_stored_everything_witness :
  exists sc',
    run_full_research_among yoga_sources all_up 7 "yoga mats"
      {| backstage := session_7 always_up; pending := [[]; []] |}
    = (Ok tt, sc') /\
    products_table (store (backstage sc'))
    = map (product_row_of 7 "yoga mats")
        (run_products yoga_sources "yoga mats").
Proof.
  destruct (a_completed_run_has_stored_everything yoga_sources all_up 7
              "yoga mats"
              {| backstage := session_7 always_up; pending := [[]; []] |}
              eq_refl ltac:(repeat constructor)
              (fun i _ => eq_refl) eq_refl eq_refl eq_refl)
    as (sc' & E & _ & Tb & _).
  exists sc'. split; [exact E|exact Tb].
Defined.
